(** * life-os-manager: the task / schedule data layer of [app.py]

    A shallow embedding of the storage helpers ([init_sheets], [load_data],
    [save_entry], [bulk_save_entries], [update_status_in_sheet],
    [delete_task_from_sheet], [add_recurring_schedule]) and of the read-side
    projections of the dashboard ([tmrw_high], [total_km], [daily_tasks] and
    the agenda loop that builds [time_str]).

    Conventions.
    - A worksheet is the grid of displayed cell texts, row 1 being the header.
    - Python values that travel through dicts and DataFrames are [value]s.
      Numbers are exact rationals: binary rounding of floats is outside the
      model.
    - A date is its proleptic Gregorian ordinal ([date.toordinal()]).  The
      end of Python's calendar (9999-12-31) is modelled where a stored
      Duration can reach it, not for dates derived from today's date.
    - Calls into gspread run in a state-and-exception monad over [World]; every
      call first consults the transport ([faults]) and is recorded in [calls].
    - What Python's [int()]/[float()] accept, how Sheets prints a number and
      what [pd.to_datetime] accepts are parameters of the development. *)

From Stdlib Require Import List String Ascii ZArith QArith Qcanon Qround Bool Lia.
From Stdlib Require Import Permutation Sorted DecimalString.
Import ListNotations.

Local Open Scope string_scope.
Local Open Scope Z_scope.

(** ** Python values and exceptions *)

Inductive value : Type :=
| VStr (s : string)
| VNum (q : Qc)
| VDate (d : Z)
| VNaN.

Inductive exn : Type :=
| APIError
| WorksheetNotFound
| GSpreadException
| IndexError
| KeyError
| TypeError
| ValueError
| OverflowError.

Definition value_eqb (a b : value) : bool :=
  match a, b with
  | VStr s, VStr t => String.eqb s t
  | VNum p, VNum q => Qeq_bool p q
  | VDate d, VDate e => Z.eqb d e
  | _, _ => false
  end.

(** A Python dict keeps insertion order: [entry.values()] lists the values in
    the order the keys were written. *)
Definition dict : Type := list (string * value).

Fixpoint dict_get (k : string) (d : dict) : option value :=
  match d with
  | [] => None
  | (k', v) :: d' => if String.eqb k k' then Some v else dict_get k d'
  end.

Fixpoint dict_set (k : string) (v : value) (d : dict) : dict :=
  match d with
  | [] => [(k, v)]
  | (k', v') :: d' =>
      if String.eqb k k' then (k', v) :: d' else (k', v') :: dict_set k v d'
  end.

Definition dict_keys (d : dict) : list string := map fst d.
Definition dict_values (d : dict) : list value := map snd d.

Definition mem_string (s : string) (l : list string) : bool :=
  existsb (String.eqb s) l.

(** ** Calendar: [datetime.date] as an ordinal *)

Module Calendar.

Definition MINORDINAL : Z := 1.
Definition MAXORDINAL : Z := 3652059.

Definition in_calendarb (d : Z) : bool :=
  (MINORDINAL <=? d) && (d <=? MAXORDINAL).

(** [date + timedelta(days=n)] for a date read from the clock. *)
Definition add_days (d n : Z) : Z := d + n.

(** [date.weekday()]: Monday is 0. *)
Definition weekday (d : Z) : Z := (d + 6) mod 7.

Definition day_names : list string :=
  ["Monday"; "Tuesday"; "Wednesday"; "Thursday"; "Friday"; "Saturday";
   "Sunday"].

(** [date.strftime("%A")] in the C locale. *)
Definition strftime_A (d : Z) : string :=
  nth (Z.to_nat (weekday d)) day_names "".

Definition DAYS_IN_MONTH : list Z :=
  [-1; 31; 28; 31; 30; 31; 30; 31; 31; 30; 31; 30; 31].
Definition DAYS_BEFORE_MONTH : list Z :=
  [-1; 0; 31; 59; 90; 120; 151; 181; 212; 243; 273; 304; 334].

Definition b2z (b : bool) : Z := if b then 1 else 0.

(** [datetime._ord2ymd]. *)
Definition ord2ymd (ordinal : Z) : Z * Z * Z :=
  let n := ordinal - 1 in
  let n400 := n / 146097 in
  let n := n mod 146097 in
  let year := n400 * 400 + 1 in
  let n100 := n / 36524 in
  let n := n mod 36524 in
  let n4 := n / 1461 in
  let n := n mod 1461 in
  let n1 := n / 365 in
  let n := n mod 365 in
  let year := year + n100 * 100 + n4 * 4 + n1 in
  if (n1 =? 4) || (n100 =? 4) then (year - 1, 12, 31)
  else
    let leapyear := (n1 =? 3) && (negb (n4 =? 24) || (n100 =? 3)) in
    let month := Z.shiftr (n + 50) 5 in
    let preceding :=
      nth (Z.to_nat month) DAYS_BEFORE_MONTH 0
      + b2z ((2 <? month) && leapyear) in
    if n <? preceding then
      let month := month - 1 in
      let preceding :=
        preceding
        - (nth (Z.to_nat month) DAYS_IN_MONTH 0
           + b2z ((month =? 2) && leapyear)) in
      (year, month, n - preceding + 1)
    else (year, month, n - preceding + 1).

Definition digit (n : Z) : ascii :=
  ascii_of_nat (48 + Z.to_nat (n mod 10)).

(** ["%02d"] and ["%04d"] on the ranges dates and times use. *)
Definition zfill2 (n : Z) : string :=
  String (digit (n / 10)) (String (digit n) "").
Definition zfill4 (n : Z) : string :=
  String (digit (n / 1000)) (String (digit (n / 100)) (zfill2 n)).

(** [str(date)], that is [date.isoformat()]. *)
Definition str_date (d : Z) : string :=
  let '(y, m, dd) := ord2ymd d in
  zfill4 y ++ "-" ++ zfill2 m ++ "-" ++ zfill2 dd.

(** A [datetime.time] (hour, minute) and its [strftime("%H:%M")]. *)
Record time : Type := mk_time { hour : Z; minute : Z }.

Definition strftime_HM (t : time) : string :=
  zfill2 (hour t) ++ ":" ++ zfill2 (minute t).

End Calendar.

Local Open Scope list_scope.

(** ** Worksheets: the grid of cell texts *)

Definition worksheet : Type := list (list string).

(** A [gspread] cell handle as [findall] returns it. *)
Record cell : Type := mk_cell { row : nat; col : nat; cell_text : string }.

Module Grid.

Definition width (ws : worksheet) : nat :=
  fold_right (fun r w => Nat.max (List.length r) w) 0%nat ws.

Definition pad (w : nat) (r : list string) : list string :=
  r ++ repeat "" (w - List.length r)%nat.

(** [gspread.utils.fill_gaps]: every row padded to the widest one. *)
Definition fill_gaps (ws : worksheet) : worksheet := map (pad (width ws)) ws.

(** Text of the cell at 1-based row [r], column [c]; a blank cell reads [""]. *)
Definition cell_value (ws : worksheet) (r c : nat) : string :=
  nth (pred c) (nth (pred r) ws []) "".

Fixpoint find_in_row (q : string) (r c : nat) (cells : list string)
  : list cell :=
  match cells with
  | [] => []
  | x :: cells' =>
      (if String.eqb x q then [mk_cell r c x] else [])
        ++ find_in_row q r (S c) cells'
  end.

Fixpoint find_in_rows (q : string) (r : nat) (rs : worksheet) : list cell :=
  match rs with
  | [] => []
  | cells :: rs' => find_in_row q r 1 cells ++ find_in_rows q (S r) rs'
  end.

(** [Worksheet.findall(query)] for a [str] query: the cells of the whole
    sheet, header included, whose text equals the query, row by row. *)
Definition findall (ws : worksheet) (q : string) : list cell :=
  find_in_rows q 1 (fill_gaps ws).

(** Trailing blank cells are not returned by the values API. *)
Fixpoint rstrip (cells : list string) : list string :=
  match cells with
  | [] => []
  | x :: cells' =>
      match rstrip cells' with
      | [] => if String.eqb x "" then [] else [x]
      | kept => x :: kept
      end
  end.

(** [Worksheet.row_values(r)]. *)
Definition row_values (ws : worksheet) (r : nat) : list string :=
  rstrip (nth (pred r) ws []).

(** Write at index [n], extending the list with [d] when it is too short. *)
Fixpoint set_nth {A : Type} (d : A) (n : nat) (v : A) (l : list A) : list A :=
  match n, l with
  | O, [] => [v]
  | O, _ :: l' => v :: l'
  | S n', [] => d :: set_nth d n' v []
  | S n', x :: l' => x :: set_nth d n' v l'
  end.

(** [Worksheet.update_cell(r, c, v)]. *)
Definition update_cell (ws : worksheet) (r c : nat) (v : string) : worksheet :=
  set_nth [] (pred r) (set_nth "" (pred c) v (nth (pred r) ws [])) ws.

(** [Worksheet.delete_rows(r)]: the rows below move up by one. *)
Definition delete_rows (ws : worksheet) (r : nat) : worksheet :=
  firstn (pred r) ws ++ skipn r ws.

Fixpoint nodupb (l : list string) : bool :=
  match l with
  | [] => true
  | x :: l' => negb (mem_string x l') && nodupb l'
  end.

End Grid.

(** ** The world: spreadsheet, transport, call log, UI notices *)

Inductive call : Type :=
| OpenByUrl
| GetWorksheet (title : string)
| AddWorksheet (title : string)
| AppendRow (title : string) (cells : list string)
| AppendRows (title : string) (rs : list (list string))
| GetAllRecords (title : string)
| FindAll (title : string) (query : string)
| GetCell (title : string) (r c : nat)
| UpdateCell (title : string) (r c : nat) (v : string)
| RowValues (title : string) (r : nat)
| DeleteRows (title : string) (r : nat).

Record World : Type := mk_world {
  sheets : list (string * worksheet);
  (** one entry per future API call: [true] makes that call fail *)
  faults : list bool;
  (** every API call issued so far, oldest first *)
  calls : list call;
  (** [st.warning] messages shown so far, oldest first *)
  notices : list string
}.

Definition reliable (w : World) : Prop := faults w = [].

Fixpoint lookup_sheet (title : string) (l : list (string * worksheet))
  : option worksheet :=
  match l with
  | [] => None
  | (t, ws) :: l' => if String.eqb title t then Some ws else lookup_sheet title l'
  end.

Fixpoint store_sheet (title : string) (ws : worksheet)
  (l : list (string * worksheet)) : list (string * worksheet) :=
  match l with
  | [] => [(title, ws)]
  | (t, ws') :: l' =>
      if String.eqb title t then (t, ws) :: l'
      else (t, ws') :: store_sheet title ws l'
  end.

(** ** State and exceptions *)

Definition M (A : Type) : Type := World -> (exn + A) * World.

Definition ret {A : Type} (a : A) : M A := fun w => (inr a, w).

Definition raise {A : Type} (e : exn) : M A := fun w => (inl e, w).

Definition bind {A B : Type} (m : M A) (k : A -> M B) : M B :=
  fun w =>
    match m w with
    | (inr a, w') => k a w'
    | (inl e, w') => (inl e, w')
    end.

(** [try: m except: h] with a bare [except]. *)
Definition try_except {A : Type} (m : M A) (h : exn -> M A) : M A :=
  fun w =>
    match m w with
    | (inl e, w') => h e w'
    | r => r
    end.

Definition lift {A : Type} (r : exn + A) : M A := fun w => (r, w).

Declare Scope monad_scope.
Delimit Scope monad_scope with monad.
Notation "x <- m ;; k" := (bind m (fun x => k))
  (at level 61, m at next level, right associativity) : monad_scope.
Notation "m ;; k" := (bind m (fun _ => k))
  (at level 61, right associativity) : monad_scope.
Local Open Scope monad_scope.

Fixpoint for_each {A : Type} (l : list A) (body : A -> M unit) : M unit :=
  match l with
  | [] => ret tt
  | x :: l' => body x ;; for_each l' body
  end.

(** Every API call goes through the transport and is logged. *)
Definition request (c : call) : M unit :=
  fun w =>
    let logged fs := mk_world (sheets w) fs (calls w ++ [c]) (notices w) in
    match faults w with
    | true :: fs => (inl APIError, logged fs)
    | false :: fs => (inr tt, logged fs)
    | [] => (inr tt, logged [])
    end.

Definition st_warning (msg : string) : M unit :=
  fun w => (inr tt, mk_world (sheets w) (faults w) (calls w) (notices w ++ [msg])).

Definition read_sheet (title : string) : M worksheet :=
  fun w =>
    match lookup_sheet title (sheets w) with
    | Some ws => (inr ws, w)
    | None => (inl APIError, w)
    end.

Definition write_sheet (title : string) (ws : worksheet) : M unit :=
  fun w =>
    (inr tt, mk_world (store_sheet title ws (sheets w)) (faults w) (calls w)
               (notices w)).

(** Exceptions alone, for the code that touches no state. *)
Definition ebind {A B : Type} (r : exn + A) (k : A -> exn + B) : exn + B :=
  match r with
  | inl e => inl e
  | inr a => k a
  end.

Notation "'let!' x ':=' r 'in' k" := (ebind r (fun x => k))
  (at level 10, x name, r at level 100, k at level 200).

(** ** The gspread calls the program makes *)

Module Gspread.

(** [gspread.authorize(creds)] followed by [client.open_by_url(SHEET_URL)]. *)
Definition open_by_url : M unit := request OpenByUrl.

(** [sheet.add_worksheet(title=..)]: the API refuses a title that exists. *)
Definition add_worksheet (title : string) : M string :=
  request (AddWorksheet title) ;;
  fun w =>
    match lookup_sheet title (sheets w) with
    | Some _ => (inl APIError, w)
    | None => (write_sheet title [] ;; ret title) w
    end.

Definition append_row (h : string) (cells : list string) : M unit :=
  request (AppendRow h cells) ;;
  ws <- read_sheet h ;;
  write_sheet h (ws ++ [cells]).

Definition append_rows (h : string) (rs : list (list string)) : M unit :=
  request (AppendRows h rs) ;;
  ws <- read_sheet h ;;
  write_sheet h (ws ++ rs).

Definition findall (h : string) (q : string) : M (list cell) :=
  request (FindAll h q) ;;
  ws <- read_sheet h ;;
  ret (Grid.findall ws q).

Definition cell (h : string) (r c : nat) : M cell :=
  request (GetCell h r c) ;;
  ws <- read_sheet h ;;
  ret (mk_cell r c (Grid.cell_value ws r c)).

Definition update_cell (h : string) (r c : nat) (v : string) : M unit :=
  request (UpdateCell h r c v) ;;
  ws <- read_sheet h ;;
  write_sheet h (Grid.update_cell ws r c v).

Definition row_values (h : string) (r : nat) : M (list string) :=
  request (RowValues h r) ;;
  ws <- read_sheet h ;;
  ret (Grid.row_values ws r).

Definition delete_rows (h : string) (r : nat) : M unit :=
  request (DeleteRows h r) ;;
  ws <- read_sheet h ;;
  write_sheet h (Grid.delete_rows ws r).

(** [sheet.worksheet(title)]: a handle on the worksheet (its title). *)
Definition worksheet (title : string) : M string :=
  request (GetWorksheet title) ;;
  fun w =>
    match lookup_sheet title (sheets w) with
    | Some _ => (inr title, w)
    | None => (inl WorksheetNotFound, w)
    end.

End Gspread.

(** ** DataFrames *)

Record frame : Type := mk_frame { columns : list string; rows : list dict }.

Module Pandas.

(** [pd.DataFrame(data)] for the list of dicts [get_all_records] returns
    (all with the header as keys); [pd.DataFrame([])] has no columns. *)
Definition DataFrame (data : list dict) : frame :=
  mk_frame (match data with [] => [] | r :: _ => dict_keys r end) data.

(** [df.empty]. *)
Definition empty (df : frame) : bool :=
  match columns df, rows df with
  | [], _ => true
  | _, [] => true
  | _, _ => false
  end.

(** [r[c]] for a row of a frame that has column [c]. *)
Definition field (c : string) (r : dict) : value :=
  match dict_get c r with Some v => v | None => VNaN end.

(** [df[c]]. *)
Definition column (c : string) (df : frame) : exn + list value :=
  if mem_string c (columns df) then inr (map (field c) (rows df))
  else inl KeyError.

(** [df[c] = pd.Series(dtype='object')]: a new all-NaN column. *)
Definition add_nan_column (c : string) (df : frame) : frame :=
  mk_frame (columns df ++ [c]) (map (dict_set c VNaN) (rows df)).

(** [df[mask]] for a row-wise mask. *)
Definition select (keep : dict -> bool) (df : frame) : frame :=
  mk_frame (columns df) (filter keep (rows df)).

(** [df[c] = series], the series having one value per row. *)
Definition set_column (c : string) (vs : list value) (df : frame) : frame :=
  mk_frame (if mem_string c (columns df) then columns df else columns df ++ [c])
           (map (fun rv => dict_set c (snd rv) (fst rv)) (combine (rows df) vs)).

(** [<] between the values of an object column. *)
Definition value_leb (a b : value) : exn + bool :=
  match a, b with
  | VStr s, VStr t => inr (String.leb s t)
  | VNum p, VNum q => inr (Qle_bool p q)
  | VDate d, VDate e => inr (Z.leb d e)
  | _, _ => inl TypeError
  end.

Fixpoint insert_by (k : value) (r : dict) (sorted : list (value * dict))
  : exn + list (value * dict) :=
  match sorted with
  | [] => inr [(k, r)]
  | (k', r') :: rest =>
      match value_leb k k' with
      | inl e => inl e
      | inr true => inr ((k, r) :: sorted)
      | inr false =>
          match insert_by k r rest with
          | inl e => inl e
          | inr l => inr ((k', r') :: l)
          end
      end
  end.

Fixpoint sort_keyed (l : list (value * dict)) : exn + list (value * dict) :=
  match l with
  | [] => inr []
  | (k, r) :: l' =>
      match sort_keyed l' with
      | inl e => inl e
      | inr sorted => insert_by k r sorted
      end
  end.

Definition is_nan (v : value) : bool :=
  match v with VNaN => true | _ => false end.

(** [df.sort_values(by=c)]: ascending, missing values last; comparing
    values of different types raises TypeError. *)
Definition sort_values (c : string) (df : frame) : exn + frame :=
  if mem_string c (columns df) then
    let keyed := map (fun r => (field c r, r)) (rows df) in
    let present := filter (fun kr => negb (is_nan (fst kr))) keyed in
    let missing := filter (fun kr => is_nan (fst kr)) keyed in
    match sort_keyed present with
    | inl e => inl e
    | inr sorted => inr (mk_frame (columns df) (map snd (sorted ++ missing)))
    end
  else inl KeyError.

(** [series.sum()]: missing values skipped, [0] for nothing to add; with
    strings in the column the additions are Python's. *)
Definition add (a b : value) : exn + value :=
  match a, b with
  | VNum p, VNum q => inr (VNum (p + q)%Qc)
  | VStr s, VStr t => inr (VStr (s ++ t)%string)
  | _, _ => inl TypeError
  end.

Fixpoint sum_from (acc : value) (vs : list value) : exn + value :=
  match vs with
  | [] => inr acc
  | v :: vs' =>
      match add acc v with
      | inl e => inl e
      | inr acc' => sum_from acc' vs'
      end
  end.

Definition sum (vs : list value) : exn + value :=
  match filter (fun v => negb (is_nan v)) vs with
  | [] => inr (VNum 0%Qc)
  | v :: vs' => sum_from v vs'
  end.

End Pandas.

(** ** [app.py]: storage helpers *)

Definition TASKS_HEADER : list string :=
  ["Task"; "Category"; "Location"; "Date"; "StartTime"; "Duration"; "Priority";
   "Status"; "Notes"].

Definition TRAVEL_HEADER : list string :=
  ["Date"; "From"; "To"; "DistanceKM"; "Mode"].

Definition NOT_UPDATED : string :=
  "Could not update status. Task might be duplicated or not found.".

(** [l[n]] on a Python list. *)
Definition getitem (l : list string) (n : nat) : M string :=
  match nth_error l n with
  | Some x => ret x
  | None => raise IndexError
  end.

(** [try: m except IndexError: h]. *)
Definition except_IndexError {A : Type} (m : M A) (h : M A) : M A :=
  fun w =>
    match m w with
    | (inl IndexError, w') => h w'
    | r => r
    end.

(** [str(x) if isinstance(x, (datetime, date, time)) else x]. *)
Definition str_if_temporal (x : value) : value :=
  match x with
  | VDate d => VStr (Calendar.str_date d)
  | _ => x
  end.

Section App.

(** [int(s)], else [float(s)]: the number a cell text denotes, if any. *)
Variable parse_number : string -> option Qc.
(** The text Sheets displays for a number written to a cell. *)
Variable show_num : Qc -> string.
(** [pd.to_datetime(v)] followed by [.dt.date]: [None] when pandas raises,
    [Some None] for NaT. *)
Variable to_datetime : value -> option (option Z).

(** [gspread.utils.numericise] with [default_blank=""]. *)
Definition numericise (s : string) : value :=
  match parse_number s with
  | Some q => VNum q
  | None => VStr s
  end.

(** [worksheet.get_all_records()]: row 1 gives the keys, which must be
    unique; the other rows give one dict each. *)
Definition records_of (ws : worksheet) : exn + list dict :=
  match Grid.fill_gaps ws with
  | [] => inr []
  | keys :: data =>
      if Grid.nodupb keys
      then inr (map (fun r => combine keys (map numericise r)) data)
      else inl GSpreadException
  end.

Definition get_all_records (h : string) : M (list dict) :=
  request (GetAllRecords h) ;;
  ws <- read_sheet h ;;
  lift (records_of ws).

(** What the values API stores for a Python value; dates are not
    JSON serialisable. *)
Definition to_cell (v : value) : exn + string :=
  match v with
  | VStr s => inr s
  | VNum q => inr (show_num q)
  | VDate _ | VNaN => inl TypeError
  end.

Fixpoint to_cells (vs : list value) : exn + list string :=
  match vs with
  | [] => inr []
  | v :: vs' =>
      match to_cell v, to_cells vs' with
      | inr c, inr cs => inr (c :: cs)
      | inl e, _ => inl e
      | _, inl e => inl e
      end
  end.

Fixpoint to_grid (rs : list (list value)) : exn + list (list string) :=
  match rs with
  | [] => inr []
  | r :: rs' =>
      match to_cells r, to_grid rs' with
      | inr c, inr cs => inr (c :: cs)
      | inl e, _ => inl e
      | _, inl e => inl e
      end
  end.

(** Lines 33-49.  [get_google_sheet_client] and [open_by_url] are the one
    call [Gspread.open_by_url]; each worksheet is looked up and, when the
    lookup raises, created with its header row. *)
Definition init_sheets : M unit :=
  Gspread.open_by_url ;;
  try_except (Gspread.worksheet "Tasks" ;; ret tt)
    (fun _ =>
       ws_tasks <- Gspread.add_worksheet "Tasks" ;;
       Gspread.append_row ws_tasks TASKS_HEADER) ;;
  try_except (Gspread.worksheet "Travel" ;; ret tt)
    (fun _ =>
       ws_travel <- Gspread.add_worksheet "Travel" ;;
       Gspread.append_row ws_travel TRAVEL_HEADER).

(** [pd.to_datetime(series).dt.date], value by value. *)
Fixpoint to_dates (vs : list value) : exn + list value :=
  match vs with
  | [] => inr []
  | v :: vs' =>
      match to_datetime v, to_dates vs' with
      | Some (Some d), inr ds => inr (VDate d :: ds)
      | Some None, inr ds => inr (VNaN :: ds)
      | None, _ => inl ValueError
      | _, inl e => inl e
      end
  end.

(** The mask [df['Date'] != '']. *)
Definition nonblank_date (r : dict) : bool :=
  negb (value_eqb (Pandas.field "Date" r) (VStr "")).

(** Lines 58-62: the [for col in expected_cols] loop. *)
Definition add_expected_columns (df : frame) : frame :=
  fold_left
    (fun df c =>
       if mem_string c (columns df) then df else Pandas.add_nan_column c df)
    TASKS_HEADER df.

(** Lines 64-66: rows with a blank Date go, then the Date column is parsed. *)
Definition parse_dates (df : frame) : exn + frame :=
  if negb (Pandas.empty df) && mem_string "Date" (columns df) then
    let df := Pandas.select nonblank_date df in
    let! dates := Pandas.column "Date" df in
    let! dates := to_dates dates in
    inr (Pandas.set_column "Date" dates df)
  else inr df.

(** Lines 51-70: any exception inside the [try] gives the empty frame with
    the Tasks columns. *)
Definition load_data (worksheet_name : string) : M frame :=
  try_except
    (init_sheets ;;
     worksheet <- Gspread.worksheet worksheet_name ;;
     data <- get_all_records worksheet ;;
     let df := Pandas.DataFrame data in
     let df :=
       if String.eqb worksheet_name "Tasks" then add_expected_columns df
       else df in
     lift (parse_dates df))
    (fun _ => ret (mk_frame TASKS_HEADER [])).

(** Lines 72-79. *)
Definition save_entry (worksheet_name : string) (entry_dict : dict) : M unit :=
  init_sheets ;;
  worksheet <- Gspread.worksheet worksheet_name ;;
  let row_values := dict_values entry_dict in
  let row_values_str := map str_if_temporal row_values in
  cells <- lift (to_cells row_values_str) ;;
  Gspread.append_row worksheet cells.

(** Lines 81-90. *)
Definition bulk_save_entries (worksheet_name : string)
  (list_of_dicts : list dict) : M unit :=
  init_sheets ;;
  worksheet <- Gspread.worksheet worksheet_name ;;
  let rows_to_add :=
    map (fun entry => map str_if_temporal (dict_values entry)) list_of_dicts in
  grid <- lift (to_grid rows_to_add) ;;
  Gspread.append_rows worksheet grid.

(** Lines 92-102.  [date_str] is the date of the row ([row['Date']]); the
    sheet is opened outside the [try]. *)
Definition update_status_in_sheet (task_name : string) (date_str : Z)
  (new_status : string) : M unit :=
  init_sheets ;;
  ws <- Gspread.worksheet "Tasks" ;;
  try_except
    (cell_list <- Gspread.findall ws task_name ;;
     for_each cell_list
       (fun c =>
          date_cell <- Gspread.cell ws (row c) 4 ;;
          if String.eqb (cell_text date_cell) (Calendar.str_date date_str)
          then Gspread.update_cell ws (row c) 8 new_status
          else ret tt))
    (fun _ => st_warning NOT_UPDATED).

(** Lines 113-130: the [for cell in cell_list] loop; [Some b] stands for
    [return b] inside the loop, [None] for going on to the next cell. *)
Fixpoint delete_scan (ws : string) (date_obj : Z) (time_str : string)
  (cell_list : list cell) : M bool :=
  match cell_list with
  | [] => ret false
  | c :: rest =>
      let row_num := row c in
      row_values <- Gspread.row_values ws row_num ;;
      returned <-
        except_IndexError
          (sheet_date <- getitem row_values 3 ;;
           sheet_time <- getitem row_values 4 ;;
           if String.eqb sheet_date (Calendar.str_date date_obj)
              && String.eqb sheet_time time_str
           then Gspread.delete_rows ws row_num ;; ret (Some true)
           else ret None)
          (ret None) ;;
      match returned with
      | Some b => ret b
      | None => delete_scan ws date_obj time_str rest
      end
  end.

(** Lines 105-130. *)
Definition delete_task_from_sheet (task_name : string) (date_obj : Z)
  (time_str : string) : M bool :=
  init_sheets ;;
  ws <- Gspread.worksheet "Tasks" ;;
  cell_list <- Gspread.findall ws task_name ;;
  delete_scan ws date_obj time_str cell_list.

(** *** The schedule expander *)

Definition recurring_entry (task cat loc : string) (start_t : Calendar.time)
  (dur : Qc) (priority notes : string) (current_date : Z) : dict :=
  [("Task", VStr task);
   ("Category", VStr cat);
   ("Location", VStr loc);
   ("Date", VDate current_date);
   ("StartTime", VStr (Calendar.strftime_HM start_t));
   ("Duration", VNum dur);
   ("Priority", VStr priority);
   ("Status", VStr "Pending");
   ("Notes", VStr notes)].

(** [range(n)]. *)
Definition range (n : Z) : list Z := map Z.of_nat (seq 0 (Z.to_nat n)).

(** The [for i in range(weeks_to_plan * 7)] loop, [new_entries] being the
    list built so far. *)
Fixpoint expand_days (today : Z) (task cat loc : string)
  (start_t : Calendar.time) (dur : Qc) (priority notes : string)
  (days_selected : list string) (offsets : list Z) (new_entries : list dict)
  : list dict :=
  match offsets with
  | [] => new_entries
  | i :: offsets' =>
      let current_date := Calendar.add_days today i in
      let day_name := Calendar.strftime_A current_date in
      expand_days today task cat loc start_t dur priority notes
        days_selected offsets'
        (if mem_string day_name days_selected
         then new_entries
                ++ [recurring_entry task cat loc start_t dur priority notes
                      current_date]
         else new_entries)
  end.

(** Lines 132-156.  [today] is [datetime.today().date()] at the time of
    the call; the texts come from the form's text inputs and [dur] from its
    number input. *)
Definition add_recurring_schedule (today : Z) (task cat loc : string)
  (start_t : Calendar.time) (dur : Qc) (priority notes : string)
  (days_selected : list string) (weeks_to_plan : Z) : M Z :=
  let new_entries :=
    expand_days today task cat loc start_t dur priority notes days_selected
      (range (weeks_to_plan * 7)) [] in
  match new_entries with
  | [] => ret 0
  | _ :: _ =>
      bulk_save_entries "Tasks" new_entries ;;
      ret (Z.of_nat (List.length new_entries))
  end.

End App.

(** ** [app.py]: the dashboard's reads *)

(** [r[c]] on a row of [df]: KeyError when the frame has no such column. *)
Definition item (c : string) (df : frame) (r : dict) : exn + value :=
  if mem_string c (columns df) then inr (Pandas.field c r) else inl KeyError.

Definition on_date (d : Z) (r : dict) : bool :=
  value_eqb (Pandas.field "Date" r) (VDate d).

Definition high_priority (r : dict) : bool :=
  value_eqb (Pandas.field "Priority" r) (VStr "High").

(** Lines 240-244; [today] is [datetime.today().date()]. *)
Definition tmrw_high (today : Z) (df : frame) : exn + frame :=
  if negb (Pandas.empty df) then
    let tmrw := Calendar.add_days today 1 in
    let! _ := Pandas.column "Date" df in
    let! _ := Pandas.column "Priority" df in
    Pandas.sort_values "StartTime"
      (Pandas.select (fun r => on_date tmrw r && high_priority r) df)
  else inr (mk_frame [] []).

Inductive alert : Type :=
| NextBig (task start_time location : value)
| NoHighPriority.

(** Lines 248-255: what the "Tomorrow's Highlight" box shows. *)
Definition tomorrow_highlight (today : Z) (df : frame) : exn + alert :=
  let! high := tmrw_high today df in
  if negb (Pandas.empty high) then
    match rows high with
    | next_big :: _ =>
        let! task := item "Task" high next_big in
        let! start := item "StartTime" high next_big in
        let! location := item "Location" high next_big in
        inr (NextBig task start location)
    | [] => inl IndexError
    end
  else inr NoHighPriority.

(** Lines 258-264. *)
Definition total_km (today : Z) (df_travel : frame) : exn + value :=
  if negb (Pandas.empty df_travel) then
    let! _ := Pandas.column "Date" df_travel in
    let today_travel := Pandas.select (on_date today) df_travel in
    let! distances := Pandas.column "DistanceKM" today_travel in
    Pandas.sum distances
  else inr (VNum 0%Qc).

(** Lines 275-278. *)
Definition daily_tasks (selected_date : Z) (df : frame) : exn + frame :=
  if negb (Pandas.empty df) then
    let! _ := Pandas.column "Date" df in
    Pandas.sort_values "StartTime" (Pandas.select (on_date selected_date) df)
  else inr (mk_frame [] []).

(** ** [app.py]: the agenda loop (lines 285-320) *)

Module Clock.

Definition is_digit (c : ascii) : bool :=
  let n := nat_of_ascii c in (48 <=? n)%nat && (n <=? 57)%nat.

Definition digit_val (c : ascii) : Z := Z.of_nat (nat_of_ascii c - 48).

(** The characters before the first [":"] and the text after it. *)
Fixpoint split_colon (s : string) : option (list ascii * string) :=
  match s with
  | EmptyString => None
  | String c s' =>
      if Ascii.eqb c ":" then Some ([], s')
      else
        match split_colon s' with
        | Some (h, m) => Some (c :: h, m)
        | None => None
        end
  end.

(** One or two digits denoting at most [bound]: [%H] is
    [2[0-3]|[0-1]\d|\d] and [%M] is [[0-5]\d|\d]. *)
Definition parse_field (bound : Z) (cs : list ascii) : option Z :=
  match cs with
  | [d] => if is_digit d then Some (digit_val d) else None
  | [d1; d2] =>
      let n := 10 * digit_val d1 + digit_val d2 in
      if is_digit d1 && is_digit d2 && (n <=? bound) then Some n else None
  | _ => None
  end.

(** [datetime.strptime(v, "%H:%M")]: hour and minute of 1900-01-01. *)
Definition strptime_HM (v : value) : exn + Z * Z :=
  match v with
  | VStr s =>
      match split_colon s with
      | Some (h, m) =>
          match parse_field 23 h, parse_field 59 (list_ascii_of_string m) with
          | Some hh, Some mm => inr (hh, mm)
          | _, _ => inl ValueError
          end
      | None => inl ValueError
      end
  | _ => inl TypeError
  end.

Definition US_PER_MINUTE : Z := 60000000.
Definition US_PER_DAY : Z := 86400000000.
(** [date(1900, 1, 1).toordinal()]. *)
Definition EPOCH_1900 : Z := 693596.

Definition round_half_even (x : Q) : Z :=
  let f := Qfloor x in
  match Qcompare (x - inject_Z f)%Q (1 # 2)%Q with
  | Lt => f
  | Gt => f + 1
  | Eq => if Z.even f then f else f + 1
  end.

(** [timedelta(minutes=v)] in microseconds. *)
Definition timedelta_minutes (v : value) : exn + Z :=
  match v with
  | VNum q =>
      let us := round_half_even (this q * inject_Z US_PER_MINUTE)%Q in
      if Z.abs (us / US_PER_DAY) <=? 999999999 then inr us
      else inl OverflowError
  | _ => inl TypeError
  end.

(** [start_dt + delta] for [start_dt] on 1900-01-01: the hour and minute
    of the result. *)
Definition add_timedelta (start_dt : Z * Z) (delta : Z) : exn + Z * Z :=
  let us := (fst start_dt * 60 + snd start_dt) * US_PER_MINUTE + delta in
  if Calendar.in_calendarb (EPOCH_1900 + us / US_PER_DAY) then
    let minute_of_day := (us mod US_PER_DAY) / US_PER_MINUTE in
    inr (minute_of_day / 60, minute_of_day mod 60)
  else inl OverflowError.

(** [dt.strftime('%I:%M %p')]. *)
Definition strftime_IMp (dt : Z * Z) : string :=
  let h12 := if fst dt mod 12 =? 0 then 12 else fst dt mod 12 in
  (Calendar.zfill2 h12 ++ ":" ++ Calendar.zfill2 (snd dt) ++ " "
     ++ (if (fst dt <? 12)%Z then "AM" else "PM"))%string.

End Clock.

Record agenda_entry : Type := mk_entry {
  time_str : string;
  border_color : string;
  bg_color : string;
  (** [status_icon] is the check mark; otherwise the Finish button is shown *)
  status_done : bool;
  entry_task : value;
  entry_location : value
}.

(** The body of the [try]. *)
Definition time_range (df : frame) (r : dict) : exn + string :=
  let! start_time := item "StartTime" df r in
  let! start_dt := Clock.strptime_HM start_time in
  let! duration := item "Duration" df r in
  let! delta := Clock.timedelta_minutes duration in
  let! end_dt := Clock.add_timedelta start_dt delta in
  inr (Clock.strftime_IMp start_dt ++ " - " ++ Clock.strftime_IMp end_dt)%string.

(** One iteration of [for index, row in daily_tasks.iterrows()]. *)
Definition agenda_row (df : frame) (r : dict) : exn + agenda_entry :=
  let time_str :=
    match time_range df r with
    | inr s => s
    | inl _ => "Time Error"
    end in
  let! priority := item "Priority" df r in
  let border_color :=
    if value_eqb priority (VStr "High") then "red" else "#ddd" in
  let bg_color :=
    if value_eqb priority (VStr "High") then "rgba(255, 0, 0, 0.05)"
    else "transparent" in
  let! status := item "Status" df r in
  let! task := item "Task" df r in
  let! location := item "Location" df r in
  inr (mk_entry time_str border_color bg_color
         (value_eqb status (VStr "Done")) task location).

Fixpoint agenda_rows (df : frame) (rs : list dict) : exn + list agenda_entry :=
  match rs with
  | [] => inr []
  | r :: rs' =>
      let! e := agenda_row df r in
      let! es := agenda_rows df rs' in
      inr (e :: es)
  end.

(** Lines 280-320: [None] is "Nothing scheduled for this date.". *)
Definition agenda (daily_tasks : frame) : exn + option (list agenda_entry) :=
  if Pandas.empty daily_tasks then inr None
  else
    let! es := agenda_rows daily_tasks (rows daily_tasks) in
    inr (Some es).

(** ** Notions the statements use *)

(** [m] started in [w] returns [a] and leaves [w']; the transport stays
    reliable and nothing is shown to the user. *)
Definition runs {A : Type} (m : M A) (w : World) (a : A) (w' : World) : Prop :=
  m w = (inr a, w') /\ reliable w' /\ notices w' = notices w.

(** The stored collection a worksheet holds once [init_sheets] has run: a
    missing worksheet is created with [header] as its only row. *)
Definition table (title : string) (header : list string) (w : World)
  : worksheet :=
  match lookup_sheet title (sheets w) with
  | Some ws => ws
  | None => [header]
  end.

(** What one iteration of the loop of [update_status_in_sheet] does to the
    Tasks sheet. *)
Definition mark (date status : string) (ws : worksheet) (c : cell) : worksheet :=
  if String.eqb (Grid.cell_value ws (row c) 4) date
  then Grid.update_cell ws (row c) 8 status
  else ws.

(** The test the loop of [delete_task_from_sheet] applies to row [r]: the
    values of the row, trailing blanks dropped, have a fourth and a fifth
    entry and these are the date and the time asked for. *)
Definition row_matches (date time : string) (ws : worksheet) (r : nat) : bool :=
  match nth_error (Grid.row_values ws r) 3, nth_error (Grid.row_values ws r) 4
  with
  | Some sheet_date, Some sheet_time =>
      String.eqb sheet_date date && String.eqb sheet_time time
  | _, _ => false
  end.

Fixpoint first_match (date time : string) (ws : worksheet) (cells : list cell)
  : option nat :=
  match cells with
  | [] => None
  | c :: rest =>
      if row_matches date time ws (row c) then Some (row c)
      else first_match date time ws rest
  end.

Definition after_delete (ws : worksheet) (hit : option nat) : worksheet :=
  match hit with
  | Some r => Grid.delete_rows ws r
  | None => ws
  end.

Definition deleted (hit : option nat) : bool :=
  match hit with Some _ => true | None => false end.

(** The row [bulk_save_entries] writes for the record of date [d]. *)
Definition recurring_cells (show_num : Qc -> string) (task cat loc : string)
  (start_t : Calendar.time) (dur : Qc) (priority notes : string) (d : Z)
  : list string :=
  [task; cat; loc; Calendar.str_date d; Calendar.strftime_HM start_t;
   show_num dur; priority; "Pending"; notes].

(** Whether the weekday name of [d] is among the selected ones. *)
Definition selected (days_selected : list string) (d : Z) : bool :=
  mem_string (Calendar.strftime_A d) days_selected.

(** Ascending order between two StartTime values that are text: the order
    of Python strings, which on "HH:MM" texts is the order of the clock. *)
Definition text_le (a b : value) : Prop :=
  match a, b with
  | VStr s, VStr t => String.leb s t = true
  | _, _ => False
  end.

Definition is_text (v : value) : Prop := exists s, v = VStr s.

Definition start_time (r : dict) : value := Pandas.field "StartTime" r.



(** ** The travel total as the spec words it *)

(** "treat missing/non-numeric as 0". *)
Definition distance_or_zero (v : value) : Qc :=
  match v with
  | VNum q => q
  | _ => 0%Qc
  end.

(** "filter Travel where Date == today; sum DistanceKM (treat
    missing/non-numeric as 0); return the numeric total (defaults to 0 when
    no rows)". *)
Definition today_travel_total_spec (today : Z) (df_travel : frame) : Qc :=
  fold_left Qcplus
    (map (fun r => distance_or_zero (Pandas.field "DistanceKM" r))
       (filter (on_date today) (rows df_travel)))
    0%Qc.

(** What the agenda shows for row [r] of [df]. *)
Definition shows (df : frame) (r : dict) (e : agenda_entry) : Prop :=
  entry_task e = Pandas.field "Task" r
  /\ entry_location e = Pandas.field "Location" r
  /\ status_done e = value_eqb (Pandas.field "Status" r) (VStr "Done")
  /\ (forall range, time_range df r = inr range -> time_str e = range)
  /\ (forall err, time_range df r = inl err -> time_str e = "Time Error")
  /\ (forall err,
         Clock.strptime_HM (Pandas.field "StartTime" r) = inl err ->
         time_str e = "Time Error").

(** ** Notions for the statement about loading *)

(** [m] never changes a worksheet that exists. *)
Definition keeps {A : Type} (m : M A) : Prop :=
  forall (w : World) (r : exn + A) (w' : World),
    m w = (r, w') ->
    forall (t : string) (ws : worksheet),
      lookup_sheet t (sheets w) = Some ws ->
      lookup_sheet t (sheets w') = Some ws.

(** The text a stored row has under the header cell that reads [k]; blank
    when the row is too short. *)
Fixpoint stored_field (k : string) (header cells : list string) : string :=
  match header with
  | [] => ""
  | h :: header' =>
      if String.eqb k h then hd "" cells
      else stored_field k header' (tl cells)
  end.

Definition stored_with_date (header cells : list string) : bool :=
  negb (String.eqb (stored_field "Date" header cells) "").

(** The snapshot [load_data] builds from the rows [get_all_records] read. *)
Definition snapshot_of (parse_number : string -> option Qc)
  (to_datetime : value -> option (option Z)) (worksheet_name : string)
  (ws : worksheet) : exn + frame :=
  let! data := records_of parse_number ws in
  let df := Pandas.DataFrame data in
  parse_dates to_datetime
    (if String.eqb worksheet_name "Tasks" then add_expected_columns df else df).

(** A loaded record [r] holds, under every column of the header but Date,
    what the stored row [cells] has there. *)
Definition loaded_from (parse_number : string -> option Qc)
  (header cells : list string) (r : dict) : Prop :=
  forall k : string,
    In k header -> k <> "Date" ->
    Pandas.field k r = numericise parse_number (stored_field k header cells).

(** ** Instances of the three parameters, used by the examples

    Whole numbers in decimal and ISO dates: what the program itself writes
    to the sheet. *)

Module Sample.

Definition show_num (q : Qc) : string :=
  NilZero.string_of_int (Z.to_int (Qfloor q)).

Definition parse_number (s : string) : option Qc :=
  match s with
  | EmptyString => None
  | String _ _ =>
      match NilZero.int_of_string s with
      | Some i => Some (Q2Qc (inject_Z (Z.of_int i)))
      | None => None
      end
  end.

Definition is_leap (y : Z) : bool :=
  (y mod 4 =? 0) && (negb (y mod 100 =? 0) || (y mod 400 =? 0)).

(** [datetime._ymd2ord]. *)
Definition ymd2ord (y m d : Z) : Z :=
  let y1 := y - 1 in
  y1 * 365 + y1 / 4 - y1 / 100 + y1 / 400
  + (nth (Z.to_nat m) Calendar.DAYS_BEFORE_MONTH 0
     + Calendar.b2z ((2 <? m) && is_leap y))
  + d.

Definition parse_iso (s : string) : option Z :=
  match list_ascii_of_string s with
  | [y1; y2; y3; y4; s1; m1; m2; s2; d1; d2] =>
      if forallb Clock.is_digit [y1; y2; y3; y4; m1; m2; d1; d2]
         && Ascii.eqb s1 "-" && Ascii.eqb s2 "-"
      then
        let v := Clock.digit_val in
        let y := 1000 * v y1 + 100 * v y2 + 10 * v y3 + v y4 in
        let m := 10 * v m1 + v m2 in
        let d := 10 * v d1 + v d2 in
        if (1 <=? y) && (1 <=? m) && (m <=? 12) && (1 <=? d)
           && (d <=? nth (Z.to_nat m) Calendar.DAYS_IN_MONTH 0
                     + Calendar.b2z ((m =? 2) && is_leap y))
        then Some (ymd2ord y m d)
        else None
      else None
  | _ => None
  end.

Definition to_datetime (v : value) : option (option Z) :=
  match v with
  | VStr s => option_map Some (parse_iso s)
  | VDate d => Some (Some d)
  | VNaN => Some None
  | VNum _ => None
  end.

End Sample.

(** ** Worlds and snapshots of the examples *)

(** A small Tasks sheet with two rows of the same name, date and time. *)
Definition gym_row : list string :=
  ["Gym"; "Personal"; "Club"; "2024-01-10"; "18:00"; "60"; "High"; "Pending";
   ""].

Definition gym_world : World :=
  mk_world [("Tasks", [TASKS_HEADER; gym_row; gym_row]);
            ("Travel", [TRAVEL_HEADER])] [] [] [].

(** A Tasks sheet without any task named Gym: the one row is the task
    Study, whose Notes cell reads "Gym". *)
Definition study_row : list string :=
  ["Study"; "Personal"; "Home"; "2024-01-10"; "18:00"; "60"; "Low"; "Pending";
   "Gym"].

Definition study_world : World :=
  mk_world [("Tasks", [TASKS_HEADER; study_row]); ("Travel", [TRAVEL_HEADER])]
    [] [] [].

(** A Tasks sheet where nothing reads "Gym". *)
Definition quiet_world : World :=
  mk_world [("Tasks",
             [TASKS_HEADER;
              ["Study"; "Personal"; "Home"; "2024-01-10"; "18:00"; "60"; "Low";
               "Pending"; ""]]);
            ("Travel", [TRAVEL_HEADER])]
    [] [] [].

(** A Tasks row as a loaded snapshot holds it. *)
Definition task_row (task : string) (d : Z) (start : string) (dur : Z)
  (priority status : string) : dict :=
  [("Task", VStr task); ("Category", VStr "Study"); ("Location", VStr "Home");
   ("Date", VDate d); ("StartTime", VStr start);
   ("Duration", VNum (Q2Qc (inject_Z dur))); ("Priority", VStr priority);
   ("Status", VStr status); ("Notes", VStr "")].

(** The snapshot of the spec's agenda example: 09:00, 14:30 and 08:15 on
    2024-01-10, and a task of the next day. *)
Definition agenda_snapshot : frame :=
  mk_frame TASKS_HEADER
    [task_row "Lecture" 738895 "09:00" 60 "Medium" "Pending";
     task_row "Lab" 738895 "14:30" 90 "High" "Pending";
     task_row "Run" 738895 "08:15" 30 "Low" "Done";
     task_row "Exam" 738896 "10:00" 120 "High" "Pending"].

(** The snapshot of the spec's highlight example, seen on 2024-01-10: High
    tasks at 10:00 and 07:30 on 2024-01-11. *)
Definition highlight_snapshot : frame :=
  mk_frame TASKS_HEADER
    [task_row "Exam" 738896 "10:00" 120 "High" "Pending";
     task_row "Walk" 738896 "06:00" 30 "Low" "Pending";
     task_row "Quiz" 738896 "07:30" 20 "High" "Pending";
     task_row "Lab" 738895 "05:00" 90 "High" "Pending"].

Definition trip (d : Z) (distance : value) : dict :=
  [("Date", VDate d); ("From", VStr "Home"); ("To", VStr "Campus");
   ("DistanceKM", distance); ("Mode", VStr "Commute")].

(** Today (2024-01-10) 5.2 km and 3.0 km, yesterday 10 km. *)
Definition travel_snapshot : frame :=
  mk_frame TRAVEL_HEADER
    [trip 738895 (VNum (Q2Qc (52 # 10))); trip 738894 (VNum (Q2Qc 10));
     trip 738895 (VNum (Q2Qc 3))].

(** Today one trip whose distance cell reads "n/a" and one of 5.2 km. *)
Definition travel_with_text : frame :=
  mk_frame TRAVEL_HEADER
    [trip 738895 (VStr "n/a"); trip 738895 (VNum (Q2Qc (52 # 10)))].

(** Today one trip whose distance cell is blank. *)
Definition travel_with_blank : frame :=
  mk_frame TRAVEL_HEADER [trip 738895 (VStr "")].

(** The tasks of 2024-01-10 in agenda order, the middle one with a
    StartTime that is not HH:MM. *)
Definition agenda_with_bad_time : frame :=
  mk_frame TASKS_HEADER
    [task_row "Run" 738895 "08:15" 30 "Low" "Done";
     task_row "Lecture" 738895 "9 o'clock" 60 "Medium" "Pending";
     task_row "Lab" 738895 "14:30" 90 "High" "Pending"].

(** A Tasks sheet whose second data row has a blank Date cell. *)
Definition ghost_world : World :=
  mk_world
    [("Tasks",
      [TASKS_HEADER;
       gym_row;
       ["Ghost"; "Personal"; "Home"; ""; "10:00"; "30"; "Low"; "Pending"];
       ["Run"; "Personal"; "Park"; "2024-01-11"; "07:30"; "30"; "High";
        "Pending"; ""]])]
    [] [] [].

(** Two tasks of 2024-01-10, one with a text StartTime and one whose
    StartTime cell was read back as the number 1030. *)
Definition mixed_start_times : frame :=
  mk_frame TASKS_HEADER
    [task_row "Lecture" 738895 "09:00" 60 "Medium" "Pending";
     dict_set "StartTime" (VNum (Q2Qc 1030))
       (task_row "Lab" 738895 "" 90 "High" "Pending")].

(** ** Notions for the further properties *)

(** Lines 218-228: the entry of a one-time task, [specific_date] being the
    date picked in the form's date input. *)
Definition new_entry (task_name category location : string)
  (specific_date : Z) (start_time : Calendar.time) (duration_mins : Qc)
  (priority notes : string) : dict :=
  [("Task", VStr task_name);
   ("Category", VStr category);
   ("Location", VStr location);
   ("Date", VDate specific_date);
   ("StartTime", VStr (Calendar.strftime_HM start_time));
   ("Duration", VNum duration_mins);
   ("Priority", VStr priority);
   ("Status", VStr "Pending");
   ("Notes", VStr notes)].

(** Lines 332-338: the entry of a logged trip; [today] is
    [datetime.today().date()]. *)
Definition new_trip (today : Z) (t_from t_to : string) (t_km : Qc) : dict :=
  [("Date", VDate today);
   ("From", VStr t_from);
   ("To", VStr t_to);
   ("DistanceKM", VNum t_km);
   ("Mode", VStr "Commute")].

(** The weekday names among the selected ones. *)
Definition selected_names (days_selected : list string) : list string :=
  filter (fun name => mem_string name days_selected) Calendar.day_names.

(** The clock [n] minutes after [h]:[m], the day dropped. *)
Definition clock_after (h m n : Z) : Z * Z :=
  let minute_of_day := (60 * h + m + n) mod 1440 in
  (minute_of_day / 60, minute_of_day mod 60).

(** Whether ["%H:%M"] written for [h]:[m] is read back as [h]:[m]. *)
Definition reads_back (h m : Z) : bool :=
  match Clock.strptime_HM (VStr (Calendar.strftime_HM (Calendar.mk_time h m)))
  with
  | inr (h', m') => (h' =? h) && (m' =? m)
  | inl _ => false
  end.

(** The worksheet named [t] once [init_sheets] has run in [w]. *)
Definition opened (w : World) (t : string) : option worksheet :=
  if String.eqb t "Tasks" then Some (table "Tasks" TASKS_HEADER w)
  else if String.eqb t "Travel" then Some (table "Travel" TRAVEL_HEADER w)
  else lookup_sheet t (sheets w).

(** A spreadsheet without any worksheet, behind a reliable transport. *)
Definition blank_world : World := mk_world [] [] [] [].

(** The sheet of [gym_world] behind a transport whose third call fails. *)
Definition flaky_world : World :=
  mk_world (sheets gym_world) [false; false; true] [] [].

(** A Tasks sheet with one row whose Date cell reads "soon". *)
Definition soon_world : World :=
  mk_world
    [("Tasks",
      [TASKS_HEADER;
       gym_row;
       ["Call"; "Personal"; "Home"; "soon"; "10:00"; "30"; "Low"; "Pending"]]);
     ("Travel", [TRAVEL_HEADER])]
    [] [] [].

(** The record [get_all_records] builds from the stored row [cells] of a
    sheet as wide as its [header]. *)
Definition record_of (parse_number : string -> option Qc)
  (header cells : list string) : dict :=
  combine header
    (map (numericise parse_number) (Grid.pad (List.length header) cells)).

(** Lines 64-66 on the rows of a frame that has a Date column. *)
Definition dated_rows (to_datetime : value -> option (option Z))
  (rs : list dict) : exn + list dict :=
  let kept := filter nonblank_date rs in
  let! dates := to_dates to_datetime (map (Pandas.field "Date") kept) in
  inr (map (fun rv => dict_set "Date" (snd rv) (fst rv)) (combine kept dates)).

(** No stored row is wider than the header. *)
Definition fits (header : list string) (stored : worksheet) : Prop :=
  Forall (fun cells => (List.length cells <= List.length header)%nat) stored.

(** The texts [get_all_records] reads back as they were written. *)
Definition plain (parse_number : string -> option Qc) (texts : list string)
  : Prop :=
  Forall (fun s => parse_number s = None) texts.

(** The row [save_entry] writes for a logged trip. *)
Definition trip_cells (show_num : Qc -> string) (today : Z)
  (t_from t_to : string) (t_km : Qc) : list string :=
  [Calendar.str_date today; t_from; t_to; show_num t_km; "Commute"].

(** A Travel sheet with one trip of 5 km on 2024-01-10. *)
Definition commute_world : World :=
  mk_world
    [("Tasks", [TASKS_HEADER]);
     ("Travel",
      [TRAVEL_HEADER; ["2024-01-10"; "Home"; "Campus"; "5"; "Commute"]])]
    [] [] [].


(** * Properties *)

(** ** Lists, grids and sheets *)

Lemma string_eqb_true (a b : string) : String.eqb a b = true <-> a = b.
Proof. apply String.eqb_eq. Qed.

Lemma mem_string_In (s : string) (l : list string) :
  mem_string s l = true <-> In s l.
Proof.
  unfold mem_string. rewrite existsb_exists. split.
  - intros [x [Hin Heq]]. apply String.eqb_eq in Heq. now subst.
  - intros Hin. exists s. split; [assumption | apply String.eqb_refl].
Qed.

Lemma nth_set_nth_same {A : Type} (d d' v : A) (n : nat) (l : list A) :
  nth n (Grid.set_nth d n v l) d' = v.
Proof.
  revert l. induction n as [|n IH]; intros [|x l]; simpl; auto.
Qed.

Lemma nth_set_nth_other {A : Type} (d v : A) (n m : nat) (l : list A) :
  n <> m -> nth m (Grid.set_nth d n v l) d = nth m l d.
Proof.
  revert m l. induction n as [|n IH]; intros [|m] [|x l] Hne; simpl;
    try congruence; try reflexivity.
  - destruct m; reflexivity.
  - rewrite IH by congruence. destruct m; reflexivity.
  - apply IH. congruence.
Qed.

Lemma length_set_nth {A : Type} (d v : A) (n : nat) (l : list A) :
  List.length (Grid.set_nth d n v l) = Nat.max (S n) (List.length l).
Proof.
  revert l. induction n as [|n IH]; intros [|x l]; simpl; try reflexivity.
  - rewrite IH. simpl. reflexivity.
  - rewrite IH. reflexivity.
Qed.

Lemma cell_value_update_same (ws : worksheet) (r c r' : nat) (v : string) :
  pred r' = pred r -> Grid.cell_value (Grid.update_cell ws r c v) r' c = v.
Proof.
  intros Hr. unfold Grid.cell_value, Grid.update_cell. rewrite Hr.
  rewrite nth_set_nth_same. apply nth_set_nth_same.
Qed.

Lemma cell_value_update_other_col (ws : worksheet) (r c r' c' : nat)
  (v : string) :
  pred c <> pred c' ->
  Grid.cell_value (Grid.update_cell ws r c v) r' c' = Grid.cell_value ws r' c'.
Proof.
  intros Hc. unfold Grid.cell_value, Grid.update_cell.
  destruct (Nat.eq_dec (pred r) (pred r')) as [Heq | Hne].
  - rewrite <- Heq. rewrite nth_set_nth_same.
    now rewrite nth_set_nth_other.
  - now rewrite nth_set_nth_other.
Qed.

Lemma cell_value_update_other_row (ws : worksheet) (r c r' c' : nat)
  (v : string) :
  pred r <> pred r' ->
  Grid.cell_value (Grid.update_cell ws r c v) r' c' = Grid.cell_value ws r' c'.
Proof.
  intros Hr. unfold Grid.cell_value, Grid.update_cell.
  now rewrite nth_set_nth_other.
Qed.

Lemma length_update_cell (ws : worksheet) (r c : nat) (v : string) :
  (1 <= r <= List.length ws)%nat ->
  List.length (Grid.update_cell ws r c v) = List.length ws.
Proof.
  intros Hr. unfold Grid.update_cell. rewrite length_set_nth. lia.
Qed.

Lemma find_in_row_In (q : string) (r : nat) (cells : list string) :
  forall (c j : nat),
    nth_error cells j = Some q ->
    In (mk_cell r (c + j) q) (Grid.find_in_row q r c cells).
Proof.
  induction cells as [|x cells IH]; intros c j Hj.
  - destruct j; discriminate.
  - destruct j as [|j]; simpl in *.
    + injection Hj as ->. rewrite String.eqb_refl, Nat.add_0_r. now left.
    + apply in_or_app. right.
      replace (c + S j)%nat with (S c + j)%nat by lia. now apply IH.
Qed.

Lemma find_in_row_sound (q : string) (r : nat) (cells : list string) :
  forall (c : nat) (x : cell),
    In x (Grid.find_in_row q r c cells) ->
    row x = r /\ cell_text x = q /\ (c <= col x)%nat
    /\ nth_error cells (col x - c) = Some q.
Proof.
  induction cells as [|y cells IH]; intros c x Hin; simpl in Hin.
  - contradiction.
  - apply in_app_or in Hin. destruct Hin as [Hin | Hin].
    + destruct (String.eqb y q) eqn:E; [|contradiction].
      destruct Hin as [<- | []]. apply String.eqb_eq in E. subst y. simpl.
      rewrite Nat.sub_diag. auto.
    + destruct (IH _ _ Hin) as (Hr & Ht & Hc & Hn).
      repeat split; auto; try lia.
      replace (col x - c)%nat with (S (col x - S c)) by lia. exact Hn.
Qed.

Lemma find_in_rows_In (q : string) (rs : worksheet) :
  forall (r i j : nat) (cells : list string),
    nth_error rs i = Some cells ->
    nth_error cells j = Some q ->
    In (mk_cell (r + i) (S j) q) (Grid.find_in_rows q r rs).
Proof.
  induction rs as [|cells0 rs IH]; intros r i j cells Hi Hj.
  - destruct i; discriminate.
  - simpl. apply in_or_app. destruct i as [|i]; simpl in Hi.
    + injection Hi as ->. left. rewrite Nat.add_0_r.
      now apply (find_in_row_In q r cells 1 j).
    + right. replace (r + S i)%nat with (S r + i)%nat by lia.
      now apply IH with (cells := cells).
Qed.

Lemma find_in_rows_sound (q : string) (rs : worksheet) :
  forall (r : nat) (x : cell),
    In x (Grid.find_in_rows q r rs) ->
    (r <= row x < r + List.length rs)%nat /\ cell_text x = q
    /\ (1 <= col x)%nat
    /\ nth_error (nth (row x - r) rs []) (col x - 1) = Some q.
Proof.
  induction rs as [|cells rs IH]; intros r x Hin; simpl in Hin.
  - contradiction.
  - apply in_app_or in Hin. destruct Hin as [Hin | Hin].
    + destruct (find_in_row_sound _ _ _ _ _ Hin) as (Hr & Ht & Hc & Hn).
      subst r. rewrite Nat.sub_diag. simpl. repeat split; auto; lia.
    + destruct (IH _ _ Hin) as (Hr & Ht & Hc & Hn).
      simpl. repeat split; auto; try lia.
      replace (row x - r)%nat with (S (row x - S r)) by lia. exact Hn.
Qed.

Lemma width_ge (ws : worksheet) (i : nat) (cells : list string) :
  nth_error ws i = Some cells -> (List.length cells <= Grid.width ws)%nat.
Proof.
  revert i. induction ws as [|r ws IH]; intros i Hi.
  - destruct i; discriminate.
  - destruct i as [|i]; simpl in *.
    + injection Hi as ->. lia.
    + specialize (IH _ Hi). lia.
Qed.

Lemma nth_error_pad (w j : nat) (cells : list string) (x : string) :
  nth_error cells j = Some x -> nth_error (Grid.pad w cells) j = Some x.
Proof.
  intros Hj. unfold Grid.pad. rewrite nth_error_app1; [assumption|].
  apply nth_error_Some. congruence.
Qed.

Lemma nth_pad (w j : nat) (cells : list string) :
  nth j (Grid.pad w cells) "" = nth j cells "".
Proof.
  unfold Grid.pad. destruct (Nat.lt_ge_cases j (List.length cells)) as [H | H].
  - now rewrite app_nth1.
  - rewrite app_nth2 by assumption. rewrite (nth_overflow cells) by assumption.
    destruct (Nat.lt_ge_cases (j - List.length cells)
                (w - List.length cells)) as [H' | H'].
    + now rewrite nth_repeat_lt.
    + apply nth_overflow. now rewrite repeat_length.
Qed.

(** [findall] is complete: a cell holding the query is found. *)
Lemma findall_complete (ws : worksheet) (q : string) (i j : nat)
  (cells : list string) :
  nth_error ws i = Some cells ->
  nth_error cells j = Some q ->
  In (mk_cell (S i) (S j) q) (Grid.findall ws q).
Proof.
  intros Hi Hj. unfold Grid.findall.
  apply (find_in_rows_In q (Grid.fill_gaps ws) 1 i j
           (Grid.pad (Grid.width ws) cells)).
  - unfold Grid.fill_gaps. rewrite nth_error_map, Hi. reflexivity.
  - now apply nth_error_pad.
Qed.

(** [findall] is sound: a found cell is a cell of the sheet with that text. *)
Lemma findall_sound (ws : worksheet) (q : string) (x : cell) :
  In x (Grid.findall ws q) ->
  (1 <= row x <= List.length ws)%nat /\ (1 <= col x)%nat /\ cell_text x = q
  /\ Grid.cell_value ws (row x) (col x) = q.
Proof.
  intros Hin. unfold Grid.findall in Hin.
  destruct (find_in_rows_sound _ _ _ _ Hin) as (Hr & Ht & Hc & Hn).
  unfold Grid.fill_gaps in Hr, Hn. rewrite length_map in Hr.
  repeat split; auto; try lia.
  unfold Grid.cell_value.
  replace (pred (row x)) with (row x - 1)%nat by lia.
  replace (pred (col x)) with (col x - 1)%nat by lia.
  rewrite (nth_indep _ [] (Grid.pad (Grid.width ws) [])) in Hn
    by (rewrite length_map; lia).
  rewrite map_nth in Hn.
  apply nth_error_nth with (d := "") in Hn.
  now rewrite nth_pad in Hn.
Qed.

Lemma lookup_store_same (t : string) (ws : worksheet)
  (l : list (string * worksheet)) :
  lookup_sheet t (store_sheet t ws l) = Some ws.
Proof.
  induction l as [|[t' ws'] l IH]; simpl.
  - now rewrite String.eqb_refl.
  - destruct (String.eqb t t') eqn:E; simpl; rewrite E; auto.
Qed.

Lemma lookup_store_other (t t' : string) (ws : worksheet)
  (l : list (string * worksheet)) :
  t <> t' -> lookup_sheet t' (store_sheet t ws l) = lookup_sheet t' l.
Proof.
  intros Hne. induction l as [|[t0 ws0] l IH]; simpl.
  - destruct (String.eqb t' t) eqn:E; [|reflexivity].
    apply String.eqb_eq in E. congruence.
  - destruct (String.eqb t t0) eqn:E; simpl.
    + apply String.eqb_eq in E. subst t0.
      destruct (String.eqb t' t) eqn:E'; [|reflexivity].
      apply String.eqb_eq in E'. congruence.
    + now rewrite IH.
Qed.

(** ** Running the gspread calls over a reliable transport *)

Lemma runs_bind {A B : Type} (m : M A) (k : A -> M B) (w w1 w2 : World)
  (a : A) (b : B) :
  runs m w a w1 -> runs (k a) w1 b w2 -> runs (bind m k) w b w2.
Proof.
  intros (Hm & _ & Hn1) (Hk & Hr & Hn2). unfold runs, bind.
  rewrite Hm. repeat split; auto. congruence.
Qed.

Lemma runs_ret {A : Type} (a : A) (w : World) :
  reliable w -> runs (ret a) w a w.
Proof. intros H. now repeat split. Qed.

Lemma run_worksheet (h : string) (w : World) (ws : worksheet) :
  reliable w -> lookup_sheet h (sheets w) = Some ws ->
  exists w', runs (Gspread.worksheet h) w h w' /\ sheets w' = sheets w.
Proof.
  intros Hr Hl. destruct w as [sh fs cl nt]. unfold reliable in Hr.
  simpl in *. subst fs. eexists. unfold runs, Gspread.worksheet, bind, request.
  simpl. rewrite Hl. repeat split.
Qed.

Lemma run_findall (h q : string) (w : World) (ws : worksheet) :
  reliable w -> lookup_sheet h (sheets w) = Some ws ->
  exists w', runs (Gspread.findall h q) w (Grid.findall ws q) w'
             /\ sheets w' = sheets w.
Proof.
  intros Hr Hl. destruct w as [sh fs cl nt]. unfold reliable in Hr.
  simpl in *. subst fs. eexists.
  unfold runs, Gspread.findall, bind, request, read_sheet, ret.
  simpl. rewrite Hl. repeat split.
Qed.

Lemma run_cell (h : string) (r c : nat) (w : World) (ws : worksheet) :
  reliable w -> lookup_sheet h (sheets w) = Some ws ->
  exists w', runs (Gspread.cell h r c) w
               (mk_cell r c (Grid.cell_value ws r c)) w'
             /\ sheets w' = sheets w.
Proof.
  intros Hr Hl. destruct w as [sh fs cl nt]. unfold reliable in Hr.
  simpl in *. subst fs. eexists.
  unfold runs, Gspread.cell, bind, request, read_sheet, ret.
  simpl. rewrite Hl. repeat split.
Qed.

Lemma run_row_values (h : string) (r : nat) (w : World) (ws : worksheet) :
  reliable w -> lookup_sheet h (sheets w) = Some ws ->
  exists w', runs (Gspread.row_values h r) w (Grid.row_values ws r) w'
             /\ sheets w' = sheets w.
Proof.
  intros Hr Hl. destruct w as [sh fs cl nt]. unfold reliable in Hr.
  simpl in *. subst fs. eexists.
  unfold runs, Gspread.row_values, bind, request, read_sheet, ret.
  simpl. rewrite Hl. repeat split.
Qed.

Lemma run_update_cell (h : string) (r c : nat) (v : string) (w : World)
  (ws : worksheet) :
  reliable w -> lookup_sheet h (sheets w) = Some ws ->
  exists w', runs (Gspread.update_cell h r c v) w tt w'
             /\ sheets w' = store_sheet h (Grid.update_cell ws r c v) (sheets w).
Proof.
  intros Hr Hl. destruct w as [sh fs cl nt]. unfold reliable in Hr.
  simpl in *. subst fs. eexists.
  unfold runs, Gspread.update_cell, bind, request, read_sheet, write_sheet.
  simpl. rewrite Hl. repeat split.
Qed.

Lemma run_delete_rows (h : string) (r : nat) (w : World) (ws : worksheet) :
  reliable w -> lookup_sheet h (sheets w) = Some ws ->
  exists w', runs (Gspread.delete_rows h r) w tt w'
             /\ sheets w' = store_sheet h (Grid.delete_rows ws r) (sheets w).
Proof.
  intros Hr Hl. destruct w as [sh fs cl nt]. unfold reliable in Hr.
  simpl in *. subst fs. eexists.
  unfold runs, Gspread.delete_rows, bind, request, read_sheet, write_sheet.
  simpl. rewrite Hl. repeat split.
Qed.

Lemma run_append_row (h : string) (cells : list string) (w : World)
  (ws : worksheet) :
  reliable w -> lookup_sheet h (sheets w) = Some ws ->
  exists w', runs (Gspread.append_row h cells) w tt w'
             /\ sheets w' = store_sheet h (ws ++ [cells]) (sheets w).
Proof.
  intros Hr Hl. destruct w as [sh fs cl nt]. unfold reliable in Hr.
  simpl in *. subst fs. eexists.
  unfold runs, Gspread.append_row, bind, request, read_sheet, write_sheet.
  simpl. rewrite Hl. repeat split.
Qed.

Lemma run_append_rows (h : string) (rs : list (list string)) (w : World)
  (ws : worksheet) :
  reliable w -> lookup_sheet h (sheets w) = Some ws ->
  exists w', runs (Gspread.append_rows h rs) w tt w'
             /\ sheets w' = store_sheet h (ws ++ rs) (sheets w).
Proof.
  intros Hr Hl. destruct w as [sh fs cl nt]. unfold reliable in Hr.
  simpl in *. subst fs. eexists.
  unfold runs, Gspread.append_rows, bind, request, read_sheet, write_sheet.
  simpl. rewrite Hl. repeat split.
Qed.

Lemma run_bootstrap (title : string) (header : list string) (w : World) :
  reliable w ->
  exists w',
    runs (try_except (Gspread.worksheet title ;; ret tt)
            (fun _ =>
               ws <- Gspread.add_worksheet title ;;
               Gspread.append_row ws header)) w tt w'
    /\ lookup_sheet title (sheets w') = Some (table title header w)
    /\ (forall t, t <> title ->
                  lookup_sheet t (sheets w') = lookup_sheet t (sheets w)).
Proof.
  intros Hr. destruct w as [sh fs cl nt]. unfold reliable in Hr.
  simpl in *. subst fs. unfold table. simpl.
  destruct (lookup_sheet title sh) as [ws|] eqn:Hl.
  - eexists. unfold runs, try_except, Gspread.worksheet, bind, request, ret.
    simpl. rewrite Hl. simpl. repeat split; auto.
  - eexists.
    unfold runs, try_except, Gspread.worksheet, Gspread.add_worksheet,
      Gspread.append_row, bind, request, ret, read_sheet, write_sheet.
    simpl. rewrite Hl. simpl. rewrite Hl. simpl.
    rewrite lookup_store_same. simpl. repeat split.
    + simpl. apply lookup_store_same.
    + intros t Hne. assert (Hne' : title <> t) by congruence.
      simpl. now rewrite !lookup_store_other by exact Hne'.
Qed.

Lemma run_init_sheets (w : World) :
  reliable w ->
  exists w',
    runs init_sheets w tt w'
    /\ lookup_sheet "Tasks" (sheets w')
       = Some (table "Tasks" TASKS_HEADER w)
    /\ lookup_sheet "Travel" (sheets w')
       = Some (table "Travel" TRAVEL_HEADER w)
    /\ (forall t, t <> "Tasks" -> t <> "Travel" ->
                  lookup_sheet t (sheets w') = lookup_sheet t (sheets w)).
Proof.
  intros Hr.
  assert (Hopen : exists w0, runs Gspread.open_by_url w tt w0
                             /\ sheets w0 = sheets w).
  { destruct w as [sh fs cl nt]. unfold reliable in Hr. simpl in Hr. subst fs.
    eexists. unfold runs, Gspread.open_by_url, request. simpl. repeat split. }
  destruct Hopen as (w0 & Hrun0 & Hs0).
  destruct (run_bootstrap "Tasks" TASKS_HEADER w0) as (w1 & Hrun1 & Ht1 & Ho1).
  { apply Hrun0. }
  destruct (run_bootstrap "Travel" TRAVEL_HEADER w1) as (w2 & Hrun2 & Ht2 & Ho2).
  { apply Hrun1. }
  exists w2. split; [|split; [|split]].
  - unfold init_sheets.
    eapply runs_bind; [exact Hrun0|].
    eapply runs_bind; [exact Hrun1|]. exact Hrun2.
  - rewrite Ho2 by discriminate. rewrite Ht1. unfold table. now rewrite Hs0.
  - rewrite Ht2. unfold table. rewrite Ho1 by discriminate. now rewrite Hs0.
  - intros t H1 H2. rewrite Ho2, Ho1 by assumption. now rewrite Hs0.
Qed.

Lemma runs_try_except {A : Type} (m : M A) (h : exn -> M A) (w w' : World)
  (a : A) :
  runs m w a w' -> runs (try_except m h) w a w'.
Proof.
  intros (Hm & Hr & Hn). unfold runs, try_except. rewrite Hm. auto.
Qed.

Lemma str_date_nonempty (d : Z) : Calendar.str_date d <> "".
Proof.
  unfold Calendar.str_date. destruct (Calendar.ord2ymd d) as [[y m] dd].
  discriminate.
Qed.

(** ** Status update *)

Lemma mark_other_col (date status : string) (ws : worksheet) (x : cell)
  (r c : nat) :
  pred c <> 7%nat ->
  Grid.cell_value (mark date status ws x) r c = Grid.cell_value ws r c.
Proof.
  intros Hc. unfold mark.
  destruct (String.eqb (Grid.cell_value ws (row x) 4) date); [|reflexivity].
  apply cell_value_update_other_col. simpl. congruence.
Qed.

Lemma marks_other_col (date status : string) (cells : list cell) :
  forall (ws : worksheet) (r c : nat),
    pred c <> 7%nat ->
    Grid.cell_value (fold_left (mark date status) cells ws) r c
    = Grid.cell_value ws r c.
Proof.
  induction cells as [|x cells IH]; intros ws r c Hc; simpl.
  - reflexivity.
  - rewrite IH by assumption. now apply mark_other_col.
Qed.

Lemma mark_keeps (date status : string) (ws : worksheet) (x : cell) (r : nat) :
  Grid.cell_value ws r 8 = status ->
  Grid.cell_value (mark date status ws x) r 8 = status.
Proof.
  intros H. unfold mark.
  destruct (String.eqb (Grid.cell_value ws (row x) 4) date); [|assumption].
  destruct (Nat.eq_dec (pred r) (pred (row x))) as [Heq | Hne].
  - now apply cell_value_update_same.
  - rewrite cell_value_update_other_row by congruence. assumption.
Qed.

Lemma marks_keep (date status : string) (cells : list cell) :
  forall (ws : worksheet) (r : nat),
    Grid.cell_value ws r 8 = status ->
    Grid.cell_value (fold_left (mark date status) cells ws) r 8 = status.
Proof.
  induction cells as [|x cells IH]; intros ws r H; simpl.
  - assumption.
  - apply IH. now apply mark_keeps.
Qed.

Lemma marks_found (date status : string) (cells : list cell) :
  forall (ws : worksheet) (x : cell),
    In x cells ->
    Grid.cell_value ws (row x) 4 = date ->
    Grid.cell_value (fold_left (mark date status) cells ws) (row x) 8 = status.
Proof.
  induction cells as [|y cells IH]; intros ws x Hin Hd; simpl.
  - contradiction.
  - destruct Hin as [-> | Hin].
    + apply marks_keep. unfold mark. rewrite Hd, String.eqb_refl.
      now apply cell_value_update_same.
    + apply IH; [assumption|]. rewrite mark_other_col; [assumption|].
      simpl. discriminate.
Qed.

Lemma marks_skip (date status : string) (cells : list cell) :
  forall (ws : worksheet) (r : nat),
    Grid.cell_value ws r 4 <> date ->
    Grid.cell_value (fold_left (mark date status) cells ws) r 8
    = Grid.cell_value ws r 8.
Proof.
  induction cells as [|x cells IH]; intros ws r Hd; simpl.
  - reflexivity.
  - rewrite IH.
    + unfold mark.
      destruct (String.eqb (Grid.cell_value ws (row x) 4) date) eqn:E;
        [|reflexivity].
      apply String.eqb_eq in E.
      apply cell_value_update_other_row. intros Heq. apply Hd.
      unfold Grid.cell_value in *. now rewrite <- Heq.
    + rewrite mark_other_col; [assumption|]. simpl. discriminate.
Qed.

Lemma marks_length (date status : string) (cells : list cell) :
  forall (ws : worksheet),
    Forall (fun x => (1 <= row x <= List.length ws)%nat) cells ->
    List.length (fold_left (mark date status) cells ws) = List.length ws.
Proof.
  induction cells as [|x cells IH]; intros ws Hall; simpl.
  - reflexivity.
  - inversion Hall as [|? ? Hx Hrest]; subst.
    assert (Hlen : List.length (mark date status ws x) = List.length ws).
    { unfold mark.
      destruct (String.eqb (Grid.cell_value ws (row x) 4) date);
        [now apply length_update_cell | reflexivity]. }
    rewrite IH; [exact Hlen|]. now rewrite Hlen.
Qed.

Lemma run_update_loop (date status : string) (cells : list cell) :
  forall (w : World) (ws : worksheet),
    reliable w ->
    lookup_sheet "Tasks" (sheets w) = Some ws ->
    exists w',
      runs (for_each cells
              (fun c =>
                 date_cell <- Gspread.cell "Tasks" (row c) 4 ;;
                 if String.eqb (cell_text date_cell) date
                 then Gspread.update_cell "Tasks" (row c) 8 status
                 else ret tt)) w tt w'
      /\ lookup_sheet "Tasks" (sheets w')
         = Some (fold_left (mark date status) cells ws).
Proof.
  induction cells as [|x cells IH]; intros w ws Hr Hl.
  - exists w. split; [now apply runs_ret | assumption].
  - destruct (run_cell "Tasks" (row x) 4 w ws Hr Hl) as (w1 & Hrun1 & Hs1).
    assert (Hl1 : lookup_sheet "Tasks" (sheets w1) = Some ws)
      by now rewrite Hs1.
    assert (Hstep : exists w2,
               runs (if String.eqb (Grid.cell_value ws (row x) 4) date
                     then Gspread.update_cell "Tasks" (row x) 8 status
                     else ret tt) w1 tt w2
               /\ lookup_sheet "Tasks" (sheets w2)
                  = Some (mark date status ws x)).
    { unfold mark.
      destruct (String.eqb (Grid.cell_value ws (row x) 4) date).
      - destruct (run_update_cell "Tasks" (row x) 8 status w1 ws)
          as (w2 & Hrun2 & Hs2); [apply Hrun1 | assumption |].
        exists w2. split; [assumption|]. rewrite Hs2.
        apply lookup_store_same.
      - exists w1. split; [apply runs_ret; apply Hrun1 | assumption]. }
    destruct Hstep as (w2 & Hrun2 & Hl2).
    destruct (IH w2 (mark date status ws x)) as (w3 & Hrun3 & Hl3);
      [apply Hrun2 | assumption |].
    exists w3. split; [|assumption].
    simpl. eapply runs_bind; [|exact Hrun3].
    eapply runs_bind; [exact Hrun1|]. exact Hrun2.
Qed.

Lemma named_row_found (ws : worksheet) (name date : string) (r : nat) :
  (1 <= r)%nat -> date <> "" ->
  Grid.cell_value ws r 1 = name ->
  Grid.cell_value ws r 4 = date ->
  In (mk_cell r 1 name) (Grid.findall ws name).
Proof.
  intros Hr Hd Hn Hdate. unfold Grid.cell_value in *. simpl in *.
  destruct r as [|i]; [lia|]. simpl in *.
  destruct (nth_error ws i) as [cells|] eqn:Hi.
  - rewrite (nth_error_nth _ _ _ Hi) in Hn, Hdate.
    apply (findall_complete ws name i 0 cells Hi).
    destruct cells as [|c0 cells]; simpl in *; [congruence|].
    now subst.
  - apply nth_error_None in Hi. rewrite (nth_overflow ws [] Hi) in Hdate.
    simpl in Hdate. congruence.
Qed.

Lemma run_update_status (w : World) (task_name : string) (d : Z)
  (new_status : string) :
  reliable w ->
  exists w',
    runs (update_status_in_sheet task_name d new_status) w tt w'
    /\ lookup_sheet "Tasks" (sheets w')
       = Some (fold_left (mark (Calendar.str_date d) new_status)
                 (Grid.findall (table "Tasks" TASKS_HEADER w) task_name)
                 (table "Tasks" TASKS_HEADER w)).
Proof.
  intros Hr. set (ws := table "Tasks" TASKS_HEADER w).
  destruct (run_init_sheets w Hr) as (w1 & Hrun1 & Ht1 & _ & _).
  fold ws in Ht1.
  destruct (run_worksheet "Tasks" w1 ws) as (w2 & Hrun2 & Hs2);
    [apply Hrun1 | assumption |].
  assert (Hl2 : lookup_sheet "Tasks" (sheets w2) = Some ws) by now rewrite Hs2.
  destruct (run_findall "Tasks" task_name w2 ws) as (w3 & Hrun3 & Hs3);
    [apply Hrun2 | assumption |].
  assert (Hl3 : lookup_sheet "Tasks" (sheets w3) = Some ws) by now rewrite Hs3.
  destruct (run_update_loop (Calendar.str_date d) new_status
              (Grid.findall ws task_name) w3 ws) as (w4 & Hrun4 & Hl4);
    [apply Hrun3 | assumption |].
  exists w4. split; [|assumption].
  unfold update_status_in_sheet.
  eapply runs_bind; [exact Hrun1|].
  eapply runs_bind; [exact Hrun2|].
  apply runs_try_except.
  eapply runs_bind; [exact Hrun3|]. exact Hrun4.
Qed.

(** X17. Over a reliable transport the [except] branch of
    [update_status_in_sheet] is never taken: no warning is shown, whether
    rows matched or not. *)
Lemma update_status_never_warns (w : World) (task_name : string) (d : Z)
  (new_status : string) :
  reliable w ->
  exists w',
    update_status_in_sheet task_name d new_status w = (inr tt, w')
    /\ notices w' = notices w.
Proof.
  intros Hr.
  destruct (run_update_status w task_name d new_status Hr)
    as (w' & (Hres & _ & Hn) & _).
  exists w'. auto.
Qed.

(** C2. Over a reliable transport, [update_status_in_sheet] returns normally
    and every stored row whose Task cell is the name and whose Date cell is
    the text of the target date ends with the new status in its Status
    cell: all such rows, however many.  Nothing but Status cells changes,
    and rows of another date keep their status. *)
Theorem update_status_marks_every_match
  (w : World) (task_name : string) (d : Z) (new_status : string) :
  reliable w ->
  exists (w' : World) (ws' : worksheet),
    update_status_in_sheet task_name d new_status w = (inr tt, w')
    /\ lookup_sheet "Tasks" (sheets w') = Some ws'
    /\ List.length ws' = List.length (table "Tasks" TASKS_HEADER w)
    /\ (forall r : nat,
           (1 <= r)%nat ->
           Grid.cell_value (table "Tasks" TASKS_HEADER w) r 1 = task_name ->
           Grid.cell_value (table "Tasks" TASKS_HEADER w) r 4
           = Calendar.str_date d ->
           Grid.cell_value ws' r 8 = new_status)
    /\ (forall r c : nat,
           c <> 8%nat ->
           Grid.cell_value ws' r c
           = Grid.cell_value (table "Tasks" TASKS_HEADER w) r c)
    /\ (forall r : nat,
           Grid.cell_value (table "Tasks" TASKS_HEADER w) r 4
           <> Calendar.str_date d ->
           Grid.cell_value ws' r 8
           = Grid.cell_value (table "Tasks" TASKS_HEADER w) r 8).
Proof.
  intros Hr. set (ws := table "Tasks" TASKS_HEADER w).
  destruct (run_update_status w task_name d new_status Hr)
    as (w4 & Hall & Hl4).
  fold ws in Hl4.
  exists w4, (fold_left (mark (Calendar.str_date d) new_status)
                (Grid.findall ws task_name) ws).
  split; [|split; [assumption | split; [|split; [|split]]]].
  - apply Hall.
  - apply marks_length. apply Forall_forall. intros x Hx.
    now destruct (findall_sound _ _ _ Hx) as (H & _).
  - intros r Hr1 Hname Hdate.
    change r with (row (mk_cell r 1 task_name)).
    apply marks_found; [|exact Hdate].
    apply named_row_found with (date := Calendar.str_date d);
      auto using str_date_nonempty.
  - intros r c Hc. apply marks_other_col. lia.
  - intros r Hd. now apply marks_skip.
Qed.

Lemma update_status_marks_every_match_witness :
  reliable gym_world
  /\ exists (w' : World) (ws' : worksheet),
      update_status_in_sheet "Gym" 738895 "Done" gym_world = (inr tt, w')
      /\ lookup_sheet "Tasks" (sheets w') = Some ws'
      /\ List.length ws' = List.length (table "Tasks" TASKS_HEADER gym_world)
      /\ (forall r : nat,
             (1 <= r)%nat ->
             Grid.cell_value (table "Tasks" TASKS_HEADER gym_world) r 1 = "Gym" ->
             Grid.cell_value (table "Tasks" TASKS_HEADER gym_world) r 4
             = Calendar.str_date 738895 ->
             Grid.cell_value ws' r 8 = "Done")
      /\ (forall r c : nat,
             c <> 8%nat ->
             Grid.cell_value ws' r c
             = Grid.cell_value (table "Tasks" TASKS_HEADER gym_world) r c)
      /\ (forall r : nat,
             Grid.cell_value (table "Tasks" TASKS_HEADER gym_world) r 4
             <> Calendar.str_date 738895 ->
             Grid.cell_value ws' r 8
             = Grid.cell_value (table "Tasks" TASKS_HEADER gym_world) r 8).
Proof.
  split.
  - reflexivity.
  - apply (update_status_marks_every_match gym_world "Gym" 738895 "Done").
    reflexivity.
Defined.

(** The duplicate of the spec: both Gym rows of 2024-01-10 become Done. *)
Example update_status_duplicates :
  exists w',
    update_status_in_sheet "Gym" 738895 "Done" gym_world = (inr tt, w')
    /\ lookup_sheet "Tasks" (sheets w')
       = Some [TASKS_HEADER;
               ["Gym"; "Personal"; "Club"; "2024-01-10"; "18:00"; "60"; "High";
                "Done"; ""];
               ["Gym"; "Personal"; "Club"; "2024-01-10"; "18:00"; "60"; "High";
                "Done"; ""]]
    /\ notices w' = [].
Proof. eexists. vm_compute. repeat split. Qed.

(** ** Deletion *)

Lemma run_delete_scan (d : Z) (time : string) (cells : list cell) :
  forall (w : World) (ws : worksheet),
    reliable w ->
    lookup_sheet "Tasks" (sheets w) = Some ws ->
    exists w',
      runs (delete_scan "Tasks" d time cells) w
        (deleted (first_match (Calendar.str_date d) time ws cells)) w'
      /\ lookup_sheet "Tasks" (sheets w')
         = Some (after_delete ws
                   (first_match (Calendar.str_date d) time ws cells)).
Proof.
  induction cells as [|x cells IH]; intros w ws Hr Hl.
  - exists w. split; [now apply runs_ret | assumption].
  - destruct (run_row_values "Tasks" (row x) w ws Hr Hl) as (w1 & Hrun1 & Hs1).
    assert (Hl1 : lookup_sheet "Tasks" (sheets w1) = Some ws)
      by now rewrite Hs1.
    assert (Hr1 : reliable w1) by apply Hrun1.
    simpl first_match. unfold row_matches.
    set (vals := Grid.row_values ws (row x)).
    assert (Hskip :
             forall w2 b ws2,
               runs (delete_scan "Tasks" d time cells) w1 b w2 ->
               lookup_sheet "Tasks" (sheets w2) = Some ws2 ->
               runs (except_IndexError
                       (sheet_date <- getitem vals 3 ;;
                        sheet_time <- getitem vals 4 ;;
                        if String.eqb sheet_date (Calendar.str_date d)
                           && String.eqb sheet_time time
                        then Gspread.delete_rows "Tasks" (row x) ;;
                             ret (Some true)
                        else ret None)
                       (ret None)) w1 None w1 ->
               exists w',
                 runs (delete_scan "Tasks" d time (x :: cells)) w b w'
                 /\ lookup_sheet "Tasks" (sheets w') = Some ws2).
    { intros w2 b ws2 Hscan Hl2 Hnone. exists w2. split; [|assumption].
      simpl. eapply runs_bind; [exact Hrun1|].
      fold vals. eapply runs_bind; [exact Hnone|]. exact Hscan. }
    destruct (IH w1 ws Hr1 Hl1) as (w2 & Hscan & Hl2).
    destruct (nth_error vals 3) as [sd|] eqn:E3;
      [destruct (nth_error vals 4) as [st|] eqn:E4|].
    + destruct (String.eqb sd (Calendar.str_date d) && String.eqb st time)
        eqn:Em.
      * destruct (run_delete_rows "Tasks" (row x) w1 ws Hr1 Hl1)
          as (w3 & Hrun3 & Hs3).
        exists w3. split.
        -- simpl. eapply runs_bind; [exact Hrun1|]. fold vals.
           destruct Hrun3 as (Hd3 & Hr3 & Hn3).
           unfold runs, bind, except_IndexError, getitem, ret.
           rewrite E3, E4. simpl. rewrite Em, Hd3. auto.
        -- rewrite Hs3. apply lookup_store_same.
      * apply (Hskip w2 _ _ Hscan Hl2).
        unfold runs, bind, except_IndexError, getitem, ret.
        rewrite E3, E4. simpl. rewrite Em. auto.
    + apply (Hskip w2 _ _ Hscan Hl2).
      unfold runs, bind, except_IndexError, getitem, ret, raise.
      rewrite E3, E4. simpl. auto.
    + apply (Hskip w2 _ _ Hscan Hl2).
      unfold runs, bind, except_IndexError, getitem, ret, raise.
      rewrite E3. simpl. auto.
Qed.

(** Over a reliable transport [delete_task_from_sheet] deletes the row of
    the first cell, among all cells of the sheet whose text is the name,
    whose row passes [row_matches], and nothing when there is none. *)
Lemma delete_task_first_found (w : World) (task_name : string) (d : Z)
  (time : string) :
  reliable w ->
  exists w',
    delete_task_from_sheet task_name d time w
    = (inr (deleted (first_match (Calendar.str_date d) time
                       (table "Tasks" TASKS_HEADER w)
                       (Grid.findall (table "Tasks" TASKS_HEADER w) task_name))),
       w')
    /\ notices w' = notices w
    /\ lookup_sheet "Tasks" (sheets w')
       = Some (after_delete (table "Tasks" TASKS_HEADER w)
                 (first_match (Calendar.str_date d) time
                    (table "Tasks" TASKS_HEADER w)
                    (Grid.findall (table "Tasks" TASKS_HEADER w) task_name))).
Proof.
  intros Hr. set (ws := table "Tasks" TASKS_HEADER w).
  destruct (run_init_sheets w Hr) as (w1 & Hrun1 & Ht1 & _ & _).
  fold ws in Ht1.
  destruct (run_worksheet "Tasks" w1 ws) as (w2 & Hrun2 & Hs2);
    [apply Hrun1 | assumption |].
  assert (Hl2 : lookup_sheet "Tasks" (sheets w2) = Some ws) by now rewrite Hs2.
  destruct (run_findall "Tasks" task_name w2 ws) as (w3 & Hrun3 & Hs3);
    [apply Hrun2 | assumption |].
  assert (Hl3 : lookup_sheet "Tasks" (sheets w3) = Some ws) by now rewrite Hs3.
  destruct (run_delete_scan d time (Grid.findall ws task_name) w3 ws)
    as (w4 & Hrun4 & Hl4); [apply Hrun3 | assumption |].
  exists w4.
  assert (Hall : runs (delete_task_from_sheet task_name d time) w
                   (deleted (first_match (Calendar.str_date d) time ws
                               (Grid.findall ws task_name))) w4).
  { unfold delete_task_from_sheet.
    eapply runs_bind; [exact Hrun1|].
    eapply runs_bind; [exact Hrun2|].
    eapply runs_bind; [exact Hrun3|]. exact Hrun4. }
  destruct Hall as (Hres & _ & Hn). auto.
Qed.

Lemma length_delete_rows (ws : worksheet) (r : nat) :
  (1 <= r <= List.length ws)%nat ->
  S (List.length (Grid.delete_rows ws r)) = List.length ws.
Proof.
  intros Hr. unfold Grid.delete_rows.
  rewrite length_app, length_firstn, length_skipn. lia.
Qed.

Lemma first_match_In (date time : string) (ws : worksheet) (cells : list cell)
  (r : nat) :
  first_match date time ws cells = Some r ->
  exists c, In c cells /\ row c = r /\ row_matches date time ws r = true.
Proof.
  induction cells as [|x cells IH]; simpl; [discriminate|].
  destruct (row_matches date time ws (row x)) eqn:E.
  - intros [= <-]. exists x. auto.
  - intros H. destruct (IH H) as (c & Hin & Hrow & Hm). exists c. auto.
Qed.

(** At most one row goes: the sheet is unchanged on [False] and exactly one
    row shorter on [True]. *)
Lemma delete_task_at_most_one (w : World) (task_name : string) (d : Z)
  (time : string) :
  reliable w ->
  exists (w' : World) (b : bool) (ws' : worksheet),
    delete_task_from_sheet task_name d time w = (inr b, w')
    /\ lookup_sheet "Tasks" (sheets w') = Some ws'
    /\ (b = false -> ws' = table "Tasks" TASKS_HEADER w)
    /\ (b = true ->
        S (List.length ws') = List.length (table "Tasks" TASKS_HEADER w)).
Proof.
  intros Hr.
  destruct (delete_task_first_found w task_name d time Hr)
    as (w' & Hres & _ & Hl).
  exists w'. eexists. eexists. split; [exact Hres|]. split; [exact Hl|].
  destruct (first_match _ _ _ _) as [r|] eqn:E; simpl.
  - split; [discriminate|]. intros _.
    destruct (first_match_In _ _ _ _ _ E) as (c & Hin & Hrow & _).
    apply length_delete_rows. subst r.
    now destruct (findall_sound _ _ _ Hin) as (H & _).
  - split; [reflexivity | discriminate].
Qed.

(** C3. [delete_task_from_sheet("Gym", 2024-01-10, "18:00")] on a sheet
    where no row is the task Gym: the search by text finds the Notes cell
    of the task Study, whose date and time agree, and that row is deleted
    with result [True]. *)
Theorem delete_task_removes_another_task :
  Forall (fun cells => nth 0 cells "" <> "Gym")
    (table "Tasks" TASKS_HEADER study_world)
  /\ exists w',
      delete_task_from_sheet "Gym" 738895 "18:00" study_world = (inr true, w')
      /\ lookup_sheet "Tasks" (sheets w') = Some [TASKS_HEADER].
Proof.
  split.
  - repeat constructor; discriminate.
  - eexists. vm_compute. split; reflexivity.
Qed.

(** A row whose cells after the Date are all blank is never deleted: its
    values stop at the Date and [row_values[4]] raises IndexError. *)
Example delete_task_blank_time :
  let w := mk_world [("Tasks", [TASKS_HEADER; ["Gym"; ""; ""; "2024-01-10"]])]
             [] [] [] in
  exists w',
    delete_task_from_sheet "Gym" 738895 "" w = (inr false, w')
    /\ lookup_sheet "Tasks" (sheets w')
       = Some [TASKS_HEADER; ["Gym"; ""; ""; "2024-01-10"]].
Proof. eexists. vm_compute. split; reflexivity. Qed.

(** The duplicate of the spec: the first call deletes the first of the two
    Gym rows, a second identical call the other, a third finds nothing. *)
Example delete_task_duplicates :
  let call := delete_task_from_sheet "Gym" 738895 "18:00" in
  let first := call gym_world in
  let second := call (snd first) in
  let third := call (snd second) in
  fst first = inr true
  /\ lookup_sheet "Tasks" (sheets (snd first)) = Some [TASKS_HEADER; gym_row]
  /\ fst second = inr true
  /\ lookup_sheet "Tasks" (sheets (snd second)) = Some [TASKS_HEADER]
  /\ fst third = inr false
  /\ lookup_sheet "Tasks" (sheets (snd third)) = Some [TASKS_HEADER].
Proof. vm_compute. repeat split. Qed.

(** C9. A status update whose key matches no stored row returns without
    any warning: [findall] returns the empty list, the loop body never
    runs and nothing raises, so the [except] branch that holds
    [st.warning] is not reached.  The deletion with the same key returns
    [False]. *)
Theorem status_update_not_found_is_silent :
  Grid.findall (table "Tasks" TASKS_HEADER quiet_world) "Gym" = []
  /\ (exists w',
         update_status_in_sheet "Gym" 738895 "Done" quiet_world = (inr tt, w')
         /\ notices w' = []
         /\ sheets w' = sheets quiet_world)
  /\ (exists w',
         delete_task_from_sheet "Gym" 738895 "18:00" quiet_world
         = (inr false, w')
         /\ notices w' = []
         /\ sheets w' = sheets quiet_world).
Proof.
  split; [reflexivity|].
  split; eexists; vm_compute; repeat split.
Qed.

(** A key that matches nothing never makes the deletion raise or delete
    over a reliable transport: it returns [False] and leaves the sheet. *)
Lemma delete_task_not_found (w : World) (task_name : string) (d : Z)
  (time : string) :
  reliable w ->
  (forall c, In c (Grid.findall (table "Tasks" TASKS_HEADER w) task_name) ->
             row_matches (Calendar.str_date d) time
               (table "Tasks" TASKS_HEADER w) (row c) = false) ->
  exists w',
    delete_task_from_sheet task_name d time w = (inr false, w')
    /\ lookup_sheet "Tasks" (sheets w') = Some (table "Tasks" TASKS_HEADER w)
    /\ notices w' = notices w.
Proof.
  intros Hr Hnone.
  destruct (delete_task_first_found w task_name d time Hr)
    as (w' & Hres & Hn & Hl).
  destruct (first_match _ _ _ _) as [r|] eqn:E.
  - destruct (first_match_In _ _ _ _ _ E) as (c & Hin & Hrow & Hm).
    subst r. rewrite (Hnone c Hin) in Hm. discriminate.
  - exists w'. auto.
Qed.

(** ** The schedule expander *)

Arguments Calendar.str_date : simpl never.
Arguments Calendar.strftime_HM : simpl never.
Arguments Calendar.strftime_A : simpl never.

Lemma expand_days_filter (today : Z) (task cat loc : string)
  (start_t : Calendar.time) (dur : Qc) (priority notes : string)
  (days_selected : list string) (offsets : list Z) :
  forall new_entries : list dict,
    expand_days today task cat loc start_t dur priority notes days_selected
      offsets new_entries
    = new_entries
        ++ map (recurring_entry task cat loc start_t dur priority notes)
             (filter (selected days_selected)
                (map (Calendar.add_days today) offsets)).
Proof.
  induction offsets as [|i offsets IH]; intros acc; simpl.
  - now rewrite app_nil_r.
  - rewrite IH. unfold selected at 2.
    destruct (mem_string _ days_selected); simpl.
    + now rewrite <- app_assoc.
    + reflexivity.
Qed.

Lemma in_range (n i : Z) : In i (range n) <-> 0 <= i < n.
Proof.
  unfold range. rewrite in_map_iff. split.
  - intros (k & <- & Hk). apply in_seq in Hk. lia.
  - intros H. exists (Z.to_nat i). split; [lia|]. apply in_seq. lia.
Qed.

Lemma sorted_seq_shift (today : Z) (len start : nat) :
  StronglySorted Z.lt
    (map (Calendar.add_days today) (map Z.of_nat (seq start len))).
Proof.
  revert start. induction len as [|len IH]; intros start; simpl.
  - constructor.
  - constructor; [apply IH|].
    apply Forall_forall. intros d Hd.
    apply in_map_iff in Hd. destruct Hd as (z & <- & Hz).
    apply in_map_iff in Hz. destruct Hz as (k & <- & Hk).
    apply in_seq in Hk. unfold Calendar.add_days. lia.
Qed.

Lemma sorted_filter {A : Type} (R : A -> A -> Prop) (f : A -> bool)
  (l : list A) :
  StronglySorted R l -> StronglySorted R (filter f l).
Proof.
  induction 1 as [|x l Hs IH Hall]; simpl.
  - constructor.
  - destruct (f x); [|assumption].
    constructor; [assumption|].
    apply Forall_forall. intros y Hy. apply filter_In in Hy.
    rewrite Forall_forall in Hall. now apply Hall.
Qed.

Lemma to_grid_recurring (show_num : Qc -> string) (task cat loc : string)
  (start_t : Calendar.time) (dur : Qc) (priority notes : string)
  (dates : list Z) :
  to_grid show_num
    (map (fun entry => map str_if_temporal (dict_values entry))
       (map (recurring_entry task cat loc start_t dur priority notes) dates))
  = inr (map (recurring_cells show_num task cat loc start_t dur priority notes)
           dates).
Proof.
  induction dates as [|d dates IH]; simpl.
  - reflexivity.
  - simpl in IH. rewrite IH. reflexivity.
Qed.

Lemma run_bulk_save_tasks (show_num : Qc -> string) (w : World)
  (entries : list dict) (grid : list (list string)) :
  reliable w ->
  to_grid show_num
    (map (fun entry => map str_if_temporal (dict_values entry)) entries)
  = inr grid ->
  exists w',
    runs (bulk_save_entries show_num "Tasks" entries) w tt w'
    /\ lookup_sheet "Tasks" (sheets w')
       = Some (table "Tasks" TASKS_HEADER w ++ grid).
Proof.
  intros Hr Hgrid. set (ws := table "Tasks" TASKS_HEADER w).
  destruct (run_init_sheets w Hr) as (w1 & Hrun1 & Ht1 & _ & _).
  fold ws in Ht1.
  destruct (run_worksheet "Tasks" w1 ws) as (w2 & Hrun2 & Hs2);
    [apply Hrun1 | assumption |].
  assert (Hl2 : lookup_sheet "Tasks" (sheets w2) = Some ws) by now rewrite Hs2.
  destruct (run_append_rows "Tasks" grid w2 ws) as (w3 & Hrun3 & Hs3);
    [apply Hrun2 | assumption |].
  exists w3. split.
  - unfold bulk_save_entries.
    eapply runs_bind; [exact Hrun1|].
    eapply runs_bind; [exact Hrun2|].
    eapply runs_bind; [|exact Hrun3].
    unfold runs, lift. rewrite Hgrid. repeat split; apply Hrun2.
  - rewrite Hs3. apply lookup_store_same.
Qed.

(** C1. Over a reliable transport, a call of the expander produces the
    records [recurring_entry .. d], one for each date [d] of the window
    [today, today + weeks_to_plan*7) whose weekday name is selected, in
    ascending order of date: each has Status Pending, the inputs as its
    Task, Category, Location, StartTime, Duration, Priority and Notes, and
    Date [d].  The call returns their number, and their rows are appended
    to the Tasks sheet. *)
Theorem add_recurring_schedule_expands (show_num : Qc -> string) (w : World)
  (today : Z) (task cat loc : string) (start_t : Calendar.time) (dur : Qc)
  (priority notes : string) (days_selected : list string) (weeks_to_plan : Z) :
  reliable w ->
  exists dates : list Z,
    (forall d : Z,
        In d dates <->
        today <= d < today + weeks_to_plan * 7
        /\ In (Calendar.strftime_A d) days_selected)
    /\ StronglySorted Z.lt dates
    /\ expand_days today task cat loc start_t dur priority notes days_selected
         (range (weeks_to_plan * 7)) []
       = map (fun d =>
                [("Task", VStr task); ("Category", VStr cat);
                 ("Location", VStr loc); ("Date", VDate d);
                 ("StartTime", VStr (Calendar.strftime_HM start_t));
                 ("Duration", VNum dur); ("Priority", VStr priority);
                 ("Status", VStr "Pending"); ("Notes", VStr notes)]) dates
    /\ exists w',
        add_recurring_schedule show_num today task cat loc start_t dur
          priority notes days_selected weeks_to_plan w
        = (inr (Z.of_nat (List.length dates)), w')
        /\ table "Tasks" TASKS_HEADER w'
           = table "Tasks" TASKS_HEADER w
               ++ map (recurring_cells show_num task cat loc start_t dur
                         priority notes) dates.
Proof.
  intros Hr.
  remember (filter (selected days_selected)
              (map (Calendar.add_days today) (range (weeks_to_plan * 7))))
    as dates eqn:Hdates.
  assert (Hexp :
           expand_days today task cat loc start_t dur priority notes
             days_selected (range (weeks_to_plan * 7)) []
           = map (recurring_entry task cat loc start_t dur priority notes)
               dates).
  { rewrite expand_days_filter. now subst dates. }
  exists dates. split; [|split; [|split]].
  - intros d. rewrite Hdates, filter_In, in_map_iff.
    unfold selected. rewrite mem_string_In. split.
    + intros [(i & <- & Hi) Hsel]. apply in_range in Hi.
      unfold Calendar.add_days in *. split; [lia | assumption].
    + intros [Hd Hsel]. split; [|assumption].
      exists (d - today). unfold Calendar.add_days. split; [lia|].
      apply in_range. lia.
  - rewrite Hdates. apply sorted_filter. apply sorted_seq_shift.
  - exact Hexp.
  - unfold add_recurring_schedule. rewrite Hexp. clear Hexp Hdates.
    destruct dates as [|d0 dates0].
    + exists w. simpl. now rewrite app_nil_r.
    + destruct (run_bulk_save_tasks show_num w
                  (map (recurring_entry task cat loc start_t dur priority notes)
                     (d0 :: dates0))
                  (map (recurring_cells show_num task cat loc start_t dur
                          priority notes) (d0 :: dates0)) Hr
                  (to_grid_recurring _ _ _ _ _ _ _ _ _))
        as (w' & (Hres & _ & _) & Hl).
      exists w'. split.
      * cbn [map] in *. unfold bind. rewrite Hres.
        unfold ret. cbn [List.length]. now rewrite length_map.
      * unfold table at 1. now rewrite Hl.
Qed.

Lemma add_recurring_schedule_expands_witness :
  reliable gym_world
  /\ exists dates : list Z,
      (forall d : Z,
          In d dates <->
          738895 <= d < 738895 + 2 * 7
          /\ In (Calendar.strftime_A d) ["Monday"; "Wednesday"])
      /\ StronglySorted Z.lt dates
      /\ expand_days 738895 "Gym" "Personal" "Club" (Calendar.mk_time 18 0)
           (Q2Qc 60) "High" "" ["Monday"; "Wednesday"] (range (2 * 7)) []
         = map (fun d =>
                  [("Task", VStr "Gym"); ("Category", VStr "Personal");
                   ("Location", VStr "Club"); ("Date", VDate d);
                   ("StartTime",
                    VStr (Calendar.strftime_HM (Calendar.mk_time 18 0)));
                   ("Duration", VNum (Q2Qc 60)); ("Priority", VStr "High");
                   ("Status", VStr "Pending"); ("Notes", VStr "")]) dates
      /\ exists w',
          add_recurring_schedule Sample.show_num 738895 "Gym" "Personal"
            "Club" (Calendar.mk_time 18 0) (Q2Qc 60) "High" ""
            ["Monday"; "Wednesday"] 2 gym_world
          = (inr (Z.of_nat (List.length dates)), w')
          /\ table "Tasks" TASKS_HEADER w'
             = table "Tasks" TASKS_HEADER gym_world
                 ++ map (recurring_cells Sample.show_num "Gym" "Personal"
                           "Club" (Calendar.mk_time 18 0) (Q2Qc 60) "High" "")
                      dates.
Proof.
  split.
  - reflexivity.
  - apply (add_recurring_schedule_expands Sample.show_num gym_world 738895
             "Gym" "Personal" "Club" (Calendar.mk_time 18 0) (Q2Qc 60) "High"
             "" ["Monday"; "Wednesday"] 2).
    reflexivity.
Defined.

(** Monday and Wednesday over 14 days from Wednesday 2024-01-10: the four
    dates 10, 15, 17 and 22 January, four rows appended, 4 returned. *)
Example recurring_monday_wednesday :
  let result :=
    add_recurring_schedule Sample.show_num 738895 "Gym" "Personal" "Club"
      (Calendar.mk_time 18 0) (Q2Qc 60) "High" "" ["Monday"; "Wednesday"] 2
      (mk_world [("Tasks", [TASKS_HEADER]); ("Travel", [TRAVEL_HEADER])]
         [] [] []) in
  fst result = inr 4
  /\ lookup_sheet "Tasks" (sheets (snd result))
     = Some [TASKS_HEADER;
             ["Gym"; "Personal"; "Club"; "2024-01-10"; "18:00"; "60"; "High";
              "Pending"; ""];
             ["Gym"; "Personal"; "Club"; "2024-01-15"; "18:00"; "60"; "High";
              "Pending"; ""];
             ["Gym"; "Personal"; "Club"; "2024-01-17"; "18:00"; "60"; "High";
              "Pending"; ""];
             ["Gym"; "Personal"; "Club"; "2024-01-22"; "18:00"; "60"; "High";
              "Pending"; ""]].
Proof. vm_compute. split; reflexivity. Qed.

Lemma expand_days_none_selected (today : Z) (task cat loc : string)
  (start_t : Calendar.time) (dur : Qc) (priority notes : string)
  (offsets : list Z) (new_entries : list dict) :
  expand_days today task cat loc start_t dur priority notes [] offsets
    new_entries
  = new_entries.
Proof.
  revert new_entries. induction offsets as [|i offsets IH]; intros acc; simpl.
  - reflexivity.
  - apply IH.
Qed.

(** C4. With no weekday selected the expander builds no record, returns 0
    and leaves the world as it found it: the sheets are unchanged and the
    log of API calls did not grow, so no write (indeed no call at all) was
    issued.  This holds whatever the state of the transport. *)
Theorem add_recurring_schedule_nothing_selected (show_num : Qc -> string)
  (w : World) (today : Z) (task cat loc : string) (start_t : Calendar.time)
  (dur : Qc) (priority notes : string) (weeks_to_plan : Z) :
  expand_days today task cat loc start_t dur priority notes []
    (range (weeks_to_plan * 7)) [] = []
  /\ add_recurring_schedule show_num today task cat loc start_t dur priority
       notes [] weeks_to_plan w
     = (inr 0, w).
Proof.
  split.
  - apply expand_days_none_selected.
  - unfold add_recurring_schedule. now rewrite expand_days_none_selected.
Qed.

(** ** Sorting by a text column *)

Lemma ascii_compare_refl (c : ascii) : Ascii.compare c c = Eq.
Proof. unfold Ascii.compare. apply N.compare_refl. Qed.

Lemma string_compare_refl (s : string) : String.compare s s = Eq.
Proof.
  induction s as [|c s IH]; simpl; [reflexivity|].
  now rewrite ascii_compare_refl.
Qed.

Lemma string_compare_lt_trans (s1 : string) :
  forall s2 s3 : string,
    String.compare s1 s2 = Lt -> String.compare s2 s3 = Lt ->
    String.compare s1 s3 = Lt.
Proof.
  induction s1 as [|c1 s1 IH]; intros [|c2 s2] [|c3 s3]; simpl;
    try congruence.
  destruct (Ascii.compare c1 c2) eqn:E12; try discriminate;
    destruct (Ascii.compare c2 c3) eqn:E23; try discriminate; intros H1 H2.
  - apply Ascii.compare_eq_iff in E12, E23. subst.
    rewrite ascii_compare_refl. eauto.
  - apply Ascii.compare_eq_iff in E12. subst. now rewrite E23.
  - apply Ascii.compare_eq_iff in E23. subst. now rewrite E12.
  - unfold Ascii.compare in *. rewrite N.compare_lt_iff in *.
    assert (H : (N_of_ascii c1 < N_of_ascii c3)%N) by lia.
    apply N.compare_lt_iff in H. now rewrite H.
Qed.


Lemma string_leb_trans (s1 s2 s3 : string) :
  String.leb s1 s2 = true -> String.leb s2 s3 = true ->
  String.leb s1 s3 = true.
Proof.
  unfold String.leb.
  destruct (String.compare s1 s2) eqn:E12; try discriminate;
    destruct (String.compare s2 s3) eqn:E23; try discriminate; intros _ _.
  - apply String.compare_eq_iff in E12, E23. subst.
    now rewrite string_compare_refl.
  - apply String.compare_eq_iff in E12. subst. now rewrite E23.
  - apply String.compare_eq_iff in E23. subst. now rewrite E12.
  - now rewrite (string_compare_lt_trans _ _ _ E12 E23).
Qed.


Lemma text_le_trans (a b c : value) : text_le a b -> text_le b c -> text_le a c.
Proof.
  destruct a, b, c; simpl; try contradiction. apply string_leb_trans.
Qed.

Lemma insert_by_text (k : value) (r : dict) (sorted : list (value * dict)) :
  is_text k ->
  Forall (fun kr => is_text (fst kr)) sorted ->
  StronglySorted (fun a b => text_le (fst a) (fst b)) sorted ->
  exists l,
    Pandas.insert_by k r sorted = inr l
    /\ Permutation l ((k, r) :: sorted)
    /\ StronglySorted (fun a b => text_le (fst a) (fst b)) l.
Proof.
  intros [s ->]. induction sorted as [|[k' r'] rest IH]; intros Htext Hsorted.
  - exists [(VStr s, r)]. repeat split; auto. repeat constructor.
  - inversion Htext as [|? ? [t Hk'] Htext']; subst. simpl in Hk'. subst k'.
    inversion Hsorted as [|? ? Hrest Hall]; subst.
    simpl. destruct (String.leb s t) eqn:E.
    + exists ((VStr s, r) :: (VStr t, r') :: rest). repeat split; auto.
      constructor; [assumption|]. constructor; [exact E|].
      eapply Forall_impl; [|exact Hall].
      intros [k2 r2] H2. simpl in *.
      destruct k2; try contradiction. simpl.
      now apply string_leb_trans with (s2 := t).
    + destruct (IH Htext' Hrest) as (l & Hins & Hperm & Hsl).
      rewrite Hins. exists ((VStr t, r') :: l). repeat split.
      * rewrite Hperm. apply perm_swap.
      * constructor; [assumption|].
        apply Forall_forall. intros x Hx.
        apply (Permutation_in _ Hperm) in Hx. destruct Hx as [<- | Hx].
        -- simpl. destruct (String.leb_total s t) as [H | H];
             [congruence | exact H].
        -- rewrite Forall_forall in Hall. now apply Hall.
Qed.

Lemma sort_keyed_text (l : list (value * dict)) :
  Forall (fun kr => is_text (fst kr)) l ->
  exists sorted,
    Pandas.sort_keyed l = inr sorted
    /\ Permutation sorted l
    /\ StronglySorted (fun a b => text_le (fst a) (fst b)) sorted.
Proof.
  induction l as [|[k r] l IH]; intros Htext.
  - exists []. repeat split; auto. constructor.
  - inversion Htext as [|? ? Hk Htext']; subst.
    destruct (IH Htext') as (sorted & Hsort & Hperm & Hss).
    destruct (insert_by_text k r sorted Hk) as (l' & Hins & Hperm' & Hss').
    + apply Forall_forall. intros x Hx.
      apply (Permutation_in _ Hperm) in Hx.
      rewrite Forall_forall in Htext'. now apply Htext'.
    + assumption.
    + exists l'. simpl. rewrite Hsort. repeat split; auto.
      rewrite Hperm'. now constructor.
Qed.

Lemma sorted_map_snd (c : string) (l : list (value * dict)) :
  Forall (fun kr => fst kr = Pandas.field c (snd kr)) l ->
  StronglySorted (fun a b => text_le (fst a) (fst b)) l ->
  StronglySorted (fun a b => text_le (Pandas.field c a) (Pandas.field c b))
    (map snd l).
Proof.
  induction l as [|[k r] l IH]; intros Hkey Hs; simpl.
  - constructor.
  - inversion Hkey as [|? ? Hk Hkey']; subst.
    inversion Hs as [|? ? Hs' Hall]; subst. simpl in Hk.
    constructor; [now apply IH|].
    apply Forall_forall. intros x Hx. apply in_map_iff in Hx.
    destruct Hx as ([k2 r2] & <- & Hin). simpl.
    rewrite Forall_forall in Hall, Hkey'.
    specialize (Hall _ Hin). specialize (Hkey' _ Hin). simpl in *.
    now rewrite <- Hk, <- Hkey'.
Qed.

(** [sort_values] on a frame whose values in column [c] are all text: the
    rows are permuted into ascending order of that column. *)
Lemma sort_values_text (c : string) (df : frame) :
  In c (columns df) ->
  (forall r, In r (rows df) -> is_text (Pandas.field c r)) ->
  exists out,
    Pandas.sort_values c df = inr out
    /\ columns out = columns df
    /\ Permutation (rows out) (rows df)
    /\ StronglySorted
         (fun a b => text_le (Pandas.field c a) (Pandas.field c b)) (rows out).
Proof.
  intros Hc Htext. unfold Pandas.sort_values.
  apply mem_string_In in Hc. rewrite Hc.
  set (keyed := map (fun r => (Pandas.field c r, r)) (rows df)).
  assert (Hall : Forall (fun kr => is_text (fst kr)) keyed).
  { apply Forall_forall. intros kr Hkr. apply in_map_iff in Hkr.
    destruct Hkr as (r & <- & Hr). now apply Htext. }
  assert (Hkeys : Forall (fun kr => fst kr = Pandas.field c (snd kr)) keyed).
  { apply Forall_forall. intros kr Hkr. apply in_map_iff in Hkr.
    now destruct Hkr as (r & <- & Hr). }
  assert (Hpresent :
           filter (fun kr => negb (Pandas.is_nan (fst kr))) keyed = keyed).
  { apply forallb_filter_id. apply forallb_forall. intros kr Hkr.
    rewrite Forall_forall in Hall. destruct (Hall _ Hkr) as [s ->].
    reflexivity. }
  assert (Hmissing : filter (fun kr => Pandas.is_nan (fst kr)) keyed = []).
  { clear Hpresent Hkeys. induction keyed as [|kr keyed IH]; [reflexivity|].
    inversion Hall as [|? ? [s Hs] Hall']; subst. simpl. rewrite Hs. simpl.
    now apply IH. }
  rewrite Hpresent, Hmissing.
  destruct (sort_keyed_text keyed Hall) as (sorted & Hsort & Hperm & Hss).
  rewrite Hsort. eexists. split; [reflexivity|]. simpl.
  rewrite app_nil_r. split; [reflexivity|]. split.
  - rewrite Hperm. unfold keyed. rewrite map_map. simpl. now rewrite map_id.
  - apply sorted_map_snd; [|assumption].
    apply Forall_forall. intros x Hx.
    apply (Permutation_in _ Hperm) in Hx.
    rewrite Forall_forall in Hkeys. now apply Hkeys.
Qed.

(** ** The agenda of a day *)

Lemma column_present (c : string) (df : frame) :
  In c (columns df) ->
  Pandas.column c df = inr (map (Pandas.field c) (rows df)).
Proof.
  intros Hc. unfold Pandas.column. apply mem_string_In in Hc. now rewrite Hc.
Qed.

Lemma empty_no_rows (df : frame) (c : string) :
  In c (columns df) -> Pandas.empty df = true -> rows df = [].
Proof.
  unfold Pandas.empty. destruct (columns df); [contradiction|].
  destruct (rows df); [reflexivity | discriminate].
Qed.



(** Tasks at 09:00, 14:30 and 08:15 come out as 08:15, 09:00, 14:30; the
    task of another date is left out. *)
Example daily_tasks_spec_example :
  daily_tasks 738895 agenda_snapshot
  = inr (mk_frame TASKS_HEADER
           [task_row "Run" 738895 "08:15" 30 "Low" "Done";
            task_row "Lecture" 738895 "09:00" 60 "Medium" "Pending";
            task_row "Lab" 738895 "14:30" 90 "High" "Pending"]).
Proof. reflexivity. Qed.

(** Outside the hypothesis of C5: when the StartTimes of the date mix
    text and numbers, [sort_values] raises TypeError. *)
Example daily_tasks_mixed_start_times :
  daily_tasks 738895 mixed_start_times = inl TypeError.
Proof. reflexivity. Qed.

(** ** Tomorrow's highlight *)



(** High tasks at 10:00 and 07:30 tomorrow: the 07:30 one is shown; with no
    High task tomorrow the box says so. *)
Example tomorrow_highlight_spec_example :
  tomorrow_highlight 738895 highlight_snapshot
  = inr (NextBig (VStr "Quiz") (VStr "07:30") (VStr "Home"))
  /\ tomorrow_highlight 738896 highlight_snapshot = inr NoHighPriority.
Proof. split; reflexivity. Qed.

(** ** Today's travel total *)

Lemma sum_from_numbers (qs : list Qc) :
  forall acc : Qc,
    Pandas.sum_from (VNum acc) (map VNum qs)
    = inr (VNum (fold_left Qcplus qs acc)).
Proof.
  induction qs as [|q qs IH]; intros acc; simpl; [reflexivity | apply IH].
Qed.

Lemma sum_numbers (qs : list Qc) :
  Pandas.sum (map VNum qs) = inr (VNum (fold_left Qcplus qs 0%Qc)).
Proof.
  unfold Pandas.sum.
  assert (H : filter (fun v => negb (Pandas.is_nan v)) (map VNum qs)
              = map VNum qs).
  { induction qs as [|q qs IH]; simpl; [reflexivity | now rewrite IH]. }
  rewrite H. destruct qs as [|q qs]; simpl; [reflexivity|].
  rewrite sum_from_numbers. now rewrite Qcplus_0_l.
Qed.

(** C7, as the code has it.  For a Travel snapshot that is empty or has
    the Date and DistanceKM columns, and whose rows of today all hold a
    number as DistanceKM, [total_km] is the sum of the DistanceKM of
    exactly the rows whose Date is today: 0 when there is none. *)
Theorem total_km_sums_today (df_travel : frame) (today : Z) :
  (rows df_travel <> [] ->
   In "Date" (columns df_travel) /\ In "DistanceKM" (columns df_travel)) ->
  (forall r, In r (rows df_travel) -> on_date today r = true ->
             exists q, Pandas.field "DistanceKM" r = VNum q) ->
  total_km today df_travel
  = inr (VNum (today_travel_total_spec today df_travel))
  /\ (filter (on_date today) (rows df_travel) = [] ->
      total_km today df_travel = inr (VNum 0%Qc)).
Proof.
  intros Hcols Hnum.
  assert (Hmain : total_km today df_travel
                  = inr (VNum (today_travel_total_spec today df_travel))).
  { unfold total_km, today_travel_total_spec.
    destruct (Pandas.empty df_travel) eqn:Hempty; simpl.
    - destruct (rows df_travel) as [|r rs] eqn:Hrows; [reflexivity|].
      destruct Hcols as [Hdate _]; [discriminate|].
      rewrite (empty_no_rows _ _ Hdate Hempty) in Hrows. discriminate.
    - assert (Hne : rows df_travel <> []).
      { unfold Pandas.empty in Hempty. intros H. rewrite H in Hempty.
        destruct (columns df_travel); discriminate. }
      destruct (Hcols Hne) as [Hdate Hdist].
      rewrite (column_present _ _ Hdate). simpl.
      rewrite column_present by exact Hdist. simpl.
      assert (Hvals :
               map (Pandas.field "DistanceKM")
                 (filter (on_date today) (rows df_travel))
               = map VNum
                   (map (fun r => distance_or_zero
                                    (Pandas.field "DistanceKM" r))
                      (filter (on_date today) (rows df_travel)))).
      { rewrite map_map. apply map_ext_in. intros r Hr.
        apply filter_In in Hr. destruct Hr as [Hr Hd].
        destruct (Hnum r Hr Hd) as [q ->]. reflexivity. }
      rewrite Hvals. apply sum_numbers. }
  split; [exact Hmain|].
  intros Hnone. rewrite Hmain. unfold today_travel_total_spec.
  now rewrite Hnone.
Qed.

Lemma total_km_sums_today_witness :
  ((rows travel_snapshot <> [] ->
    In "Date" (columns travel_snapshot)
    /\ In "DistanceKM" (columns travel_snapshot))
   /\ forall r, In r (rows travel_snapshot) -> on_date 738895 r = true ->
                exists q, Pandas.field "DistanceKM" r = VNum q)
  /\ total_km 738895 travel_snapshot
     = inr (VNum (today_travel_total_spec 738895 travel_snapshot))
  /\ (filter (on_date 738895) (rows travel_snapshot) = [] ->
      total_km 738895 travel_snapshot = inr (VNum 0%Qc)).
Proof.
  assert (H : (rows travel_snapshot <> [] ->
               In "Date" (columns travel_snapshot)
               /\ In "DistanceKM" (columns travel_snapshot))
              /\ forall r, In r (rows travel_snapshot) ->
                           on_date 738895 r = true ->
                           exists q, Pandas.field "DistanceKM" r = VNum q).
  { split.
    - intros _. simpl. tauto.
    - intros r Hr _. simpl in Hr.
      destruct Hr as [<- | [<- | [<- | []]]]; eexists; reflexivity. }
  split; [exact H|].
  apply (total_km_sums_today travel_snapshot 738895); apply H.
Defined.

(** 5.2 km and 3.0 km today and 10 km yesterday total 8.2 km. *)
Example total_km_spec_example :
  total_km 738895 travel_snapshot = inr (VNum (Q2Qc (82 # 10))).
Proof.
  vm_compute. do 2 f_equal. apply Qc_is_canon. reflexivity.
Qed.

(** C7 as stated fails: with a DistanceKM that is not a number among
    today's rows the code does not count it as 0.  Here the spec's total
    is 5.2 and the sum raises TypeError. *)
Lemma total_km_text_distance :
  today_travel_total_spec 738895 travel_with_text = Q2Qc (52 # 10)
  /\ total_km 738895 travel_with_text = inl TypeError
  /\ total_km 738895 travel_with_text
     <> inr (VNum (today_travel_total_spec 738895 travel_with_text)).
Proof.
  split; [|split].
  - apply Qc_is_canon. reflexivity.
  - reflexivity.
  - discriminate.
Qed.

(** A blank DistanceKM alone is returned as the empty text, not as 0. *)
Example total_km_blank_distance :
  total_km 738895 travel_with_blank = inr (VStr "").
Proof. reflexivity. Qed.

(** ** The agenda loop *)

Lemma item_present (c : string) (df : frame) (r : dict) :
  In c (columns df) -> item c df r = inr (Pandas.field c r).
Proof.
  intros Hc. unfold item. apply mem_string_In in Hc. now rewrite Hc.
Qed.

Lemma time_range_bad_start (df : frame) (r : dict) (err : exn) :
  Clock.strptime_HM (Pandas.field "StartTime" r) = inl err ->
  exists e, time_range df r = inl e.
Proof.
  intros Hbad. unfold time_range, item.
  destruct (mem_string "StartTime" (columns df)); simpl.
  - rewrite Hbad. simpl. eauto.
  - eauto.
Qed.

Lemma agenda_row_shows (df : frame) (r : dict) :
  incl ["Priority"; "Status"; "Task"; "Location"] (columns df) ->
  exists e, agenda_row df r = inr e /\ shows df r e.
Proof.
  intros Hcols. unfold agenda_row.
  rewrite !item_present by (apply Hcols; simpl; tauto). simpl.
  eexists. split; [reflexivity|]. unfold shows. simpl.
  repeat split.
  - intros range ->. reflexivity.
  - intros err ->. reflexivity.
  - intros err Hbad.
    destruct (time_range_bad_start df r err Hbad) as [e ->]. reflexivity.
Qed.

Lemma agenda_rows_show (df : frame) :
  incl ["Priority"; "Status"; "Task"; "Location"] (columns df) ->
  forall rs,
    exists entries,
      agenda_rows df rs = inr entries /\ Forall2 (shows df) rs entries.
Proof.
  intros Hcols. induction rs as [|r rs (entries & Hrun & Hall)].
  - exists []. split; [reflexivity | constructor].
  - destruct (agenda_row_shows df r Hcols) as (e & He & Hshows).
    exists (e :: entries). simpl. rewrite He, Hrun. simpl.
    split; [reflexivity | now constructor].
Qed.



(** The bad row shows "Time Error"; the rows before and after it show
    their time ranges. *)
Example agenda_bad_time_example :
  option_map (map time_str)
    (match agenda agenda_with_bad_time with inr shown => shown | inl _ => None end)
  = Some ["08:15 AM - 08:45 AM"; "Time Error"; "02:30 PM - 04:00 PM"].
Proof. reflexivity. Qed.

(** The whole agenda of a day, from a snapshot with the expected columns
    whose StartTimes of that date are text, well formed or not: the tasks
    of the date are sorted and every one of them is shown. *)
Lemma agenda_of_day (df : frame) (selected_date : Z) :
  incl TASKS_HEADER (columns df) ->
  (forall r, In r (rows df) -> on_date selected_date r = true ->
             is_text (start_time r)) ->
  exists daily entries,
    daily_tasks selected_date df = inr daily
    /\ Permutation (rows daily) (filter (on_date selected_date) (rows df))
    /\ agenda_rows daily (rows daily) = inr entries
    /\ Forall2 (shows daily) (rows daily) entries.
Proof.
  intros Hcols Htext.
  assert (Hdate : In "Date" (columns df)) by (apply Hcols; simpl; tauto).
  assert (Hstart : In "StartTime" (columns df)) by (apply Hcols; simpl; tauto).
  unfold daily_tasks.
  destruct (Pandas.empty df) eqn:Hempty; simpl.
  - exists (mk_frame [] []), []. rewrite (empty_no_rows df "Date" Hdate Hempty).
    repeat split; auto.
  - rewrite (column_present "Date" df Hdate). simpl.
    destruct (sort_values_text "StartTime"
                (Pandas.select (on_date selected_date) df))
      as (daily & Hsort & Hcolumns & Hperm & _).
    + exact Hstart.
    + simpl. intros r Hr. apply filter_In in Hr. now apply Htext.
    + simpl in Hcolumns, Hperm.
      destruct (agenda_rows_show daily) with (rs := rows daily)
        as (entries & Hrun & Hall).
      { rewrite Hcolumns. intros c Hc. apply Hcols. simpl in *. tauto. }
      exists daily, entries. auto.
Qed.

(** ** Loading a snapshot *)

Lemma bind_inr_inv {A B : Type} (m : M A) (k : A -> M B) (w w' : World)
  (b : B) :
  bind m k w = (inr b, w') ->
  exists a w1, m w = (inr a, w1) /\ k a w1 = (inr b, w').
Proof.
  unfold bind. destruct (m w) as [[e | a] w1]; [discriminate|].
  intros H. now exists a, w1.
Qed.

Lemma keeps_ret {A : Type} (a : A) : keeps (ret a).
Proof. intros w r w' [= <- <-] t ws H. exact H. Qed.

Lemma keeps_lift {A : Type} (r : exn + A) : keeps (lift r).
Proof. intros w r' w' [= <- <-] t ws H. exact H. Qed.

Lemma keeps_bind {A B : Type} (m : M A) (k : A -> M B) :
  keeps m -> (forall a, keeps (k a)) -> keeps (bind m k).
Proof.
  intros Hm Hk w r w' Hrun t ws Hl. unfold bind in Hrun.
  destruct (m w) as [[e | a] w1] eqn:E.
  - injection Hrun as <- <-. eapply Hm; eauto.
  - eapply Hk; [exact Hrun|]. eapply Hm; eauto.
Qed.

Lemma keeps_try_except {A : Type} (m : M A) (h : exn -> M A) :
  keeps m -> (forall e, keeps (h e)) -> keeps (try_except m h).
Proof.
  intros Hm Hh w r w' Hrun t ws Hl. unfold try_except in Hrun.
  destruct (m w) as [[e | a] w1] eqn:E.
  - eapply Hh; [exact Hrun|]. eapply Hm; eauto.
  - injection Hrun as <- <-. eapply Hm; eauto.
Qed.

Lemma request_sheets (c : call) (w : World) :
  sheets (snd (request c w)) = sheets w.
Proof. unfold request. destruct (faults w) as [|[|] fs]; reflexivity. Qed.

Lemma keeps_request (c : call) : keeps (request c).
Proof.
  intros w r w' Hrun t ws Hl.
  pose proof (request_sheets c w) as Hs. rewrite Hrun in Hs. simpl in Hs.
  now rewrite Hs.
Qed.

Lemma keeps_read_only {A : Type} (f : World -> exn + A) :
  keeps (fun w => (f w, w)).
Proof. intros w r w' [= <- <-] t ws H. exact H. Qed.

Lemma keeps_worksheet (title : string) : keeps (Gspread.worksheet title).
Proof.
  unfold Gspread.worksheet. apply keeps_bind; [apply keeps_request|].
  intros _ w r w' Hrun t ws Hl.
  destruct (lookup_sheet title (sheets w)); injection Hrun as <- <-; exact Hl.
Qed.

Lemma keeps_get_all_records (parse_number : string -> option Qc) (h : string) :
  keeps (get_all_records parse_number h).
Proof.
  unfold get_all_records. apply keeps_bind; [apply keeps_request|].
  intros _. apply keeps_bind; [|intros ws; apply keeps_lift].
  intros w r w' Hrun t ws Hl. unfold read_sheet in Hrun.
  destruct (lookup_sheet h (sheets w)); injection Hrun as <- <-; exact Hl.
Qed.

(** Creating a worksheet and writing its header touches no worksheet that
    existed: the API refuses to add a title that exists. *)
Lemma keeps_create (title : string) (header : list string) :
  keeps (ws <- Gspread.add_worksheet title ;; Gspread.append_row ws header).
Proof.
  intros w r w' Hrun t ws Hl.
  unfold Gspread.add_worksheet, Gspread.append_row, bind in Hrun.
  destruct (request (AddWorksheet title) w) as [[e | []] w1] eqn:E1.
  - injection Hrun as <- <-.
    pose proof (request_sheets (AddWorksheet title) w) as Hs.
    rewrite E1 in Hs. simpl in Hs. now rewrite Hs.
  - pose proof (request_sheets (AddWorksheet title) w) as Hs1.
    rewrite E1 in Hs1. simpl in Hs1.
    destruct (lookup_sheet title (sheets w1)) as [existing|] eqn:Hex.
    + injection Hrun as <- <-. now rewrite Hs1.
    + assert (Hne : title <> t).
      { intros ->. rewrite Hs1 in Hex. congruence. }
      unfold write_sheet, ret in Hrun. simpl in Hrun.
      match type of Hrun with
      | context [request ?c ?w2] =>
          pose proof (request_sheets c w2) as Hs2;
          destruct (request c w2) as [[e | []] w3] eqn:E2
      end; simpl in Hs2.
      * injection Hrun as <- <-. rewrite Hs2.
        rewrite lookup_store_other by exact Hne. now rewrite Hs1.
      * unfold read_sheet in Hrun. rewrite Hs2 in Hrun.
        rewrite lookup_store_same in Hrun. simpl in Hrun.
        injection Hrun as <- <-. simpl. rewrite Hs2.
        rewrite !lookup_store_other by exact Hne. now rewrite Hs1.
Qed.

Lemma keeps_init_sheets : keeps init_sheets.
Proof.
  unfold init_sheets, Gspread.open_by_url.
  apply keeps_bind; [apply keeps_request | intros _].
  apply keeps_bind; [|intros _].
  - apply keeps_try_except; [|intros _; apply keeps_create].
    apply keeps_bind; [apply keeps_worksheet | intros _; apply keeps_ret].
  - apply keeps_try_except; [|intros _; apply keeps_create].
    apply keeps_bind; [apply keeps_worksheet | intros _; apply keeps_ret].
Qed.

Lemma worksheet_returns (title : string) (w w' : World) (h : string) :
  Gspread.worksheet title w = (inr h, w') -> h = title.
Proof.
  unfold Gspread.worksheet, bind.
  destruct (request (GetWorksheet title) w) as [[e | []] w1]; [discriminate|].
  destruct (lookup_sheet title (sheets w1)); [|discriminate].
  now intros [= <- _].
Qed.

Lemma get_all_records_returns (parse_number : string -> option Qc)
  (h : string) (w w' : World) (data : list dict) :
  get_all_records parse_number h w = (inr data, w') ->
  exists ws,
    lookup_sheet h (sheets w) = Some ws
    /\ records_of parse_number ws = inr data.
Proof.
  unfold get_all_records, bind, read_sheet, lift.
  pose proof (request_sheets (GetAllRecords h) w) as Hs.
  destruct (request (GetAllRecords h) w) as [[e | []] w1]; [discriminate|].
  simpl in Hs. rewrite Hs.
  destruct (lookup_sheet h (sheets w)) as [ws|]; [|discriminate].
  intros [= H _]. now exists ws.
Qed.

Lemma load_data_cases (parse_number : string -> option Qc)
  (to_datetime : value -> option (option Z)) (name : string) (w : World) :
  exists df w',
    load_data parse_number to_datetime name w = (inr df, w')
    /\ (forall t ws, lookup_sheet t (sheets w) = Some ws ->
                     lookup_sheet t (sheets w') = Some ws)
    /\ (df = mk_frame TASKS_HEADER []
        \/ exists ws,
            lookup_sheet name (sheets w') = Some ws
            /\ snapshot_of parse_number to_datetime name ws = inr df).
Proof.
  set (inner :=
         init_sheets ;;
         worksheet <- Gspread.worksheet name ;;
         data <- get_all_records parse_number worksheet ;;
         lift (parse_dates to_datetime
                 (if String.eqb name "Tasks"
                  then add_expected_columns (Pandas.DataFrame data)
                  else Pandas.DataFrame data))).
  assert (Hkeeps : keeps inner).
  { unfold inner. apply keeps_bind; [apply keeps_init_sheets | intros _].
    apply keeps_bind; [apply keeps_worksheet | intros h].
    apply keeps_bind; [apply keeps_get_all_records | intros data].
    apply keeps_lift. }
  assert (Hload : load_data parse_number to_datetime name
                  = try_except inner (fun _ => ret (mk_frame TASKS_HEADER [])))
    by reflexivity.
  rewrite Hload. unfold try_except.
  destruct (inner w) as [[e | df] w'] eqn:Hrun.
  - exists (mk_frame TASKS_HEADER []), w'. split; [reflexivity|].
    split; [|now left]. intros t ws. now apply (Hkeeps w _ w' Hrun).
  - exists df, w'. split; [reflexivity|].
    split; [intros t ws; now apply (Hkeeps w _ w' Hrun)|]. right.
    unfold inner in Hrun.
    apply bind_inr_inv in Hrun. destruct Hrun as ([] & w1 & _ & Hrun).
    apply bind_inr_inv in Hrun. destruct Hrun as (h & w2 & Hws & Hrun).
    apply worksheet_returns in Hws. subst h.
    apply bind_inr_inv in Hrun. destruct Hrun as (data & w3 & Hget & Hrun).
    pose proof (keeps_get_all_records parse_number name w2 _ w3 Hget) as Hk.
    apply get_all_records_returns in Hget. destruct Hget as (ws & Hl & Hrec).
    unfold lift in Hrun. injection Hrun as Hparse <-.
    exists ws. split; [now apply Hk|].
    unfold snapshot_of. rewrite Hrec. exact Hparse.
Qed.

(** *** Dicts and records *)

Lemma dict_get_set_same (k : string) (v : value) (d : dict) :
  dict_get k (dict_set k v d) = Some v.
Proof.
  induction d as [|[k' v'] d IH]; simpl.
  - now rewrite String.eqb_refl.
  - destruct (String.eqb k k') eqn:E; simpl; rewrite E; auto.
Qed.

Lemma dict_get_set_other (k k' : string) (v : value) (d : dict) :
  k <> k' -> dict_get k (dict_set k' v d) = dict_get k d.
Proof.
  intros Hne. induction d as [|[k0 v0] d IH]; simpl.
  - destruct (String.eqb k k') eqn:E; [|reflexivity].
    apply String.eqb_eq in E. congruence.
  - destruct (String.eqb k' k0) eqn:E; simpl.
    + apply String.eqb_eq in E. subst k0.
      destruct (String.eqb k k') eqn:E'; [|reflexivity].
      apply String.eqb_eq in E'. congruence.
    + now rewrite IH.
Qed.

Lemma dict_keys_set (k x : string) (v : value) (d : dict) :
  In x (dict_keys (dict_set k v d)) -> x = k \/ In x (dict_keys d).
Proof.
  induction d as [|[k0 v0] d IH]; simpl.
  - intros [<- | []]. now left.
  - destruct (String.eqb k k0) eqn:E; simpl.
    + tauto.
    + intros [<- | H]; [tauto|]. destruct (IH H); tauto.
Qed.

Lemma dict_get_absent (k : string) (d : dict) :
  ~ In k (dict_keys d) -> dict_get k d = None.
Proof.
  induction d as [|[k0 v0] d IH]; simpl; [reflexivity|].
  intros Hn. destruct (String.eqb k k0) eqn:E.
  - apply String.eqb_eq in E. subst. tauto.
  - apply IH. tauto.
Qed.

Lemma field_set_same (k : string) (v : value) (d : dict) :
  Pandas.field k (dict_set k v d) = v.
Proof. unfold Pandas.field. now rewrite dict_get_set_same. Qed.

Lemma field_set_other (k k' : string) (v : value) (d : dict) :
  k <> k' -> Pandas.field k (dict_set k' v d) = Pandas.field k d.
Proof. intros H. unfold Pandas.field. now rewrite dict_get_set_other. Qed.

Lemma pad_step (w : nat) (cells : list string) :
  (List.length cells <= S w)%nat ->
  Grid.pad (S w) cells = hd "" cells :: Grid.pad w (tl cells).
Proof.
  intros Hlen. unfold Grid.pad. destruct cells as [|c cells]; simpl.
  - now rewrite Nat.sub_0_r.
  - reflexivity.
Qed.

Lemma length_pad (w : nat) (cells : list string) :
  (List.length cells <= w)%nat -> List.length (Grid.pad w cells) = w.
Proof.
  intros Hlen. unfold Grid.pad. rewrite length_app, repeat_length. lia.
Qed.

Lemma keys_of_combine (keys : list string) (vals : list value) :
  List.length keys = List.length vals ->
  dict_keys (combine keys vals) = keys.
Proof.
  revert vals. induction keys as [|k keys IH]; intros [|v vals] Hlen;
    simpl in *; try discriminate; [reflexivity|].
  f_equal. apply IH. lia.
Qed.

(** The record of a stored row holds, under a header cell, the numericised
    text of the row's cell below it. *)
Lemma field_of_record (parse_number : string -> option Qc) (k : string)
  (header : list string) :
  forall (w : nat) (cells : list string),
    In k header ->
    (List.length header <= w)%nat ->
    (List.length cells <= w)%nat ->
    Pandas.field k
      (combine (Grid.pad w header)
         (map (numericise parse_number) (Grid.pad w cells)))
    = numericise parse_number (stored_field k header cells).
Proof.
  induction header as [|h header IH]; intros w cells Hin Hh Hc.
  - contradiction.
  - destruct w as [|w]; [simpl in Hh; lia|].
    rewrite (pad_step w (h :: header)) by exact Hh.
    rewrite (pad_step w cells) by exact Hc.
    simpl hd. simpl tl. simpl stored_field. unfold Pandas.field. simpl.
    destruct (String.eqb k h) eqn:E; [reflexivity|].
    destruct Hin as [-> | Hin]; [now rewrite String.eqb_refl in E|].
    apply (IH w (tl cells) Hin).
    + simpl in Hh. lia.
    + destruct cells; simpl in *; lia.
Qed.

Lemma numericise_blank (parse_number : string -> option Qc) (s : string) :
  parse_number "" = None ->
  value_eqb (numericise parse_number s) (VStr "") = String.eqb s "".
Proof.
  intros Hblank. unfold numericise.
  destruct (parse_number s) as [q|] eqn:E; simpl; [|reflexivity].
  destruct (String.eqb s "") eqn:Es; [|reflexivity].
  apply String.eqb_eq in Es. subst. congruence.
Qed.

(** *** Frames built by [load_data] *)

Lemma add_columns_rows (cols : list string) :
  forall df : frame,
    exists f : dict -> dict,
      rows (fold_left
              (fun df c =>
                 if mem_string c (columns df) then df
                 else Pandas.add_nan_column c df) cols df)
      = map f (rows df)
      /\ incl (columns df)
           (columns (fold_left
                       (fun df c =>
                          if mem_string c (columns df) then df
                          else Pandas.add_nan_column c df) cols df))
      /\ (forall r k, In k (columns df) ->
                      Pandas.field k (f r) = Pandas.field k r)
      /\ (forall r, incl (dict_keys r) (columns df) ->
                    incl (dict_keys (f r))
                      (columns (fold_left
                                  (fun df c =>
                                     if mem_string c (columns df) then df
                                     else Pandas.add_nan_column c df)
                                  cols df))).
Proof.
  induction cols as [|c cols IH]; intros df; simpl.
  - exists (fun r => r). rewrite map_id. repeat split; auto using incl_refl.
  - destruct (mem_string c (columns df)) eqn:Hc.
    + apply IH.
    + destruct (IH (Pandas.add_nan_column c df)) as (f & Hrows & Hincl & Hf & Hk).
      exists (fun r => f (dict_set c VNaN r)). simpl in *.
      split; [|split; [|split]].
      * rewrite Hrows. now rewrite map_map.
      * intros x Hx. apply Hincl. apply in_or_app. now left.
      * intros r k Hk'. rewrite Hf by (apply in_or_app; now left).
        apply field_set_other. intros ->.
        apply mem_string_In in Hk'. congruence.
      * intros r Hr. apply Hk. intros x Hx.
        apply dict_keys_set in Hx. apply in_or_app.
        destruct Hx as [-> | Hx]; [right; now left | left; now apply Hr].
Qed.

Lemma records_of_rows (parse_number : string -> option Qc)
  (header : list string) (stored : worksheet) (data : list dict) :
  records_of parse_number (header :: stored) = inr data ->
  data
  = map (fun cells =>
           combine (Grid.pad (Grid.width (header :: stored)) header)
             (map (numericise parse_number)
                (Grid.pad (Grid.width (header :: stored)) cells)))
      stored.
Proof.
  unfold records_of, Grid.fill_gaps. cbn [map].
  destruct (Grid.nodupb _); [|discriminate].
  intros [= <-]. now rewrite map_map.
Qed.

Lemma record_keys (parse_number : string -> option Qc) (w : nat)
  (header cells : list string) :
  (List.length header <= w)%nat -> (List.length cells <= w)%nat ->
  dict_keys (combine (Grid.pad w header)
               (map (numericise parse_number) (Grid.pad w cells)))
  = Grid.pad w header.
Proof.
  intros Hh Hc. apply keys_of_combine.
  now rewrite length_map, !length_pad.
Qed.

Lemma to_dates_values (to_datetime : value -> option (option Z))
  (vs : list value) :
  forall ds,
    to_dates to_datetime vs = inr ds ->
    List.length ds = List.length vs /\ Forall (fun v => v <> VStr "") ds.
Proof.
  induction vs as [|v vs IH]; intros ds; simpl.
  - intros [= <-]. split; [reflexivity | constructor].
  - destruct (to_datetime v) as [[d|]|]; [| |discriminate];
      destruct (to_dates to_datetime vs) as [e | ds']; try discriminate;
      intros [= <-]; destruct (IH ds' eq_refl) as [Hlen Hall];
      (split; [simpl; now rewrite Hlen | constructor; [discriminate | exact Hall]]).
Qed.

(** The frame handed to [parse_dates] for a sheet [header :: stored]. *)
Lemma loaded_frame (parse_number : string -> option Qc) (name : string)
  (header : list string) (stored : worksheet) (data : list dict) :
  records_of parse_number (header :: stored) = inr data ->
  exists (df0 : frame) (f : dict -> dict),
    df0 = (if String.eqb name "Tasks"
           then add_expected_columns (Pandas.DataFrame data)
           else Pandas.DataFrame data)
    /\ rows df0
       = map (fun cells =>
                f (combine (Grid.pad (Grid.width (header :: stored)) header)
                     (map (numericise parse_number)
                        (Grid.pad (Grid.width (header :: stored)) cells))))
           stored
    /\ (stored <> [] -> incl header (columns df0))
    /\ (stored <> [] ->
        forall r k, In k header -> Pandas.field k (f r) = Pandas.field k r)
    /\ (forall r, In r (rows df0) -> incl (dict_keys r) (columns df0)).
Proof.
  intros Hrec. pose proof (records_of_rows _ _ _ _ Hrec) as Hdata.
  set (w := Grid.width (header :: stored)) in *.
  set (g := fun cells =>
              combine (Grid.pad w header)
                (map (numericise parse_number) (Grid.pad w cells))) in *.
  assert (Hw : (List.length header <= w)%nat).
  { apply (width_ge (header :: stored) 0). reflexivity. }
  assert (Hcells : forall cells, In cells stored ->
                                 (List.length cells <= w)%nat).
  { intros cells Hin. apply In_nth_error in Hin. destruct Hin as [i Hi].
    apply (width_ge (header :: stored) (S i)). exact Hi. }
  assert (Hkeys : forall cells, In cells stored ->
                                dict_keys (g cells) = Grid.pad w header).
  { intros cells Hin. apply record_keys; auto. }
  assert (Hcols : stored <> [] ->
                  columns (Pandas.DataFrame data) = Grid.pad w header).
  { intros Hne. rewrite Hdata. destruct stored as [|c0 stored']; [congruence|].
    simpl. apply Hkeys. now left. }
  assert (Hinpad : forall k, In k header -> In k (Grid.pad w header)).
  { intros k Hk. unfold Grid.pad. apply in_or_app. now left. }
  assert (Hkeyed : forall r, In r (rows (Pandas.DataFrame data)) ->
                             incl (dict_keys r) (columns (Pandas.DataFrame data))).
  { simpl. rewrite Hdata. intros r Hr. apply in_map_iff in Hr.
    destruct Hr as (cells & <- & Hin).
    assert (Hne : stored <> []) by (intros ->; contradiction).
    rewrite Hkeys by exact Hin. rewrite <- (Hcols Hne). rewrite Hdata.
    apply incl_refl. }
  destruct (String.eqb name "Tasks").
  - unfold add_expected_columns.
    destruct (add_columns_rows TASKS_HEADER (Pandas.DataFrame data))
      as (f & Hrows & Hincl & Hf & Hk).
    eexists. exists f. split; [reflexivity|].
    split; [|split; [|split]].
    + rewrite Hrows. simpl. rewrite Hdata. now rewrite map_map.
    + intros Hne k Hk'. apply Hincl. rewrite (Hcols Hne). now apply Hinpad.
    + intros Hne r k Hk'. apply Hf. rewrite (Hcols Hne). now apply Hinpad.
    + intros r Hr. rewrite Hrows in Hr. apply in_map_iff in Hr.
      destruct Hr as (r0 & <- & Hr0). apply Hk. now apply Hkeyed.
  - eexists. exists (fun r => r). split; [reflexivity|].
    split; [|split; [|split]].
    + simpl. rewrite Hdata. reflexivity.
    + intros Hne k Hk'. rewrite (Hcols Hne). now apply Hinpad.
    + reflexivity.
    + exact Hkeyed.
Qed.

Lemma parse_dates_cases (to_datetime : value -> option (option Z))
  (df0 df : frame) :
  parse_dates to_datetime df0 = inr df ->
  (df = df0 /\ (rows df0 = [] \/ ~ In "Date" (columns df0)))
  \/ (In "Date" (columns df0)
      /\ columns df = columns df0
      /\ exists dates,
          List.length dates
          = List.length (filter nonblank_date (rows df0))
          /\ Forall (fun v => v <> VStr "") dates
          /\ rows df
             = map (fun rv => dict_set "Date" (snd rv) (fst rv))
                 (combine (filter nonblank_date (rows df0)) dates)).
Proof.
  unfold parse_dates.
  destruct (Pandas.empty df0) eqn:Hempty; simpl.
  - intros [= <-]. left. split; [reflexivity|].
    unfold Pandas.empty in Hempty.
    destruct (columns df0); [right; tauto|].
    destruct (rows df0); [now left | discriminate].
  - destruct (mem_string "Date" (columns df0)) eqn:Hdate.
    + apply mem_string_In in Hdate.
      unfold Pandas.column. simpl.
      pose proof Hdate as Hmem. apply mem_string_In in Hmem. rewrite Hmem.
      simpl.
      destruct (to_dates to_datetime _) as [e | dates] eqn:Hdates;
        [discriminate|].
      simpl. intros [= <-]. right. split; [assumption|].
      split; [simpl; now rewrite Hmem|].
      destruct (to_dates_values _ _ _ Hdates) as [Hlen Hall].
      rewrite length_map in Hlen.
      exists dates. repeat split; assumption.
    + intros [= <-]. left. split; [reflexivity|]. right.
      intros H. apply mem_string_In in H. congruence.
Qed.

Lemma converted_rows (X : Type) (P : X -> dict -> Prop) (h : X -> dict) :
  forall (xs : list X) (dates : list value),
    List.length dates = List.length xs ->
    (forall x d, In x xs -> P x (dict_set "Date" d (h x))) ->
    Forall2 P xs
      (map (fun rv => dict_set "Date" (snd rv) (fst rv))
         (combine (map h xs) dates)).
Proof.
  induction xs as [|x xs IH]; intros [|d dates] Hlen HP; simpl in *;
    try discriminate; constructor.
  - apply HP. now left.
  - apply IH; [lia|]. intros y e Hy. apply HP. now right.
Qed.

Lemma filter_map_ext {X Y : Type} (p : Y -> bool) (q : X -> bool) (h : X -> Y)
  (xs : list X) :
  (forall x, In x xs -> p (h x) = q x) ->
  filter p (map h xs) = map h (filter q xs).
Proof.
  induction xs as [|x xs IH]; intros Hpq; simpl; [reflexivity|].
  rewrite (Hpq x) by now left.
  rewrite IH by (intros y Hy; apply Hpq; now right).
  now destruct (q x).
Qed.

(** No record of a snapshot has the empty text as its Date. *)
Lemma snapshot_dates_not_blank (parse_number : string -> option Qc)
  (to_datetime : value -> option (option Z)) (name : string) (ws : worksheet)
  (df : frame) :
  snapshot_of parse_number to_datetime name ws = inr df ->
  forall r, In r (rows df) -> Pandas.field "Date" r <> VStr "".
Proof.
  unfold snapshot_of.
  destruct (records_of parse_number ws) as [e | data] eqn:Hrec;
    [discriminate|].
  simpl. intros Hparse.
  assert (Hkeyed :
           forall r,
             In r (rows (if String.eqb name "Tasks"
                         then add_expected_columns (Pandas.DataFrame data)
                         else Pandas.DataFrame data)) ->
             incl (dict_keys r)
               (columns (if String.eqb name "Tasks"
                         then add_expected_columns (Pandas.DataFrame data)
                         else Pandas.DataFrame data))).
  { destruct ws as [|header stored].
    - unfold records_of in Hrec. simpl in Hrec. injection Hrec as <-.
      destruct (String.eqb name "Tasks"); intros r Hr; vm_compute in Hr;
        contradiction.
    - destruct (loaded_frame parse_number name header stored data Hrec)
        as (df0 & f & -> & _ & _ & _ & Hk). exact Hk. }
  destruct (parse_dates_cases _ _ _ Hparse)
    as [[-> [Hnone | Hnodate]] | (Hdate & _ & dates & Hlen & Hall & Hrows)].
  - intros r Hr. rewrite Hnone in Hr. contradiction.
  - intros r Hr. unfold Pandas.field.
    rewrite dict_get_absent; [discriminate|].
    intros Hin. apply Hnodate. now apply (Hkeyed r Hr).
  - intros r Hr. rewrite Hrows in Hr. apply in_map_iff in Hr.
    destruct Hr as ([r0 v] & <- & Hin). simpl.
    rewrite field_set_same. apply in_combine_r in Hin.
    rewrite Forall_forall in Hall. now apply Hall.
Qed.

(** The records of a snapshot are, in order, the stored rows whose Date
    cell is not blank, unless the snapshot has no record at all. *)
Lemma snapshot_rows_with_date (parse_number : string -> option Qc)
  (to_datetime : value -> option (option Z)) (name : string)
  (header : list string) (stored : worksheet) (df : frame) :
  parse_number "" = None ->
  In "Date" header ->
  snapshot_of parse_number to_datetime name (header :: stored) = inr df ->
  rows df = []
  \/ Forall2 (loaded_from parse_number header)
       (filter (stored_with_date header) stored) (rows df).
Proof.
  intros Hblank Hdate. unfold snapshot_of.
  destruct (records_of parse_number (header :: stored)) as [e | data] eqn:Hrec;
    [discriminate|].
  simpl. intros Hparse.
  destruct (loaded_frame parse_number name header stored data Hrec)
    as (df0 & f & Hdf0 & Hrows0 & Hcols & Hf & _).
  rewrite <- Hdf0 in Hparse.
  destruct stored as [|c0 stored'] eqn:Hstored.
  { left. simpl in Hrows0.
    destruct (parse_dates_cases _ _ _ Hparse)
      as [[-> _] | (_ & _ & dates & _ & _ & Hrows)]; [assumption|].
    rewrite Hrows, Hrows0. reflexivity. }
  rewrite <- Hstored in *.
  assert (Hne : stored <> []) by (rewrite Hstored; discriminate).
  clear Hstored c0 stored'.
  specialize (Hcols Hne). specialize (Hf Hne).
  set (w := Grid.width (header :: stored)) in *.
  set (h := fun cells =>
              f (combine (Grid.pad w header)
                   (map (numericise parse_number) (Grid.pad w cells)))) in *.
  assert (Hw : (List.length header <= w)%nat).
  { apply (width_ge (header :: stored) 0). reflexivity. }
  assert (Hcells : forall cells, In cells stored ->
                                 (List.length cells <= w)%nat).
  { intros cells Hin. apply In_nth_error in Hin. destruct Hin as [i Hi].
    apply (width_ge (header :: stored) (S i)). exact Hi. }
  assert (Hfield : forall cells k,
             In cells stored -> In k header ->
             Pandas.field k (h cells)
             = numericise parse_number (stored_field k header cells)).
  { intros cells k Hin Hk. unfold h. rewrite Hf by exact Hk.
    apply field_of_record; auto. }
  destruct (parse_dates_cases _ _ _ Hparse)
    as [[-> [Hnone | Hnodate]] | (_ & _ & dates & Hlen & _ & Hrows)].
  - now left.
  - exfalso. apply Hnodate. now apply Hcols.
  - right. rewrite Hrows, Hrows0.
    rewrite Hrows0 in Hlen.
    assert (Hfilter :
             filter nonblank_date (map h stored)
             = map h (filter (stored_with_date header) stored)).
    { apply filter_map_ext. intros cells Hin.
      unfold nonblank_date, stored_with_date.
      rewrite (Hfield cells "Date" Hin Hdate).
      now rewrite numericise_blank. }
    fold h. fold h in Hlen. rewrite Hfilter in *. rewrite length_map in Hlen.
    apply converted_rows; [exact Hlen|].
    intros cells d Hin k Hk Hkd.
    apply filter_In in Hin. destruct Hin as [Hin _].
    rewrite field_set_other by exact Hkd. now apply Hfield.
Qed.

(** C10. Whatever the state of the spreadsheet and of the transport,
    [load_data] returns a snapshot and leaves every existing worksheet as
    it was.  No record of the snapshot has the empty text as its Date, and
    for a sheet whose header has a Date column the records are, in order,
    the stored rows whose Date cell is not blank (or there is no record at
    all, when the load failed): a stored row with a blank Date is in no
    snapshot and stays in storage. *)
Theorem load_data_skips_blank_dates (parse_number : string -> option Qc)
  (to_datetime : value -> option (option Z)) (w : World) (name : string) :
  parse_number "" = None ->
  exists (df : frame) (w' : World),
    load_data parse_number to_datetime name w = (inr df, w')
    /\ (forall t ws, lookup_sheet t (sheets w) = Some ws ->
                     lookup_sheet t (sheets w') = Some ws)
    /\ (forall r, In r (rows df) -> Pandas.field "Date" r <> VStr "")
    /\ (forall header stored,
           lookup_sheet name (sheets w) = Some (header :: stored) ->
           In "Date" header ->
           rows df = []
           \/ Forall2 (loaded_from parse_number header)
                (filter (stored_with_date header) stored) (rows df)).
Proof.
  intros Hblank.
  destruct (load_data_cases parse_number to_datetime name w)
    as (df & w' & Hrun & Hkeep & Hcases).
  exists df, w'. split; [exact Hrun|]. split; [exact Hkeep|].
  destruct Hcases as [-> | (ws & Hl & Hsnap)].
  - split; [intros r []|]. intros header stored _ _. now left.
  - split.
    + now apply (snapshot_dates_not_blank _ _ _ _ _ Hsnap).
    + intros header stored Hl0 Hdate.
      apply Hkeep in Hl0. rewrite Hl in Hl0. injection Hl0 as ->.
      now apply (snapshot_rows_with_date _ _ _ _ _ _ Hblank Hdate Hsnap).
Qed.

Lemma load_data_skips_blank_dates_witness :
  Sample.parse_number "" = None
  /\ exists (df : frame) (w' : World),
      load_data Sample.parse_number Sample.to_datetime "Tasks" ghost_world
      = (inr df, w')
      /\ (forall t ws, lookup_sheet t (sheets ghost_world) = Some ws ->
                       lookup_sheet t (sheets w') = Some ws)
      /\ (forall r, In r (rows df) -> Pandas.field "Date" r <> VStr "")
      /\ (forall header stored,
             lookup_sheet "Tasks" (sheets ghost_world)
             = Some (header :: stored) ->
             In "Date" header ->
             rows df = []
             \/ Forall2 (loaded_from Sample.parse_number header)
                  (filter (stored_with_date header) stored) (rows df)).
Proof.
  split.
  - reflexivity.
  - apply (load_data_skips_blank_dates Sample.parse_number Sample.to_datetime
             ghost_world "Tasks").
    reflexivity.
Defined.

(** The Ghost row, whose Date cell is blank, is not in the snapshot: the
    snapshot has the Gym and Run tasks only, so the agenda of no date and
    no highlight shows it; the sheet still has its three data rows. *)
Example load_data_ghost_row :
  let loaded :=
    load_data Sample.parse_number Sample.to_datetime "Tasks" ghost_world in
  match fst loaded with
  | inr df =>
      map (Pandas.field "Task") (rows df) = [VStr "Gym"; VStr "Run"]
      /\ map (Pandas.field "Date") (rows df) = [VDate 738895; VDate 738896]
  | inl _ => False
  end
  /\ lookup_sheet "Tasks" (sheets (snd loaded))
     = lookup_sheet "Tasks" (sheets ghost_world).
Proof. vm_compute. repeat split. Qed.

Lemma add_columns_all (cols : list string) :
  forall df : frame,
    incl cols
      (columns (fold_left
                  (fun df c =>
                     if mem_string c (columns df) then df
                     else Pandas.add_nan_column c df) cols df)).
Proof.
  induction cols as [|c cols IH]; intros df x Hx; [contradiction|].
  simpl. destruct Hx as [<- | Hx]; [|now apply IH].
  destruct (add_columns_rows cols
              (if mem_string c (columns df) then df
               else Pandas.add_nan_column c df)) as (_ & _ & Hincl & _).
  apply Hincl. destruct (mem_string c (columns df)) eqn:Hc.
  - now apply mem_string_In.
  - simpl. apply in_or_app. right. now left.
Qed.

(** X7. A loaded Tasks snapshot always has the nine expected columns,
    whatever the sheet and the transport, so the reads of the dashboard
    find the columns they index. *)
Lemma load_data_tasks_columns (parse_number : string -> option Qc)
  (to_datetime : value -> option (option Z)) (w : World) :
  exists df w',
    load_data parse_number to_datetime "Tasks" w = (inr df, w')
    /\ incl TASKS_HEADER (columns df).
Proof.
  destruct (load_data_cases parse_number to_datetime "Tasks" w)
    as (df & w' & Hrun & _ & Hcases).
  exists df, w'. split; [exact Hrun|].
  destruct Hcases as [-> | (ws & _ & Hsnap)]; [apply incl_refl|].
  unfold snapshot_of in Hsnap.
  destruct (records_of parse_number ws) as [e | data]; [discriminate|].
  cbn [ebind String.eqb Ascii.eqb Bool.eqb] in Hsnap.
  pose proof (add_columns_all TASKS_HEADER (Pandas.DataFrame data)) as Hall.
  fold (add_expected_columns (Pandas.DataFrame data)) in Hall.
  destruct (parse_dates_cases _ _ _ Hsnap)
    as [[-> _] | (_ & -> & _)]; exact Hall.
Qed.

(** * Further properties of the code *)

(** ** The expander counts whole weeks *)

Lemma weekday_shift (d i : Z) :
  Calendar.weekday (d + i) = (Calendar.weekday d + i) mod 7.
Proof.
  unfold Calendar.weekday.
  replace (d + i + 6) with (d + 6 + i) by lia.
  now rewrite Z.add_mod_idemp_l by lia.
Qed.

Lemma filter_length_map {X Y : Type} (p : Y -> bool) (h : X -> Y)
  (xs : list X) :
  List.length (filter (fun x => p (h x)) xs)
  = List.length (filter p (map h xs)).
Proof.
  induction xs as [|x xs IH]; simpl; [reflexivity|].
  destruct (p (h x)); simpl; now rewrite IH.
Qed.

Lemma filter_length_rotate {X : Type} (p : X -> bool) (k : nat) (l : list X) :
  List.length (filter p (skipn k l ++ firstn k l))
  = List.length (filter p l).
Proof.
  rewrite <- (firstn_skipn k l) at 3.
  rewrite !filter_app, !length_app. lia.
Qed.

(** Seven consecutive days carry the seven weekday names, each once. *)
Lemma week_names (s : Z) :
  exists k : nat,
    map Calendar.strftime_A (map (Calendar.add_days s) (range 7))
    = skipn k Calendar.day_names ++ firstn k Calendar.day_names.
Proof.
  assert (Hk : 0 <= Calendar.weekday s < 7)
    by (unfold Calendar.weekday; apply Z.mod_pos_bound; lia).
  exists (Z.to_nat (Calendar.weekday s)).
  change (range 7) with [0; 1; 2; 3; 4; 5; 6]. cbn [map].
  unfold Calendar.strftime_A, Calendar.add_days.
  rewrite !weekday_shift.
  assert (Hcases : Calendar.weekday s = 0 \/ Calendar.weekday s = 1
                   \/ Calendar.weekday s = 2 \/ Calendar.weekday s = 3
                   \/ Calendar.weekday s = 4 \/ Calendar.weekday s = 5
                   \/ Calendar.weekday s = 6) by lia.
  destruct Hcases as [H | [H | [H | [H | [H | [H | H]]]]]];
    rewrite H; reflexivity.
Qed.

Lemma week_count (days_selected : list string) (s : Z) :
  List.length (filter (selected days_selected)
                 (map (Calendar.add_days s) (range 7)))
  = List.length (selected_names days_selected).
Proof.
  unfold selected.
  rewrite (filter_length_map (fun name => mem_string name days_selected)
             Calendar.strftime_A).
  destruct (week_names s) as [k ->].
  apply filter_length_rotate.
Qed.

Lemma map_seq_from {Y : Type} (len : nat) :
  forall (f : nat -> Y) (a : nat),
    map f (seq a len) = map (fun i => f (a + i)%nat) (seq 0 len).
Proof.
  induction len as [|len IH]; intros f a; simpl; [reflexivity|].
  rewrite Nat.add_0_r. f_equal.
  rewrite (IH f (S a)), (IH (fun i => f (a + i)%nat) 1%nat).
  apply map_ext. intros i. f_equal. lia.
Qed.

Lemma range_more_week (today : Z) (n : nat) :
  map (Calendar.add_days today) (range (Z.of_nat (S n) * 7))
  = map (Calendar.add_days today) (range (Z.of_nat n * 7))
      ++ map (Calendar.add_days (today + Z.of_nat n * 7)) (range 7).
Proof.
  unfold range.
  replace (Z.to_nat (Z.of_nat (S n) * 7)) with (Z.to_nat (Z.of_nat n * 7) + 7)%nat
    by lia.
  rewrite seq_app, !map_app. f_equal.
  replace (Z.to_nat 7) with 7%nat by reflexivity.
  rewrite Nat.add_0_l, !map_map.
  rewrite (map_seq_from 7 _ (Z.to_nat (Z.of_nat n * 7))).
  apply map_ext. intros i. unfold Calendar.add_days. lia.
Qed.

Lemma window_count (days_selected : list string) (today : Z) (n : nat) :
  List.length (filter (selected days_selected)
                 (map (Calendar.add_days today) (range (Z.of_nat n * 7))))
  = (n * List.length (selected_names days_selected))%nat.
Proof.
  induction n as [|n IH].
  - reflexivity.
  - rewrite range_more_week, filter_app, length_app, IH, week_count. lia.
Qed.

(** X1. Over a reliable transport and for a non-negative number of weeks,
    the count [add_recurring_schedule] returns is the number of weeks times
    the number of weekday names among the selected ones, whatever today's
    date is: one record per selected weekday and week. *)
Theorem add_recurring_schedule_count (show_num : Qc -> string) (w : World)
  (today : Z) (task cat loc : string) (start_t : Calendar.time) (dur : Qc)
  (priority notes : string) (days_selected : list string) (weeks_to_plan : Z) :
  reliable w ->
  0 <= weeks_to_plan ->
  exists w',
    add_recurring_schedule show_num today task cat loc start_t dur priority
      notes days_selected weeks_to_plan w
    = (inr (weeks_to_plan
            * Z.of_nat (List.length (selected_names days_selected))), w').
Proof.
  intros Hr Hweeks. unfold add_recurring_schedule.
  rewrite expand_days_filter. cbn [app].
  remember (filter (selected days_selected)
              (map (Calendar.add_days today) (range (weeks_to_plan * 7))))
    as dates eqn:Hdates.
  assert (Hlen : Z.of_nat (List.length dates)
                 = weeks_to_plan
                   * Z.of_nat (List.length (selected_names days_selected))).
  { rewrite Hdates. rewrite <- (Z2Nat.id weeks_to_plan) at 1 by exact Hweeks.
    rewrite window_count. lia. }
  rewrite <- Hlen. clear Hlen Hdates.
  destruct dates as [|d0 dates0].
  - exists w. reflexivity.
  - destruct (run_bulk_save_tasks show_num w
                (map (recurring_entry task cat loc start_t dur priority notes)
                   (d0 :: dates0))
                (map (recurring_cells show_num task cat loc start_t dur
                        priority notes) (d0 :: dates0)) Hr
                (to_grid_recurring _ _ _ _ _ _ _ _ _))
      as (w' & (Hres & _ & _) & _).
    exists w'. cbn [map] in *. unfold bind. rewrite Hres.
    unfold ret. cbn [List.length]. now rewrite length_map.
Qed.

Lemma add_recurring_schedule_count_witness :
  (reliable gym_world /\ 0 <= 4)
  /\ exists w',
      add_recurring_schedule Sample.show_num 738895 "Gym" "Personal" "Club"
        (Calendar.mk_time 18 0) (Q2Qc 60) "High" ""
        ["Monday"; "Wednesday"; "Friday"] 4 gym_world
      = (inr (4 * Z.of_nat (List.length
                              (selected_names ["Monday"; "Wednesday"; "Friday"]))),
         w').
Proof.
  split.
  - split; [reflexivity | lia].
  - apply (add_recurring_schedule_count Sample.show_num gym_world 738895 "Gym"
             "Personal" "Club" (Calendar.mk_time 18 0) (Q2Qc 60) "High" ""
             ["Monday"; "Wednesday"; "Friday"] 4).
    + reflexivity.
    + lia.
Defined.

(** ** The time range of an agenda entry *)

Lemma reads_back_all :
  forallb (fun h => forallb (reads_back h) (range 60)) (range 24) = true.
Proof. vm_compute. reflexivity. Qed.

(** What [strftime("%H:%M")] writes for a time of day, [strptime] reads
    back. *)
Lemma strptime_strftime (h m : Z) :
  0 <= h < 24 -> 0 <= m < 60 ->
  Clock.strptime_HM (VStr (Calendar.strftime_HM (Calendar.mk_time h m)))
  = inr (h, m).
Proof.
  intros Hh Hm. pose proof reads_back_all as Hall.
  rewrite forallb_forall in Hall.
  specialize (Hall h (proj2 (in_range 24 h) Hh)).
  rewrite forallb_forall in Hall.
  specialize (Hall m (proj2 (in_range 60 m) Hm)).
  unfold reads_back in Hall.
  destruct (Clock.strptime_HM _) as [e | [h' m']]; [discriminate|].
  apply andb_prop in Hall. destruct Hall as [H1 H2].
  apply Z.eqb_eq in H1, H2. now subst.
Qed.

Lemma Qred_inject_Z (n : Z) : Qred (inject_Z n) = inject_Z n.
Proof.
  unfold Qred, inject_Z.
  pose proof (Z.ggcd_gcd n 1) as Hg.
  pose proof (Z.ggcd_correct_divisors n 1) as Hd.
  destruct (Z.ggcd n 1) as [g [aa bb]]. simpl in *.
  rewrite Z.gcd_1_r in Hg. subst g. destruct Hd as [Ha Hb].
  assert (Haa : aa = n) by lia. assert (Hbb : bb = 1) by lia.
  rewrite Haa, Hbb. reflexivity.
Qed.

Lemma round_half_even_integer (z : Z) :
  Clock.round_half_even (inject_Z z) = z.
Proof.
  unfold Clock.round_half_even.
  assert (Hf : Qfloor (inject_Z z) = z).
  { unfold Qfloor, inject_Z. apply Z.div_1_r. }
  rewrite Hf.
  assert (Hc : (inject_Z z - inject_Z z ?= 1 # 2)%Q = Lt).
  { unfold Qcompare, Qminus, Qplus, Qopp, inject_Z. simpl.
    apply Z.compare_lt_iff. lia. }
  now rewrite Hc.
Qed.

(** [timedelta(minutes=n)] for a whole number of minutes. *)
Lemma timedelta_whole_minutes (n : Z) :
  Z.abs n <= 999999999 * 1440 ->
  Clock.timedelta_minutes (VNum (Q2Qc (inject_Z n)))
  = inr (n * Clock.US_PER_MINUTE).
Proof.
  intros Hn. unfold Clock.timedelta_minutes.
  change (this (Q2Qc (inject_Z n))) with (Qred (inject_Z n)).
  rewrite Qred_inject_Z.
  assert (Hmul : (inject_Z n * inject_Z Clock.US_PER_MINUTE)%Q
                 = inject_Z (n * Clock.US_PER_MINUTE)) by reflexivity.
  rewrite Hmul, round_half_even_integer.
  assert (Hdays : n * Clock.US_PER_MINUTE / Clock.US_PER_DAY = n / 1440).
  { unfold Clock.US_PER_MINUTE, Clock.US_PER_DAY.
    change 86400000000 with (1440 * 60000000).
    rewrite Z.div_mul_cancel_r by lia. reflexivity. }
  rewrite Hdays.
  assert (Hle : (Z.abs (n / 1440) <=? 999999999) = true).
  { apply Z.leb_le. apply Z.abs_le. apply Z.abs_le in Hn. split.
    - apply Z.div_le_lower_bound; lia.
    - apply Z.div_le_upper_bound; lia. }
  now rewrite Hle.
Qed.

Lemma add_timedelta_minutes (h m n : Z) :
  0 <= h < 24 -> 0 <= m < 60 ->
  -900000000 <= n <= 4000000000 ->
  Clock.add_timedelta (h, m) (n * Clock.US_PER_MINUTE)
  = inr (clock_after h m n).
Proof.
  intros Hh Hm Hn. unfold Clock.add_timedelta, clock_after. simpl fst. simpl snd.
  replace ((h * 60 + m) * Clock.US_PER_MINUTE + n * Clock.US_PER_MINUTE)
    with ((60 * h + m + n) * Clock.US_PER_MINUTE) by lia.
  set (x := 60 * h + m + n).
  assert (Hdays : x * Clock.US_PER_MINUTE / Clock.US_PER_DAY = x / 1440).
  { unfold Clock.US_PER_MINUTE, Clock.US_PER_DAY.
    change 86400000000 with (1440 * 60000000).
    rewrite Z.div_mul_cancel_r by lia. reflexivity. }
  assert (Hmod : x * Clock.US_PER_MINUTE mod Clock.US_PER_DAY
                 / Clock.US_PER_MINUTE = x mod 1440).
  { unfold Clock.US_PER_MINUTE, Clock.US_PER_DAY.
    change 86400000000 with (1440 * 60000000).
    rewrite Z.mul_mod_distr_r by lia. rewrite Z.div_mul by lia. reflexivity. }
  rewrite Hdays, Hmod.
  assert (Hcal : Calendar.in_calendarb (Clock.EPOCH_1900 + x / 1440) = true).
  { unfold Calendar.in_calendarb, Calendar.MINORDINAL, Calendar.MAXORDINAL,
      Clock.EPOCH_1900.
    assert (-693595 <= x / 1440) by (apply Z.div_le_lower_bound; lia).
    assert (x / 1440 <= 2958463) by (apply Z.div_le_upper_bound; lia).
    apply andb_true_intro. split; apply Z.leb_le; lia. }
  now rewrite Hcal.
Qed.

(** X2. A row whose StartTime is what [strftime("%H:%M")] wrote for a time
    of day and whose Duration is a whole number of minutes never shows
    "Time Error": its time range is the start and, as end, the clock
    Duration minutes later, the day dropped (an end past midnight wraps
    around). *)
Theorem time_range_of_written_task (df : frame) (r : dict) (h m n : Z) :
  In "StartTime" (columns df) ->
  In "Duration" (columns df) ->
  Pandas.field "StartTime" r
  = VStr (Calendar.strftime_HM (Calendar.mk_time h m)) ->
  Pandas.field "Duration" r = VNum (Q2Qc (inject_Z n)) ->
  0 <= h < 24 -> 0 <= m < 60 ->
  -900000000 <= n <= 4000000000 ->
  time_range df r
  = inr (Clock.strftime_IMp (h, m) ++ " - "
           ++ Clock.strftime_IMp (clock_after h m n))%string.
Proof.
  intros Hs Hd Hstart Hdur Hh Hm Hn. unfold time_range.
  rewrite (item_present _ _ _ Hs), (item_present _ _ _ Hd). simpl ebind.
  rewrite Hstart, strptime_strftime by assumption. simpl ebind.
  rewrite Hdur, timedelta_whole_minutes by lia. simpl ebind.
  rewrite add_timedelta_minutes by assumption. reflexivity.
Qed.

Lemma time_range_of_written_task_witness :
  (In "StartTime" (columns agenda_snapshot)
   /\ In "Duration" (columns agenda_snapshot)
   /\ Pandas.field "StartTime"
        (task_row "Late" 738895 "23:30" 60 "Low" "Pending")
      = VStr (Calendar.strftime_HM (Calendar.mk_time 23 30))
   /\ Pandas.field "Duration"
        (task_row "Late" 738895 "23:30" 60 "Low" "Pending")
      = VNum (Q2Qc (inject_Z 60))
   /\ 0 <= 23 < 24 /\ 0 <= 30 < 60 /\ -900000000 <= 60 <= 4000000000)
  /\ time_range agenda_snapshot
       (task_row "Late" 738895 "23:30" 60 "Low" "Pending")
     = inr (Clock.strftime_IMp (23, 30) ++ " - "
              ++ Clock.strftime_IMp (clock_after 23 30 60))%string.
Proof.
  split.
  - repeat split; try lia; simpl; tauto.
  - apply (time_range_of_written_task agenda_snapshot
             (task_row "Late" 738895 "23:30" 60 "Low" "Pending") 23 30 60);
      try lia; try reflexivity; simpl; tauto.
Defined.

Lemma time_range_text_duration (df : frame) (r : dict) (s : string) :
  Pandas.field "Duration" r = VStr s ->
  exists e, time_range df r = inl e.
Proof.
  intros Hdur. unfold time_range, item.
  destruct (mem_string "StartTime" (columns df)); simpl; [|eauto].
  destruct (Clock.strptime_HM _) as [e | start_dt]; simpl; [eauto|].
  destruct (mem_string "Duration" (columns df)); simpl; [|eauto].
  rewrite Hdur. simpl. eauto.
Qed.

(** X3. "Time Error" does not single out a bad StartTime: an agenda entry
    built from a row whose Duration is text (a blank cell stays the empty
    text) shows "Time Error" whatever the StartTime of the row is. *)
Theorem agenda_row_text_duration (df : frame) (r : dict) (s : string)
  (e : agenda_entry) :
  Pandas.field "Duration" r = VStr s ->
  agenda_row df r = inr e ->
  time_str e = "Time Error".
Proof.
  intros Hdur Hrow.
  destruct (time_range_text_duration df r s Hdur) as [err Herr].
  unfold agenda_row in Hrow. rewrite Herr in Hrow.
  destruct (item "Priority" df r); simpl in Hrow; [discriminate|].
  destruct (item "Status" df r); simpl in Hrow; [discriminate|].
  destruct (item "Task" df r); simpl in Hrow; [discriminate|].
  destruct (item "Location" df r); simpl in Hrow; [discriminate|].
  injection Hrow as <-. reflexivity.
Qed.

Lemma agenda_row_text_duration_witness :
  let r := dict_set "Duration" (VStr "")
             (task_row "Read" 738895 "09:00" 30 "Low" "Pending") in
  let e := mk_entry "Time Error" "#ddd" "transparent" false
             (VStr "Read") (VStr "Home") in
  (Pandas.field "Duration" r = VStr ""
   /\ agenda_row agenda_snapshot r = inr e)
  /\ time_str e = "Time Error".
Proof.
  intros r e.
  assert (Hd : Pandas.field "Duration" r = VStr "") by reflexivity.
  assert (Hr : agenda_row agenda_snapshot r = inr e) by (vm_compute; reflexivity).
  split; [split; assumption|].
  exact (agenda_row_text_duration agenda_snapshot r "" e Hd Hr).
Defined.

(** ** Opening the spreadsheet *)

Lemma run_init_opened (w : World) :
  reliable w ->
  exists w1,
    runs init_sheets w tt w1
    /\ forall t, lookup_sheet t (sheets w1) = opened w t.
Proof.
  intros Hr.
  destruct (run_init_sheets w Hr) as (w1 & Hrun & Ht & Hv & Ho).
  exists w1. split; [exact Hrun|]. intros t. unfold opened.
  destruct (String.eqb t "Tasks") eqn:E1.
  - apply String.eqb_eq in E1. now subst.
  - destruct (String.eqb t "Travel") eqn:E2.
    + apply String.eqb_eq in E2. now subst.
    + apply String.eqb_neq in E1, E2. now apply Ho.
Qed.

Lemma init_sheets_present (w : World) (tasks travel : worksheet) :
  reliable w ->
  lookup_sheet "Tasks" (sheets w) = Some tasks ->
  lookup_sheet "Travel" (sheets w) = Some travel ->
  exists w', runs init_sheets w tt w' /\ sheets w' = sheets w.
Proof.
  intros Hr Ht Hv. destruct w as [sh fs cl nt]. unfold reliable in Hr.
  simpl in *. subst fs. eexists.
  unfold runs, init_sheets, Gspread.open_by_url, try_except,
    Gspread.worksheet, bind, request, ret.
  simpl. rewrite Ht. simpl. rewrite Hv. simpl. repeat split.
Qed.

(** X4. Over a reliable transport [init_sheets] returns with both
    worksheets in place: one that was missing now holds its header row
    and nothing else, one that existed is as it was, and so is every other
    worksheet.  A second call changes nothing in the spreadsheet. *)
Theorem init_sheets_idempotent (w : World) :
  reliable w ->
  exists w1 w2,
    init_sheets w = (inr tt, w1)
    /\ (forall t, lookup_sheet t (sheets w1) = opened w t)
    /\ init_sheets w1 = (inr tt, w2)
    /\ sheets w2 = sheets w1.
Proof.
  intros Hr.
  destruct (run_init_opened w Hr) as (w1 & (Hrun1 & Hr1 & _) & Hopen).
  destruct (init_sheets_present w1 (table "Tasks" TASKS_HEADER w)
              (table "Travel" TRAVEL_HEADER w) Hr1)
    as (w2 & (Hrun2 & _) & Hsame).
  - now rewrite Hopen.
  - now rewrite Hopen.
  - exists w1, w2. auto.
Qed.

Lemma init_sheets_idempotent_witness :
  reliable blank_world
  /\ exists w1 w2,
      init_sheets blank_world = (inr tt, w1)
      /\ (forall t, lookup_sheet t (sheets w1) = opened blank_world t)
      /\ init_sheets w1 = (inr tt, w2)
      /\ sheets w2 = sheets w1.
Proof.
  split; [reflexivity|].
  apply (init_sheets_idempotent blank_world). reflexivity.
Defined.

(** X5. Whatever the transport does, and whether it returns or raises,
    [init_sheets] leaves every worksheet that exists exactly as it was. *)
Theorem init_sheets_keeps_existing (w w' : World) (r : exn + unit)
  (t : string) (ws : worksheet) :
  init_sheets w = (r, w') ->
  lookup_sheet t (sheets w) = Some ws ->
  lookup_sheet t (sheets w') = Some ws.
Proof. intros Hrun Hl. exact (keeps_init_sheets w r w' Hrun t ws Hl). Qed.

Lemma init_sheets_keeps_existing_witness :
  let res := init_sheets flaky_world in
  (init_sheets flaky_world = (fst res, snd res)
   /\ lookup_sheet "Tasks" (sheets flaky_world)
      = Some [TASKS_HEADER; gym_row; gym_row])
  /\ lookup_sheet "Tasks" (sheets (snd res))
     = Some [TASKS_HEADER; gym_row; gym_row].
Proof.
  intros res.
  assert (H1 : init_sheets flaky_world = (fst res, snd res))
    by apply surjective_pairing.
  assert (H2 : lookup_sheet "Tasks" (sheets flaky_world)
               = Some [TASKS_HEADER; gym_row; gym_row]) by reflexivity.
  split; [split; assumption|].
  exact (init_sheets_keeps_existing flaky_world (snd res) (fst res) "Tasks"
           [TASKS_HEADER; gym_row; gym_row] H1 H2).
Defined.

(** ** Loading over a reliable transport *)

Lemma run_get_all_records (parse_number : string -> option Qc) (h : string)
  (w : World) (ws : worksheet) :
  reliable w -> lookup_sheet h (sheets w) = Some ws ->
  exists w',
    get_all_records parse_number h w = (records_of parse_number ws, w')
    /\ reliable w' /\ notices w' = notices w /\ sheets w' = sheets w.
Proof.
  intros Hr Hl. destruct w as [sh fs cl nt]. unfold reliable in Hr.
  simpl in *. subst fs. eexists.
  unfold get_all_records, bind, request, read_sheet, lift. simpl.
  rewrite Hl. repeat split.
Qed.

(** The frame [load_data] returns for the stored worksheet [ws]. *)
Lemma run_load_data (parse_number : string -> option Qc)
  (to_datetime : value -> option (option Z)) (name : string) (w : World)
  (ws : worksheet) :
  reliable w -> opened w name = Some ws ->
  exists w',
    load_data parse_number to_datetime name w
    = (inr (match snapshot_of parse_number to_datetime name ws with
            | inr df => df
            | inl _ => mk_frame TASKS_HEADER []
            end), w')
    /\ reliable w'
    /\ forall t, lookup_sheet t (sheets w') = opened w t.
Proof.
  intros Hr Hws.
  destruct (run_init_opened w Hr) as (w1 & (Hrun1 & Hr1 & _) & Hopen).
  rewrite <- Hopen in Hws.
  destruct (run_worksheet name w1 ws Hr1 Hws) as (w2 & (Hrun2 & Hr2 & _) & Hs2).
  rewrite <- Hs2 in Hws.
  destruct (run_get_all_records parse_number name w2 ws Hr2 Hws)
    as (w3 & Hrun3 & Hr3 & _ & Hs3).
  exists w3. split; [|split; [exact Hr3|]].
  - unfold load_data, try_except, bind. rewrite Hrun1, Hrun2, Hrun3.
    unfold snapshot_of.
    destruct (records_of parse_number ws) as [e | data]; [reflexivity|].
    unfold lift. cbn [ebind].
    destruct (parse_dates to_datetime _) as [e | df]; reflexivity.
  - intros t. now rewrite Hs3, Hs2.
Qed.

Lemma to_dates_rejects (to_datetime : value -> option (option Z))
  (vs : list value) (v : value) :
  In v vs -> to_datetime v = None ->
  exists e, to_dates to_datetime vs = inl e.
Proof.
  intros Hin Hnone. induction vs as [|x vs IH]; [contradiction|].
  simpl. destruct Hin as [-> | Hin].
  - rewrite Hnone. eauto.
  - destruct (IH Hin) as [e He]. rewrite He.
    destruct (to_datetime x) as [[d|]|]; eauto.
Qed.

Lemma numericise_not_blank (parse_number : string -> option Qc) (s : string) :
  s <> "" -> value_eqb (numericise parse_number s) (VStr "") = false.
Proof.
  intros Hs. unfold numericise. destruct (parse_number s); simpl;
    [reflexivity | now apply String.eqb_neq].
Qed.

Lemma bad_date_no_snapshot (parse_number : string -> option Qc)
  (to_datetime : value -> option (option Z)) (name : string)
  (header : list string) (stored : worksheet) (cells : list string)
  (s : string) :
  In "Date" header -> In cells stored ->
  stored_field "Date" header cells = s -> s <> "" ->
  to_datetime (numericise parse_number s) = None ->
  exists e,
    snapshot_of parse_number to_datetime name (header :: stored) = inl e.
Proof.
  intros Hdate Hin Hs Hne Hnone. unfold snapshot_of.
  destruct (records_of parse_number (header :: stored)) as [e | data] eqn:Hrec;
    [simpl; eauto|].
  cbn [ebind].
  assert (Hstored : stored <> []) by (intros ->; contradiction).
  destruct (loaded_frame parse_number name header stored data Hrec)
    as (df0 & f & Hdf0 & Hrows0 & Hcols & Hf & _).
  rewrite <- Hdf0.
  specialize (Hcols Hstored). specialize (Hf Hstored).
  set (rec := fun cells : list string =>
                combine (Grid.pad (Grid.width (header :: stored)) header)
                  (map (numericise parse_number)
                     (Grid.pad (Grid.width (header :: stored)) cells))) in *.
  assert (Hfield : Pandas.field "Date" (f (rec cells))
                   = numericise parse_number s).
  { rewrite Hf by exact Hdate. unfold rec. rewrite <- Hs.
    apply field_of_record; [exact Hdate | |].
    - apply (width_ge (header :: stored) 0). reflexivity.
    - destruct (In_nth_error _ _ Hin) as [i Hi].
      apply (width_ge (header :: stored) (S i)). exact Hi. }
  assert (Hrow : In (f (rec cells)) (filter nonblank_date (rows df0))).
  { apply filter_In. split.
    - rewrite Hrows0. apply (in_map (fun c => f (rec c))). exact Hin.
    - unfold nonblank_date. rewrite Hfield.
      now rewrite numericise_not_blank. }
  assert (Hmem : mem_string "Date" (columns df0) = true).
  { apply mem_string_In. apply Hcols. exact Hdate. }
  assert (Hempty : Pandas.empty df0 = false).
  { unfold Pandas.empty. rewrite Hrows0.
    destruct (columns df0) as [|c cs]; [discriminate|].
    destruct stored; [congruence | reflexivity]. }
  unfold parse_dates. rewrite Hempty, Hmem. cbn [negb andb].
  unfold Pandas.column, Pandas.select. cbn [columns rows]. rewrite Hmem.
  cbn [ebind].
  destruct (to_dates_rejects to_datetime
              (map (Pandas.field "Date") (filter nonblank_date (rows df0)))
              (numericise parse_number s)) as [e He].
  - rewrite <- Hfield. now apply in_map.
  - exact Hnone.
  - rewrite He. simpl. eauto.
Qed.

(** X6. One stored row is enough to hide them all: over a reliable
    transport, when some row of the worksheet has a Date cell that is not
    blank and that [pd.to_datetime] rejects, [load_data] returns the empty
    frame with the Tasks columns, without any of the other rows. *)
Theorem load_data_bad_date (parse_number : string -> option Qc)
  (to_datetime : value -> option (option Z)) (name : string) (w : World)
  (header : list string) (stored : worksheet) (cells : list string)
  (s : string) :
  reliable w ->
  opened w name = Some (header :: stored) ->
  In "Date" header -> In cells stored ->
  stored_field "Date" header cells = s -> s <> "" ->
  to_datetime (numericise parse_number s) = None ->
  exists w',
    load_data parse_number to_datetime name w
    = (inr (mk_frame TASKS_HEADER []), w').
Proof.
  intros Hr Hopen Hdate Hin Hs Hne Hnone.
  destruct (run_load_data parse_number to_datetime name w (header :: stored)
              Hr Hopen) as (w' & Hrun & _).
  destruct (bad_date_no_snapshot parse_number to_datetime name header stored
              cells s Hdate Hin Hs Hne Hnone) as [e He].
  rewrite He in Hrun. now exists w'.
Qed.

Lemma load_data_bad_date_witness :
  (reliable soon_world
   /\ opened soon_world "Tasks"
      = Some (TASKS_HEADER
                :: [gym_row;
                    ["Call"; "Personal"; "Home"; "soon"; "10:00"; "30"; "Low";
                     "Pending"]])
   /\ In "Date" TASKS_HEADER
   /\ In ["Call"; "Personal"; "Home"; "soon"; "10:00"; "30"; "Low"; "Pending"]
        [gym_row;
         ["Call"; "Personal"; "Home"; "soon"; "10:00"; "30"; "Low"; "Pending"]]
   /\ stored_field "Date" TASKS_HEADER
        ["Call"; "Personal"; "Home"; "soon"; "10:00"; "30"; "Low"; "Pending"]
      = "soon"
   /\ "soon" <> ""
   /\ Sample.to_datetime (numericise Sample.parse_number "soon") = None)
  /\ exists w',
      load_data Sample.parse_number Sample.to_datetime "Tasks" soon_world
      = (inr (mk_frame TASKS_HEADER []), w').
Proof.
  assert (H1 : reliable soon_world) by reflexivity.
  assert (H2 : opened soon_world "Tasks"
               = Some (TASKS_HEADER
                         :: [gym_row;
                             ["Call"; "Personal"; "Home"; "soon"; "10:00";
                              "30"; "Low"; "Pending"]])) by reflexivity.
  assert (H3 : In "Date" TASKS_HEADER) by (simpl; tauto).
  assert (H4 : In ["Call"; "Personal"; "Home"; "soon"; "10:00"; "30"; "Low";
                   "Pending"]
                 [gym_row;
                  ["Call"; "Personal"; "Home"; "soon"; "10:00"; "30"; "Low";
                   "Pending"]]) by (simpl; tauto).
  assert (H5 : stored_field "Date" TASKS_HEADER
                 ["Call"; "Personal"; "Home"; "soon"; "10:00"; "30"; "Low";
                  "Pending"] = "soon") by reflexivity.
  assert (H6 : "soon" <> "") by discriminate.
  assert (H7 : Sample.to_datetime (numericise Sample.parse_number "soon")
               = None) by reflexivity.
  split; [repeat split; assumption|].
  exact (load_data_bad_date Sample.parse_number Sample.to_datetime "Tasks"
           soon_world TASKS_HEADER _ _ "soon" H1 H2 H3 H4 H5 H6 H7).
Defined.

(** ** Loading over a failing transport *)

(** X8. With both worksheets in place a load issues five API calls.  When
    the transport fails any one of them, [load_data], asked for Tasks or
    for Travel, still returns: the empty frame with the Tasks columns; and
    the spreadsheet is as it was. *)
Theorem load_data_failed_call (parse_number : string -> option Qc)
  (to_datetime : value -> option (option Z)) (name : string) (w : World)
  (tasks travel : worksheet) :
  lookup_sheet "Tasks" (sheets w) = Some tasks ->
  lookup_sheet "Travel" (sheets w) = Some travel ->
  name = "Tasks" \/ name = "Travel" ->
  existsb (fun failed => failed) (firstn 5 (faults w)) = true ->
  exists w',
    load_data parse_number to_datetime name w
    = (inr (mk_frame TASKS_HEADER []), w')
    /\ sheets w' = sheets w.
Proof.
  intros Ht Hv Hname Hfail. destruct w as [sh fs cl nt]. simpl in *.
  destruct fs as [|[] [|[] [|[] [|[] [|[] fs]]]]]; try discriminate Hfail;
    clear Hfail;
    destruct Hname as [-> | ->];
    (eexists;
     unfold load_data, init_sheets, try_except, Gspread.open_by_url,
       Gspread.worksheet, Gspread.add_worksheet, Gspread.append_row,
       get_all_records, bind, request, ret, read_sheet, write_sheet;
     cbn [faults sheets calls notices fst snd];
     rewrite ?Ht, ?Hv; cbn [faults sheets calls notices fst snd];
     rewrite ?Ht, ?Hv; cbn [faults sheets calls notices fst snd];
     rewrite ?Ht, ?Hv; cbn [faults sheets calls notices fst snd];
     rewrite ?Ht, ?Hv; cbn [faults sheets calls notices fst snd];
     split; reflexivity).
Qed.

Lemma load_data_failed_call_witness :
  (lookup_sheet "Tasks" (sheets flaky_world)
   = Some [TASKS_HEADER; gym_row; gym_row]
   /\ lookup_sheet "Travel" (sheets flaky_world) = Some [TRAVEL_HEADER]
   /\ ("Tasks" = "Tasks" \/ "Tasks" = "Travel")
   /\ existsb (fun failed => failed) (firstn 5 (faults flaky_world)) = true)
  /\ exists w',
      load_data Sample.parse_number Sample.to_datetime "Tasks" flaky_world
      = (inr (mk_frame TASKS_HEADER []), w')
      /\ sheets w' = sheets flaky_world.
Proof.
  assert (H1 : lookup_sheet "Tasks" (sheets flaky_world)
               = Some [TASKS_HEADER; gym_row; gym_row]) by reflexivity.
  assert (H2 : lookup_sheet "Travel" (sheets flaky_world)
               = Some [TRAVEL_HEADER]) by reflexivity.
  assert (H3 : "Tasks" = "Tasks" \/ "Tasks" = "Travel") by (left; reflexivity).
  assert (H4 : existsb (fun failed => failed)
                 (firstn 5 (faults flaky_world)) = true) by reflexivity.
  split; [repeat split; assumption|].
  exact (load_data_failed_call Sample.parse_number Sample.to_datetime "Tasks"
           flaky_world _ _ H1 H2 H3 H4).
Defined.

(** X9. What the dashboard makes of a frame without rows, such as the one
    a failed load returns: no task on the agenda of any date, no highlight
    for tomorrow and a travel total of 0; none of the three raises, whatever
    the columns of the frame. *)
Theorem dashboard_of_empty_frame (df : frame) (today selected_date : Z) :
  rows df = [] ->
  (exists daily, daily_tasks selected_date df = inr daily
                 /\ agenda daily = inr None)
  /\ tomorrow_highlight today df = inr NoHighPriority
  /\ total_km today df = inr (VNum 0%Qc).
Proof.
  intros Hrows.
  assert (Hempty : Pandas.empty df = true).
  { unfold Pandas.empty. rewrite Hrows. now destruct (columns df). }
  unfold daily_tasks, tomorrow_highlight, tmrw_high, total_km.
  rewrite Hempty. simpl. repeat split. eexists. split; reflexivity.
Qed.

Lemma dashboard_of_empty_frame_witness :
  rows (mk_frame TASKS_HEADER []) = []
  /\ (exists daily,
         daily_tasks 738895 (mk_frame TASKS_HEADER []) = inr daily
         /\ agenda daily = inr None)
  /\ tomorrow_highlight 738894 (mk_frame TASKS_HEADER []) = inr NoHighPriority
  /\ total_km 738894 (mk_frame TASKS_HEADER []) = inr (VNum 0%Qc).
Proof.
  split; [reflexivity|].
  apply (dashboard_of_empty_frame (mk_frame TASKS_HEADER []) 738894 738895).
  reflexivity.
Defined.

(** ** Saving one entry *)

Lemma run_save_entry (show_num : Qc -> string) (name : string) (entry : dict)
  (cells : list string) (w : World) (ws : worksheet) :
  reliable w -> opened w name = Some ws ->
  to_cells show_num (map str_if_temporal (dict_values entry)) = inr cells ->
  exists w',
    runs (save_entry show_num name entry) w tt w'
    /\ lookup_sheet name (sheets w') = Some (ws ++ [cells])
    /\ forall t, t <> name -> lookup_sheet t (sheets w') = opened w t.
Proof.
  intros Hr Hws Hcells.
  destruct (run_init_opened w Hr) as (w1 & Hrun1 & Hopen).
  rewrite <- Hopen in Hws.
  destruct (run_worksheet name w1 ws) as (w2 & Hrun2 & Hs2);
    [apply Hrun1 | exact Hws |].
  rewrite <- Hs2 in Hws.
  destruct (run_append_row name cells w2 ws) as (w3 & Hrun3 & Hs3);
    [apply Hrun2 | exact Hws |].
  exists w3. split; [|split].
  - unfold save_entry.
    eapply runs_bind; [exact Hrun1|].
    eapply runs_bind; [exact Hrun2|].
    eapply runs_bind; [|exact Hrun3].
    rewrite Hcells. unfold runs, lift. repeat split. apply Hrun2.
  - rewrite Hs3. apply lookup_store_same.
  - intros t Hne. rewrite Hs3.
    rewrite lookup_store_other by congruence. now rewrite Hs2.
Qed.

Lemma opened_tasks (w : World) :
  opened w "Tasks" = Some (table "Tasks" TASKS_HEADER w).
Proof. reflexivity. Qed.

Lemma opened_travel (w : World) :
  opened w "Travel" = Some (table "Travel" TRAVEL_HEADER w).
Proof. reflexivity. Qed.

(** X10. Over a reliable transport, saving the entry of the task form
    appends one row to the Tasks worksheet, and saving the entry of the
    travel form one row to the Travel worksheet: the values of the entry
    in the order of the header, the date as ISO text; the other worksheet
    is what [init_sheets] makes of it. *)
Theorem save_entry_appends_row (show_num : Qc -> string) (w : World)
  (task cat loc : string) (d : Z) (start_t : Calendar.time) (dur : Qc)
  (priority notes : string) (today : Z) (t_from t_to : string) (t_km : Qc) :
  reliable w ->
  (exists w',
      save_entry show_num "Tasks"
        (new_entry task cat loc d start_t dur priority notes) w
      = (inr tt, w')
      /\ lookup_sheet "Tasks" (sheets w')
         = Some (table "Tasks" TASKS_HEADER w
                   ++ [recurring_cells show_num task cat loc start_t dur
                         priority notes d])
      /\ lookup_sheet "Travel" (sheets w')
         = Some (table "Travel" TRAVEL_HEADER w))
  /\ (exists w',
         save_entry show_num "Travel" (new_trip today t_from t_to t_km) w
         = (inr tt, w')
         /\ lookup_sheet "Travel" (sheets w')
            = Some (table "Travel" TRAVEL_HEADER w
                      ++ [trip_cells show_num today t_from t_to t_km])
         /\ lookup_sheet "Tasks" (sheets w')
            = Some (table "Tasks" TASKS_HEADER w)).
Proof.
  intros Hr. split.
  - destruct (run_save_entry show_num "Tasks"
                (new_entry task cat loc d start_t dur priority notes)
                (recurring_cells show_num task cat loc start_t dur priority
                   notes d) w _ Hr (opened_tasks w) eq_refl)
      as (w' & (Hrun & _) & Hl & Ho).
    exists w'. split; [exact Hrun|]. split; [exact Hl|].
    now rewrite Ho by discriminate.
  - destruct (run_save_entry show_num "Travel"
                (new_trip today t_from t_to t_km)
                (trip_cells show_num today t_from t_to t_km) w _ Hr
                (opened_travel w) eq_refl)
      as (w' & (Hrun & _) & Hl & Ho).
    exists w'. split; [exact Hrun|]. split; [exact Hl|].
    now rewrite Ho by discriminate.
Qed.

Lemma save_entry_appends_row_witness :
  reliable blank_world
  /\ (exists w',
         save_entry Sample.show_num "Tasks"
           (new_entry "Gym" "Personal" "Club" 738895 (Calendar.mk_time 18 0)
              (Q2Qc 60) "High" "") blank_world
         = (inr tt, w')
         /\ lookup_sheet "Tasks" (sheets w')
            = Some (table "Tasks" TASKS_HEADER blank_world
                      ++ [recurring_cells Sample.show_num "Gym" "Personal"
                            "Club" (Calendar.mk_time 18 0) (Q2Qc 60) "High" ""
                            738895])
         /\ lookup_sheet "Travel" (sheets w')
            = Some (table "Travel" TRAVEL_HEADER blank_world))
  /\ (exists w',
         save_entry Sample.show_num "Travel"
           (new_trip 738895 "Home" "Campus" (Q2Qc 12)) blank_world
         = (inr tt, w')
         /\ lookup_sheet "Travel" (sheets w')
            = Some (table "Travel" TRAVEL_HEADER blank_world
                      ++ [trip_cells Sample.show_num 738895 "Home" "Campus"
                            (Q2Qc 12)])
         /\ lookup_sheet "Tasks" (sheets w')
            = Some (table "Tasks" TASKS_HEADER blank_world)).
Proof.
  split; [reflexivity|].
  apply (save_entry_appends_row Sample.show_num blank_world "Gym" "Personal"
           "Club" 738895 (Calendar.mk_time 18 0) (Q2Qc 60) "High" "" 738895
           "Home" "Campus" (Q2Qc 12)).
  reflexivity.
Defined.

(** ** The snapshot of a sheet no wider than its header *)

Lemma width_table (header : list string) (stored : worksheet) :
  fits header stored -> Grid.width (header :: stored) = List.length header.
Proof.
  intros Hfits. unfold Grid.width. cbn [fold_right].
  fold (Grid.width stored).
  assert (Hw : (Grid.width stored <= List.length header)%nat).
  { induction Hfits as [|cells stored Hc _ IH]; [apply Nat.le_0_l|].
    unfold Grid.width. cbn [fold_right]. fold (Grid.width stored). lia. }
  lia.
Qed.

Lemma pad_full (w : nat) (cells : list string) :
  List.length cells = w -> Grid.pad w cells = cells.
Proof.
  intros <-. unfold Grid.pad. rewrite Nat.sub_diag. apply app_nil_r.
Qed.

Lemma records_of_table (parse_number : string -> option Qc)
  (header : list string) (stored : worksheet) :
  Grid.nodupb header = true -> fits header stored ->
  records_of parse_number (header :: stored)
  = inr (map (record_of parse_number header) stored).
Proof.
  intros Hnodup Hfits. unfold records_of, Grid.fill_gaps. cbn [map].
  rewrite (width_table header stored Hfits).
  rewrite (pad_full _ header eq_refl), Hnodup, map_map. reflexivity.
Qed.

Lemma parse_dates_table (to_datetime : value -> option (option Z))
  (header : list string) (rs : list dict) :
  In "Date" header ->
  parse_dates to_datetime (mk_frame header rs)
  = let! out := dated_rows to_datetime rs in inr (mk_frame header out).
Proof.
  intros Hdate. pose proof (proj2 (mem_string_In "Date" header) Hdate) as Hmem.
  unfold parse_dates, dated_rows, Pandas.empty. cbn [columns rows].
  destruct header as [|c cs]; [contradiction|].
  destruct rs as [|r rs]; [reflexivity|].
  rewrite Hmem. cbn [negb andb].
  unfold Pandas.column, Pandas.select, Pandas.set_column. cbn [columns rows].
  rewrite Hmem. cbn [ebind].
  destruct (to_dates to_datetime _) as [e | dates]; reflexivity.
Qed.

Lemma record_keys_full (parse_number : string -> option Qc)
  (header cells : list string) :
  (List.length cells <= List.length header)%nat ->
  dict_keys (record_of parse_number header cells) = header.
Proof.
  intros Hc. unfold record_of. apply keys_of_combine.
  now rewrite length_map, length_pad.
Qed.

(** The columns of the snapshot of a worksheet: a worksheet without data
    rows has no column but the ones added for Tasks. *)
Lemma snapshot_of_table (parse_number : string -> option Qc)
  (to_datetime : value -> option (option Z)) (name : string)
  (header : list string) (stored : worksheet) :
  (name = "Tasks" /\ header = TASKS_HEADER)
  \/ (name = "Travel" /\ header = TRAVEL_HEADER) ->
  fits header stored ->
  snapshot_of parse_number to_datetime name (header :: stored)
  = let! out := dated_rows to_datetime
                  (map (record_of parse_number header) stored) in
    inr (mk_frame (match stored with
                   | [] => if String.eqb name "Tasks" then header else []
                   | _ :: _ => header
                   end) out).
Proof.
  intros Hname Hfits. unfold snapshot_of.
  rewrite records_of_table;
    [|destruct Hname as [[_ ->] | [_ ->]]; reflexivity | exact Hfits].
  cbn [ebind]. unfold Pandas.DataFrame.
  destruct stored as [|cells stored].
  - destruct Hname as [[-> ->] | [-> ->]]; reflexivity.
  - cbn [map]. rewrite record_keys_full by (now inversion Hfits).
    assert (Hdate : In "Date" header).
    { destruct Hname as [[_ ->] | [_ ->]]; simpl; tauto. }
    destruct Hname as [[-> ->] | [-> ->]].
    + change (add_expected_columns
                (mk_frame TASKS_HEADER
                   (record_of parse_number TASKS_HEADER cells
                      :: map (record_of parse_number TASKS_HEADER) stored)))
        with (mk_frame TASKS_HEADER
                (record_of parse_number TASKS_HEADER cells
                   :: map (record_of parse_number TASKS_HEADER) stored)).
      change (String.eqb "Tasks" "Tasks") with true. cbv iota.
      now rewrite parse_dates_table.
    + change (String.eqb "Travel" "Tasks") with false. cbv iota.
      now rewrite parse_dates_table.
Qed.

Lemma to_dates_snoc (to_datetime : value -> option (option Z))
  (vs ds : list value) (v : value) (d : Z) :
  to_dates to_datetime vs = inr ds ->
  to_datetime v = Some (Some d) ->
  to_dates to_datetime (vs ++ [v]) = inr (ds ++ [VDate d]).
Proof.
  intros Hvs Hv. revert ds Hvs. induction vs as [|x vs IH]; intros ds Hvs.
  - simpl in *. injection Hvs as <-. now rewrite Hv.
  - simpl in *.
    destruct (to_datetime x) as [[dx|]|]; [| |discriminate];
      destruct (to_dates to_datetime vs) as [e | ds']; try discriminate;
      injection Hvs as <-; now rewrite (IH ds' eq_refl).
Qed.

Lemma combine_snoc {A B : Type} (l : list A) (l' : list B) (a : A) (b : B) :
  List.length l = List.length l' ->
  combine (l ++ [a]) (l' ++ [b]) = combine l l' ++ [(a, b)].
Proof.
  revert l'. induction l as [|x l IH]; intros [|y l'] Hlen; simpl in *;
    try discriminate; [reflexivity|].
  rewrite IH by lia. reflexivity.
Qed.

Lemma dated_rows_snoc (to_datetime : value -> option (option Z))
  (rs out : list dict) (r : dict) (d : Z) :
  dated_rows to_datetime rs = inr out ->
  nonblank_date r = true ->
  to_datetime (Pandas.field "Date" r) = Some (Some d) ->
  dated_rows to_datetime (rs ++ [r])
  = inr (out ++ [dict_set "Date" (VDate d) r]).
Proof.
  unfold dated_rows. intros Hout Hnb Hd.
  rewrite filter_app. cbn [filter]. rewrite Hnb, map_app. cbn [map].
  destruct (to_dates to_datetime
              (map (Pandas.field "Date") (filter nonblank_date rs)))
    as [e | ds] eqn:Hds; [discriminate|].
  cbn [ebind] in Hout. injection Hout as <-.
  rewrite (to_dates_snoc _ _ _ _ _ Hds Hd). cbn [ebind].
  destruct (to_dates_values _ _ _ Hds) as [Hlen _].
  rewrite length_map in Hlen.
  rewrite combine_snoc by (now rewrite Hlen).
  now rewrite map_app.
Qed.

(** ** Saving, then loading *)

Lemma snapshot_after_append (parse_number : string -> option Qc)
  (to_datetime : value -> option (option Z)) (name : string)
  (header : list string) (stored : worksheet) (cells : list string)
  (df : frame) (d : Z) :
  (name = "Tasks" /\ header = TASKS_HEADER)
  \/ (name = "Travel" /\ header = TRAVEL_HEADER) ->
  fits header stored ->
  List.length cells = List.length header ->
  snapshot_of parse_number to_datetime name (header :: stored) = inr df ->
  nonblank_date (record_of parse_number header cells) = true ->
  to_datetime (Pandas.field "Date" (record_of parse_number header cells))
  = Some (Some d) ->
  snapshot_of parse_number to_datetime name (header :: stored ++ [cells])
  = inr (mk_frame header
           (rows df
              ++ [dict_set "Date" (VDate d)
                    (record_of parse_number header cells)])).
Proof.
  intros Hname Hfits Hlen Hsnap Hnb Hd.
  rewrite snapshot_of_table in Hsnap by assumption.
  destruct (dated_rows to_datetime
              (map (record_of parse_number header) stored))
    as [e | out] eqn:Hout; [discriminate|].
  cbn [ebind] in Hsnap. injection Hsnap as <-. cbn [rows].
  rewrite snapshot_of_table; [|exact Hname|].
  - rewrite map_app. cbn [map].
    rewrite (dated_rows_snoc _ _ _ _ _ Hout Hnb Hd). cbn [ebind].
    destruct stored; reflexivity.
  - apply Forall_app. split; [exact Hfits|].
    constructor; [lia | constructor].
Qed.

Lemma record_of_task (parse_number : string -> option Qc)
  (show_num : Qc -> string) (task cat loc : string) (d : Z)
  (start_t : Calendar.time) (dur : Qc) (priority notes : string) :
  plain parse_number
    [task; cat; loc; Calendar.str_date d; Calendar.strftime_HM start_t;
     priority; "Pending"; notes] ->
  parse_number (show_num dur) = Some dur ->
  record_of parse_number TASKS_HEADER
    (recurring_cells show_num task cat loc start_t dur priority notes d)
  = dict_set "Date" (VStr (Calendar.str_date d))
      (new_entry task cat loc d start_t dur priority notes).
Proof.
  intros Hplain Hdur. unfold record_of.
  rewrite pad_full by reflexivity.
  unfold recurring_cells, TASKS_HEADER, plain in *. cbn [map combine].
  unfold numericise.
  repeat match goal with
         | H : Forall _ (_ :: _) |- _ => inversion H; clear H; subst
         end.
  repeat match goal with
         | H : parse_number _ = _ |- _ => rewrite H; clear H
         end.
  reflexivity.
Qed.

Lemma record_of_trip (parse_number : string -> option Qc)
  (show_num : Qc -> string) (today : Z) (t_from t_to : string) (t_km : Qc) :
  plain parse_number [Calendar.str_date today; t_from; t_to; "Commute"] ->
  parse_number (show_num t_km) = Some t_km ->
  record_of parse_number TRAVEL_HEADER
    (trip_cells show_num today t_from t_to t_km)
  = dict_set "Date" (VStr (Calendar.str_date today))
      (new_trip today t_from t_to t_km).
Proof.
  intros Hplain Hkm. unfold record_of.
  rewrite pad_full by reflexivity.
  unfold trip_cells, TRAVEL_HEADER, plain in *. cbn [map combine].
  unfold numericise.
  repeat match goal with
         | H : Forall _ (_ :: _) |- _ => inversion H; clear H; subst
         end.
  repeat match goal with
         | H : parse_number _ = _ |- _ => rewrite H; clear H
         end.
  reflexivity.
Qed.

Lemma nonblank_written_date (d : Z) (r : dict) :
  nonblank_date (dict_set "Date" (VStr (Calendar.str_date d)) r) = true.
Proof.
  unfold nonblank_date, Pandas.field. rewrite dict_get_set_same.
  cbn [value_eqb]. apply Bool.negb_true_iff. apply String.eqb_neq.
  apply str_date_nonempty.
Qed.

(** X11. What the task form saves, the next load shows.  Over a reliable
    transport, for a Tasks sheet no wider than its header whose snapshot
    loads, and for texts that read back as written (none of them looks
    like a number, the duration reads back as the number it was, the date
    as the date it was): after [save_entry] of the form's entry,
    [load_data] returns the rows of the former snapshot followed by that
    entry, the Date a date again. *)
Theorem save_then_load_task (parse_number : string -> option Qc)
  (show_num : Qc -> string) (to_datetime : value -> option (option Z))
  (w : World) (stored : worksheet) (df : frame) (task cat loc : string)
  (d : Z) (start_t : Calendar.time) (dur : Qc) (priority notes : string) :
  reliable w ->
  table "Tasks" TASKS_HEADER w = TASKS_HEADER :: stored ->
  fits TASKS_HEADER stored ->
  snapshot_of parse_number to_datetime "Tasks" (TASKS_HEADER :: stored)
  = inr df ->
  plain parse_number
    [task; cat; loc; Calendar.str_date d; Calendar.strftime_HM start_t;
     priority; "Pending"; notes] ->
  parse_number (show_num dur) = Some dur ->
  to_datetime (VStr (Calendar.str_date d)) = Some (Some d) ->
  exists w1 w2,
    save_entry show_num "Tasks"
      (new_entry task cat loc d start_t dur priority notes) w
    = (inr tt, w1)
    /\ load_data parse_number to_datetime "Tasks" w1
       = (inr (mk_frame TASKS_HEADER
                 (rows df
                    ++ [new_entry task cat loc d start_t dur priority notes])),
          w2).
Proof.
  intros Hr Htable Hfits Hsnap Hplain Hdur Hdate.
  destruct (run_save_entry show_num "Tasks"
              (new_entry task cat loc d start_t dur priority notes)
              (recurring_cells show_num task cat loc start_t dur priority
                 notes d) w _ Hr (opened_tasks w) eq_refl)
    as (w1 & (Hrun1 & Hr1 & _) & Hl1 & _).
  rewrite Htable in Hl1.
  assert (Hopen : opened w1 "Tasks"
                  = Some (TASKS_HEADER
                            :: stored
                            ++ [recurring_cells show_num task cat loc start_t
                                  dur priority notes d])).
  { rewrite opened_tasks. unfold table. now rewrite Hl1. }
  destruct (run_load_data parse_number to_datetime "Tasks" w1 _ Hr1 Hopen)
    as (w2 & Hrun2 & _).
  exists w1, w2. split; [exact Hrun1|].
  rewrite Hrun2.
  rewrite (snapshot_after_append parse_number to_datetime "Tasks" TASKS_HEADER
             stored _ df d); try assumption.
  - rewrite (record_of_task parse_number show_num) by assumption.
    reflexivity.
  - left. split; reflexivity.
  - reflexivity.
  - rewrite (record_of_task parse_number show_num) by assumption.
    apply nonblank_written_date.
  - rewrite (record_of_task parse_number show_num) by assumption.
    unfold Pandas.field. rewrite dict_get_set_same. exact Hdate.
Qed.

Lemma save_then_load_task_witness :
  let gym := new_entry "Gym" "Personal" "Club" 738895 (Calendar.mk_time 18 0)
               (Q2Qc 60) "High" "" in
  let run := new_entry "Run" "Health" "Park" 738896 (Calendar.mk_time 7 30)
               (Q2Qc 45) "Low" "easy pace" in
  (reliable gym_world
   /\ table "Tasks" TASKS_HEADER gym_world
      = TASKS_HEADER :: [gym_row; gym_row]
   /\ fits TASKS_HEADER [gym_row; gym_row]
   /\ snapshot_of Sample.parse_number Sample.to_datetime "Tasks"
        (TASKS_HEADER :: [gym_row; gym_row])
      = inr (mk_frame TASKS_HEADER [gym; gym])
   /\ plain Sample.parse_number
        ["Run"; "Health"; "Park"; Calendar.str_date 738896;
         Calendar.strftime_HM (Calendar.mk_time 7 30); "Low"; "Pending";
         "easy pace"]
   /\ Sample.parse_number (Sample.show_num (Q2Qc 45)) = Some (Q2Qc 45)
   /\ Sample.to_datetime (VStr (Calendar.str_date 738896))
      = Some (Some 738896))
  /\ exists w1 w2,
      save_entry Sample.show_num "Tasks" run gym_world = (inr tt, w1)
      /\ load_data Sample.parse_number Sample.to_datetime "Tasks" w1
         = (inr (mk_frame TASKS_HEADER ([gym; gym] ++ [run])), w2).
Proof.
  intros gym run.
  assert (H1 : reliable gym_world) by reflexivity.
  assert (H2 : table "Tasks" TASKS_HEADER gym_world
               = TASKS_HEADER :: [gym_row; gym_row]) by reflexivity.
  assert (H3 : fits TASKS_HEADER [gym_row; gym_row]).
  { repeat constructor. }
  assert (H4 : snapshot_of Sample.parse_number Sample.to_datetime "Tasks"
                 (TASKS_HEADER :: [gym_row; gym_row])
               = inr (mk_frame TASKS_HEADER [gym; gym])).
  { vm_compute. reflexivity. }
  assert (H5 : plain Sample.parse_number
                 ["Run"; "Health"; "Park"; Calendar.str_date 738896;
                  Calendar.strftime_HM (Calendar.mk_time 7 30); "Low";
                  "Pending"; "easy pace"]).
  { repeat constructor. }
  assert (H6 : Sample.parse_number (Sample.show_num (Q2Qc 45))
               = Some (Q2Qc 45)).
  { vm_compute. reflexivity. }
  assert (H7 : Sample.to_datetime (VStr (Calendar.str_date 738896))
               = Some (Some 738896)).
  { vm_compute. reflexivity. }
  split; [repeat split; assumption|].
  exact (save_then_load_task Sample.parse_number Sample.show_num
           Sample.to_datetime gym_world [gym_row; gym_row]
           (mk_frame TASKS_HEADER [gym; gym]) "Run" "Health" "Park" 738896
           (Calendar.mk_time 7 30) (Q2Qc 45) "Low" "easy pace"
           H1 H2 H3 H4 H5 H6 H7).
Defined.

(** ** Logging a trip *)

Lemma sum_from_snoc (vs : list value) (x : value) :
  forall acc : value,
    Pandas.sum_from acc (vs ++ [x])
    = match Pandas.sum_from acc vs with
      | inl e => inl e
      | inr a => Pandas.add a x
      end.
Proof.
  induction vs as [|v vs IH]; intros acc; simpl.
  - now destruct (Pandas.add acc x).
  - destruct (Pandas.add acc v); [reflexivity | apply IH].
Qed.

Lemma sum_snoc (vs : list value) (q k : Qc) :
  Pandas.sum vs = inr (VNum q) ->
  Pandas.sum (vs ++ [VNum k]) = inr (VNum (q + k)%Qc).
Proof.
  unfold Pandas.sum. rewrite filter_app. cbn [filter Pandas.is_nan negb].
  destruct (filter (fun v => negb (Pandas.is_nan v)) vs) as [|v vs'].
  - intros [= <-]. simpl. now rewrite Qcplus_0_l.
  - intros Hsum. simpl. rewrite sum_from_snoc, Hsum. reflexivity.
Qed.

Lemma total_km_snoc (today : Z) (df df' : frame) (r : dict) (q k : Qc) :
  incl ["Date"; "DistanceKM"] (columns df') ->
  rows df' = rows df ++ [r] ->
  rows df = [] \/ incl ["Date"; "DistanceKM"] (columns df) ->
  on_date today r = true ->
  Pandas.field "DistanceKM" r = VNum k ->
  total_km today df = inr (VNum q) ->
  total_km today df' = inr (VNum (q + k)%Qc).
Proof.
  intros Hcols' Hrows' Hcols Htoday Hkm Htotal.
  assert (Hsum : Pandas.sum
                   (map (Pandas.field "DistanceKM")
                      (filter (on_date today) (rows df)))
                 = inr (VNum q)).
  { unfold total_km in Htotal.
    destruct (Pandas.empty df) eqn:Hempty; simpl in Htotal.
    - assert (Hnil : rows df = []).
      { destruct Hcols as [H | H]; [exact H|].
        apply (empty_no_rows df "Date"); [apply H; simpl; tauto | exact Hempty]. }
      rewrite Hnil. exact Htotal.
    - destruct Hcols as [H | H].
      + unfold Pandas.empty in Hempty. rewrite H in Hempty.
        destruct (columns df); discriminate.
      + rewrite (column_present "Date" df) in Htotal
          by (apply H; simpl; tauto).
        cbn [ebind] in Htotal.
        rewrite column_present in Htotal by (apply H; simpl; tauto).
        exact Htotal. }
  assert (Hempty' : Pandas.empty df' = false).
  { unfold Pandas.empty. rewrite Hrows'.
    destruct (columns df') as [|c cs] eqn:Hc.
    - exfalso. apply (Hcols' "Date"). simpl. tauto.
    - destruct (rows df); reflexivity. }
  unfold total_km. rewrite Hempty'. cbn [negb].
  rewrite (column_present "Date" df') by (apply Hcols'; simpl; tauto).
  cbn [ebind].
  rewrite column_present by (apply Hcols'; simpl; tauto).
  cbn [Pandas.select rows]. rewrite Hrows', filter_app. cbn [filter].
  rewrite Htoday, map_app. cbn [map]. rewrite Hkm.
  now apply sum_snoc.
Qed.

(** X12. Logging a trip adds its distance to today's total.  Over a
    reliable transport, for a Travel sheet no wider than its header whose
    snapshot loads and has a number as today's total, and for texts that
    read back as written: after [save_entry] of the travel form's entry,
    [total_km] of the reloaded snapshot is the former total plus the
    distance logged. *)
Theorem log_trip_adds_to_total (parse_number : string -> option Qc)
  (show_num : Qc -> string) (to_datetime : value -> option (option Z))
  (w : World) (stored : worksheet) (df : frame) (today : Z)
  (t_from t_to : string) (t_km total : Qc) :
  reliable w ->
  table "Travel" TRAVEL_HEADER w = TRAVEL_HEADER :: stored ->
  fits TRAVEL_HEADER stored ->
  snapshot_of parse_number to_datetime "Travel" (TRAVEL_HEADER :: stored)
  = inr df ->
  total_km today df = inr (VNum total) ->
  plain parse_number [Calendar.str_date today; t_from; t_to; "Commute"] ->
  parse_number (show_num t_km) = Some t_km ->
  to_datetime (VStr (Calendar.str_date today)) = Some (Some today) ->
  exists w1 w2 df',
    save_entry show_num "Travel" (new_trip today t_from t_to t_km) w
    = (inr tt, w1)
    /\ load_data parse_number to_datetime "Travel" w1 = (inr df', w2)
    /\ total_km today df' = inr (VNum (total + t_km)%Qc).
Proof.
  intros Hr Htable Hfits Hsnap Htotal Hplain Hkm Hdate.
  destruct (run_save_entry show_num "Travel"
              (new_trip today t_from t_to t_km)
              (trip_cells show_num today t_from t_to t_km) w _ Hr
              (opened_travel w) eq_refl)
    as (w1 & (Hrun1 & Hr1 & _) & Hl1 & _).
  rewrite Htable in Hl1.
  assert (Hopen : opened w1 "Travel"
                  = Some (TRAVEL_HEADER
                            :: stored
                            ++ [trip_cells show_num today t_from t_to t_km])).
  { rewrite opened_travel. unfold table. now rewrite Hl1. }
  destruct (run_load_data parse_number to_datetime "Travel" w1 _ Hr1 Hopen)
    as (w2 & Hrun2 & _).
  assert (Hname : ("Travel" = "Tasks" /\ TRAVEL_HEADER = TASKS_HEADER)
                  \/ ("Travel" = "Travel" /\ TRAVEL_HEADER = TRAVEL_HEADER))
    by (right; split; reflexivity).
  rewrite (snapshot_after_append parse_number to_datetime "Travel"
             TRAVEL_HEADER stored
             (trip_cells show_num today t_from t_to t_km) df today Hname Hfits
             eq_refl Hsnap)
    in Hrun2.
  - rewrite (record_of_trip parse_number show_num) in Hrun2 by assumption.
    exists w1, w2. eexists. split; [exact Hrun1|]. split; [exact Hrun2|].
    apply (total_km_snoc today df _ (new_trip today t_from t_to t_km)).
    + intros c Hc. simpl in *. tauto.
    + reflexivity.
    + rewrite snapshot_of_table in Hsnap by assumption.
      destruct (dated_rows to_datetime _) as [e | out] eqn:Hout;
        [discriminate|].
      cbn [ebind] in Hsnap. injection Hsnap as <-.
      destruct stored as [|cells stored].
      * left. simpl in Hout. now injection Hout as <-.
      * right. intros c Hc. simpl in *. tauto.
    + unfold on_date, Pandas.field. simpl. apply Z.eqb_refl.
    + reflexivity.
    + exact Htotal.
  - rewrite (record_of_trip parse_number show_num) by assumption.
    apply nonblank_written_date.
  - rewrite (record_of_trip parse_number show_num) by assumption.
    unfold Pandas.field. rewrite dict_get_set_same. exact Hdate.
Qed.

Lemma log_trip_adds_to_total_witness :
  let before := mk_frame TRAVEL_HEADER
                  [new_trip 738895 "Home" "Campus" (Q2Qc 5)] in
  (reliable commute_world
   /\ table "Travel" TRAVEL_HEADER commute_world
      = TRAVEL_HEADER :: [["2024-01-10"; "Home"; "Campus"; "5"; "Commute"]]
   /\ fits TRAVEL_HEADER [["2024-01-10"; "Home"; "Campus"; "5"; "Commute"]]
   /\ snapshot_of Sample.parse_number Sample.to_datetime "Travel"
        (TRAVEL_HEADER
           :: [["2024-01-10"; "Home"; "Campus"; "5"; "Commute"]])
      = inr before
   /\ total_km 738895 before = inr (VNum (Q2Qc 5))
   /\ plain Sample.parse_number
        [Calendar.str_date 738895; "Campus"; "Gym"; "Commute"]
   /\ Sample.parse_number (Sample.show_num (Q2Qc 3)) = Some (Q2Qc 3)
   /\ Sample.to_datetime (VStr (Calendar.str_date 738895))
      = Some (Some 738895))
  /\ exists w1 w2 df',
      save_entry Sample.show_num "Travel"
        (new_trip 738895 "Campus" "Gym" (Q2Qc 3)) commute_world
      = (inr tt, w1)
      /\ load_data Sample.parse_number Sample.to_datetime "Travel" w1
         = (inr df', w2)
      /\ total_km 738895 df' = inr (VNum (Q2Qc 5 + Q2Qc 3)%Qc).
Proof.
  intros before.
  assert (H1 : reliable commute_world) by reflexivity.
  assert (H2 : table "Travel" TRAVEL_HEADER commute_world
               = TRAVEL_HEADER
                   :: [["2024-01-10"; "Home"; "Campus"; "5"; "Commute"]])
    by reflexivity.
  assert (H3 : fits TRAVEL_HEADER
                 [["2024-01-10"; "Home"; "Campus"; "5"; "Commute"]]).
  { repeat constructor. }
  assert (H4 : snapshot_of Sample.parse_number Sample.to_datetime "Travel"
                 (TRAVEL_HEADER
                    :: [["2024-01-10"; "Home"; "Campus"; "5"; "Commute"]])
               = inr before).
  { vm_compute. reflexivity. }
  assert (H5 : total_km 738895 before = inr (VNum (Q2Qc 5))).
  { vm_compute. reflexivity. }
  assert (H6 : plain Sample.parse_number
                 [Calendar.str_date 738895; "Campus"; "Gym"; "Commute"]).
  { repeat constructor. }
  assert (H7 : Sample.parse_number (Sample.show_num (Q2Qc 3))
               = Some (Q2Qc 3)).
  { vm_compute. reflexivity. }
  assert (H8 : Sample.to_datetime (VStr (Calendar.str_date 738895))
               = Some (Some 738895)).
  { vm_compute. reflexivity. }
  split; [repeat split; assumption|].
  exact (log_trip_adds_to_total Sample.parse_number Sample.show_num
           Sample.to_datetime commute_world _ before 738895 "Campus" "Gym"
           (Q2Qc 3) (Q2Qc 5) H1 H2 H3 H4 H5 H6 H7 H8).
Defined.

(** ** Saving in bulk and saving one by one *)

Lemma run_bulk_save (show_num : Qc -> string) (name : string)
  (entries : list dict) (grid : list (list string)) (w : World)
  (ws : worksheet) :
  reliable w -> opened w name = Some ws ->
  to_grid show_num
    (map (fun entry => map str_if_temporal (dict_values entry)) entries)
  = inr grid ->
  exists w',
    runs (bulk_save_entries show_num name entries) w tt w'
    /\ lookup_sheet name (sheets w') = Some (ws ++ grid)
    /\ forall t, t <> name -> lookup_sheet t (sheets w') = opened w t.
Proof.
  intros Hr Hws Hgrid.
  destruct (run_init_opened w Hr) as (w1 & Hrun1 & Hopen).
  rewrite <- Hopen in Hws.
  destruct (run_worksheet name w1 ws) as (w2 & Hrun2 & Hs2);
    [apply Hrun1 | exact Hws |].
  rewrite <- Hs2 in Hws.
  destruct (run_append_rows name grid w2 ws) as (w3 & Hrun3 & Hs3);
    [apply Hrun2 | exact Hws |].
  exists w3. split; [|split].
  - unfold bulk_save_entries.
    eapply runs_bind; [exact Hrun1|].
    eapply runs_bind; [exact Hrun2|].
    eapply runs_bind; [|exact Hrun3].
    rewrite Hgrid. unfold runs, lift. repeat split. apply Hrun2.
  - rewrite Hs3. apply lookup_store_same.
  - intros t Hne. rewrite Hs3.
    rewrite lookup_store_other by congruence. now rewrite Hs2.
Qed.

Lemma opened_present (w : World) (tasks travel : worksheet) :
  lookup_sheet "Tasks" (sheets w) = Some tasks ->
  lookup_sheet "Travel" (sheets w) = Some travel ->
  forall t, opened w t = lookup_sheet t (sheets w).
Proof.
  intros Ht Hv t. unfold opened, table.
  destruct (String.eqb t "Tasks") eqn:E1.
  - apply String.eqb_eq in E1. subst. now rewrite Ht.
  - destruct (String.eqb t "Travel") eqn:E2; [|reflexivity].
    apply String.eqb_eq in E2. subst. now rewrite Hv.
Qed.

Lemma to_grid_cons (show_num : Qc -> string) (r : list value)
  (rs : list (list value)) (grid : list (list string)) :
  to_grid show_num (r :: rs) = inr grid ->
  exists cells grid',
    grid = cells :: grid'
    /\ to_cells show_num r = inr cells
    /\ to_grid show_num rs = inr grid'.
Proof.
  simpl. destruct (to_cells show_num r) as [e | cells]; [discriminate|].
  destruct (to_grid show_num rs) as [e | grid']; [discriminate|].
  intros [= <-]. eauto.
Qed.

Lemma run_save_each (show_num : Qc -> string) (entries : list dict) :
  forall (grid : list (list string)) (w : World) (tasks travel : worksheet),
    reliable w ->
    lookup_sheet "Tasks" (sheets w) = Some tasks ->
    lookup_sheet "Travel" (sheets w) = Some travel ->
    to_grid show_num
      (map (fun entry => map str_if_temporal (dict_values entry)) entries)
    = inr grid ->
    exists w',
      runs (for_each entries (save_entry show_num "Tasks")) w tt w'
      /\ lookup_sheet "Tasks" (sheets w') = Some (tasks ++ grid)
      /\ forall t, t <> "Tasks" ->
                   lookup_sheet t (sheets w') = lookup_sheet t (sheets w).
Proof.
  induction entries as [|entry entries IH];
    intros grid w tasks travel Hr Ht Hv Hgrid.
  - simpl in Hgrid. injection Hgrid as <-. exists w.
    split; [now apply runs_ret|]. rewrite app_nil_r. auto.
  - cbn [map] in Hgrid.
    destruct (to_grid_cons _ _ _ _ Hgrid) as (cells & grid' & -> & Hc & Hg).
    pose proof (opened_present w tasks travel Ht Hv) as Hopen.
    destruct (run_save_entry show_num "Tasks" entry cells w tasks Hr)
      as (w1 & Hrun1 & Hl1 & Ho1); [now rewrite Hopen | exact Hc |].
    assert (Hv1 : lookup_sheet "Travel" (sheets w1) = Some travel).
    { rewrite Ho1 by discriminate. now rewrite Hopen. }
    destruct (IH grid' w1 (tasks ++ [cells]) travel) as (w2 & Hrun2 & Hl2 & Ho2);
      [apply Hrun1 | exact Hl1 | exact Hv1 | exact Hg |].
    exists w2. split; [|split].
    + cbn [for_each]. eapply runs_bind; [exact Hrun1 | exact Hrun2].
    + rewrite Hl2, <- app_assoc. reflexivity.
    + intros t Hne. rewrite Ho2, Ho1 by exact Hne. now rewrite Hopen.
Qed.

(** X13. Saving in bulk stores what saving one by one stores.  Over a
    reliable transport, for entries that exist (the expander calls
    [bulk_save_entries] for a list that is not empty) and whose values can
    be written to cells, [bulk_save_entries] and one [save_entry] per entry
    leave every worksheet with the same rows. *)
Theorem bulk_save_as_save_each (show_num : Qc -> string) (w : World)
  (entries : list dict) (grid : list (list string)) :
  reliable w ->
  entries <> [] ->
  to_grid show_num
    (map (fun entry => map str_if_temporal (dict_values entry)) entries)
  = inr grid ->
  exists w1 w2,
    bulk_save_entries show_num "Tasks" entries w = (inr tt, w1)
    /\ for_each entries (save_entry show_num "Tasks") w = (inr tt, w2)
    /\ forall t, lookup_sheet t (sheets w1) = lookup_sheet t (sheets w2).
Proof.
  intros Hr Hne Hgrid.
  destruct (run_bulk_save show_num "Tasks" entries grid w _ Hr
              (opened_tasks w) Hgrid) as (w1 & (Hrun1 & _) & Hl1 & Ho1).
  destruct entries as [|entry entries]; [congruence|].
  cbn [map] in Hgrid.
  destruct (to_grid_cons _ _ _ _ Hgrid) as (cells & grid' & -> & Hc & Hg).
  destruct (run_save_entry show_num "Tasks" entry cells w _ Hr
              (opened_tasks w) Hc) as (wa & Hruna & Hla & Hoa).
  assert (Hva : lookup_sheet "Travel" (sheets wa)
                = Some (table "Travel" TRAVEL_HEADER w)).
  { now rewrite Hoa by discriminate. }
  destruct (run_save_each show_num entries grid' wa _ _
              (proj1 (proj2 Hruna)) Hla Hva Hg) as (w2 & Hrun2 & Hl2 & Ho2).
  exists w1, w2. split; [exact Hrun1|]. split.
  - cbn [for_each]. apply (runs_bind _ _ _ _ _ _ _ Hruna Hrun2).
  - intros t. destruct (String.eqb t "Tasks") eqn:E.
    + apply String.eqb_eq in E. subst t.
      rewrite Hl1, Hl2, <- app_assoc. reflexivity.
    + apply String.eqb_neq in E. now rewrite Ho1, Ho2, Hoa by exact E.
Qed.

Lemma bulk_save_as_save_each_witness :
  let entries :=
    [new_entry "Gym" "Personal" "Club" 738895 (Calendar.mk_time 18 0)
       (Q2Qc 60) "High" "";
     new_entry "Gym" "Personal" "Club" 738897 (Calendar.mk_time 18 0)
       (Q2Qc 60) "High" ""] in
  let grid :=
    [recurring_cells Sample.show_num "Gym" "Personal" "Club"
       (Calendar.mk_time 18 0) (Q2Qc 60) "High" "" 738895;
     recurring_cells Sample.show_num "Gym" "Personal" "Club"
       (Calendar.mk_time 18 0) (Q2Qc 60) "High" "" 738897] in
  (reliable blank_world
   /\ entries <> []
   /\ to_grid Sample.show_num
        (map (fun entry => map str_if_temporal (dict_values entry)) entries)
      = inr grid)
  /\ exists w1 w2,
      bulk_save_entries Sample.show_num "Tasks" entries blank_world
      = (inr tt, w1)
      /\ for_each entries (save_entry Sample.show_num "Tasks") blank_world
         = (inr tt, w2)
      /\ forall t, lookup_sheet t (sheets w1) = lookup_sheet t (sheets w2).
Proof.
  intros entries grid.
  assert (H1 : reliable blank_world) by reflexivity.
  assert (H2 : entries <> []) by discriminate.
  assert (H3 : to_grid Sample.show_num
                 (map (fun entry => map str_if_temporal (dict_values entry))
                    entries)
               = inr grid) by reflexivity.
  split; [repeat split; assumption|].
  exact (bulk_save_as_save_each Sample.show_num blank_world entries grid
           H1 H2 H3).
Defined.

(** ** Deleting a task *)

Lemma rstrip_keeps (cells : list string) :
  forall (i j : nat) (x y : string),
    nth_error cells i = Some x ->
    nth_error cells j = Some y -> y <> "" -> (i <= j)%nat ->
    nth_error (Grid.rstrip cells) i = Some x.
Proof.
  induction cells as [|a cells IH]; intros i j x y Hi Hj Hy Hle.
  - destruct i; discriminate.
  - cbn [Grid.rstrip]. destruct j as [|j].
    + assert (i = 0%nat) by lia. subst i. simpl in Hi, Hj.
      injection Hi as <-. injection Hj as <-.
      destruct (Grid.rstrip cells); [|reflexivity].
      destruct (String.eqb a "") eqn:E; [|reflexivity].
      apply String.eqb_eq in E. contradiction.
    + simpl in Hj.
      pose proof (IH j j y y Hj Hj Hy (Nat.le_refl j)) as Hkept.
      destruct (Grid.rstrip cells) as [|k kept] eqn:Hstrip;
        [destruct j; discriminate|].
      destruct i as [|i]; [exact Hi|].
      simpl in Hi. simpl.
      apply (IH i j x y Hi Hj Hy). lia.
Qed.

Lemma first_match_only (date time : string) (ws : worksheet) (r : nat)
  (cells : list cell) :
  (forall c, In c cells -> row_matches date time ws (row c) = true ->
             row c = r) ->
  (exists c, In c cells /\ row_matches date time ws (row c) = true) ->
  first_match date time ws cells = Some r.
Proof.
  induction cells as [|c cells IH]; intros Honly (x & Hin & Hx);
    [contradiction|].
  simpl. destruct (row_matches date time ws (row c)) eqn:Hc.
  - f_equal. apply Honly; [now left | exact Hc].
  - apply IH.
    + intros y Hy. apply Honly. now right.
    + destruct Hin as [-> | Hin]; [congruence|]. now exists x.
Qed.

Lemma row_values_stored (ws : worksheet) (cells : list string) (r : nat) :
  (1 <= r <= List.length ws)%nat ->
  Grid.row_values (ws ++ [cells]) r = Grid.row_values ws r.
Proof.
  intros Hr. unfold Grid.row_values. f_equal. apply app_nth1. lia.
Qed.

Lemma row_values_last (ws : worksheet) (cells : list string) :
  Grid.row_values (ws ++ [cells]) (S (List.length ws)) = Grid.rstrip cells.
Proof.
  unfold Grid.row_values. cbn [pred]. f_equal.
  rewrite app_nth2 by lia. now rewrite Nat.sub_diag.
Qed.

Lemma delete_last_row (ws : worksheet) (cells : list string) :
  Grid.delete_rows (ws ++ [cells]) (S (List.length ws)) = ws.
Proof.
  unfold Grid.delete_rows. cbn [pred].
  rewrite firstn_app, Nat.sub_diag, firstn_all. cbn [firstn].
  rewrite skipn_all2 by (rewrite length_app; simpl; lia).
  now rewrite !app_nil_r.
Qed.

(** X14. A task just saved can be taken back.  Over a reliable transport,
    when no stored row has the date and the start time of the form's entry
    in its fourth and fifth cell, saving the entry and then deleting by its
    name, date and start time returns [True] and leaves the Tasks
    worksheet with the rows it had before the save. *)
Theorem save_then_delete_task (show_num : Qc -> string) (w : World)
  (task cat loc : string) (d : Z) (start_t : Calendar.time) (dur : Qc)
  (priority notes : string) :
  reliable w ->
  (forall r : nat,
      row_matches (Calendar.str_date d) (Calendar.strftime_HM start_t)
        (table "Tasks" TASKS_HEADER w) r = false) ->
  exists w1 w2,
    save_entry show_num "Tasks"
      (new_entry task cat loc d start_t dur priority notes) w
    = (inr tt, w1)
    /\ delete_task_from_sheet task d (Calendar.strftime_HM start_t) w1
       = (inr true, w2)
    /\ lookup_sheet "Tasks" (sheets w2)
       = Some (table "Tasks" TASKS_HEADER w).
Proof.
  intros Hr Hfree.
  set (ws := table "Tasks" TASKS_HEADER w) in *.
  set (cells := recurring_cells show_num task cat loc start_t dur priority
                  notes d).
  destruct (run_save_entry show_num "Tasks"
              (new_entry task cat loc d start_t dur priority notes) cells w ws
              Hr (opened_tasks w) eq_refl)
    as (w1 & (Hrun1 & Hr1 & _) & Hl1 & _).
  destruct (delete_task_first_found w1 task d (Calendar.strftime_HM start_t)
              Hr1) as (w2 & Hrun2 & _ & Hl2).
  assert (Htable : table "Tasks" TASKS_HEADER w1 = ws ++ [cells]).
  { unfold table. now rewrite Hl1. }
  rewrite Htable in Hrun2, Hl2.
  assert (Hlast : row_matches (Calendar.str_date d)
                    (Calendar.strftime_HM start_t) (ws ++ [cells])
                    (S (List.length ws)) = true).
  { unfold row_matches. rewrite row_values_last.
    rewrite (rstrip_keeps cells 3 7 (Calendar.str_date d) "Pending");
      [|reflexivity | reflexivity | discriminate | lia].
    rewrite (rstrip_keeps cells 4 7 (Calendar.strftime_HM start_t) "Pending");
      [|reflexivity | reflexivity | discriminate | lia].
    now rewrite !String.eqb_refl. }
  assert (Hfirst : first_match (Calendar.str_date d)
                     (Calendar.strftime_HM start_t) (ws ++ [cells])
                     (Grid.findall (ws ++ [cells]) task)
                   = Some (S (List.length ws))).
  { apply first_match_only.
    - intros c Hc Hm.
      destruct (findall_sound _ _ _ Hc) as (Hrow & _).
      rewrite length_app in Hrow. simpl in Hrow.
      destruct (Nat.eq_dec (row c) (S (List.length ws))) as [E | E];
        [exact E|].
      unfold row_matches in Hm.
      rewrite row_values_stored in Hm by lia.
      fold (row_matches (Calendar.str_date d) (Calendar.strftime_HM start_t)
              ws (row c)) in Hm.
      rewrite Hfree in Hm. discriminate.
    - exists (mk_cell (S (List.length ws)) 1 task). split; [|exact Hlast].
      apply (findall_complete (ws ++ [cells]) task (List.length ws) 0 cells).
      + rewrite nth_error_app2 by lia. now rewrite Nat.sub_diag.
      + reflexivity. }
  rewrite Hfirst in Hrun2, Hl2. cbn [deleted after_delete] in Hrun2, Hl2.
  rewrite delete_last_row in Hl2.
  exists w1, w2. auto.
Qed.

Lemma save_then_delete_task_witness :
  (reliable quiet_world
   /\ forall r : nat,
       row_matches (Calendar.str_date 738896)
         (Calendar.strftime_HM (Calendar.mk_time 7 30))
         (table "Tasks" TASKS_HEADER quiet_world) r = false)
  /\ exists w1 w2,
      save_entry Sample.show_num "Tasks"
        (new_entry "Run" "Health" "Park" 738896 (Calendar.mk_time 7 30)
           (Q2Qc 45) "Low" "") quiet_world
      = (inr tt, w1)
      /\ delete_task_from_sheet "Run" 738896
           (Calendar.strftime_HM (Calendar.mk_time 7 30)) w1
         = (inr true, w2)
      /\ lookup_sheet "Tasks" (sheets w2)
         = Some (table "Tasks" TASKS_HEADER quiet_world).
Proof.
  assert (H1 : reliable quiet_world) by reflexivity.
  assert (H2 : forall r : nat,
             row_matches (Calendar.str_date 738896)
               (Calendar.strftime_HM (Calendar.mk_time 7 30))
               (table "Tasks" TASKS_HEADER quiet_world) r = false).
  { intros [|[|[|r]]]; [reflexivity | reflexivity | reflexivity|].
    unfold row_matches, Grid.row_values.
    change (table "Tasks" TASKS_HEADER quiet_world)
      with [TASKS_HEADER;
            ["Study"; "Personal"; "Home"; "2024-01-10"; "18:00"; "60"; "Low";
             "Pending"; ""]].
    cbn [pred nth]. now destruct r. }
  split; [split; assumption|].
  exact (save_then_delete_task Sample.show_num quiet_world "Run" "Health"
           "Park" 738896 (Calendar.mk_time 7 30) (Q2Qc 45) "Low" "" H1 H2).
Defined.

Lemma first_match_none (date time : string) (ws : worksheet)
  (cells : list cell) :
  first_match date time ws cells = None ->
  forall c, In c cells -> row_matches date time ws (row c) = false.
Proof.
  induction cells as [|x cells IH]; intros Hnone c Hc; [contradiction|].
  simpl in Hnone.
  destruct (row_matches date time ws (row x)) eqn:Hx; [discriminate|].
  destruct Hc as [<- | Hc]; [exact Hx | now apply IH].
Qed.

(** X15. What a deletion does, over a reliable transport.  It returns a
    boolean and shows nothing.  On [True] exactly one row is gone: a row
    of the sheet that has the task name in one of its cells, whichever the
    column, and the date and the time asked for as its fourth and fifth
    value.  On [False] the sheet is as it was, and no row with the name in
    one of its cells has that date and time. *)
Theorem delete_task_outcome (w : World) (task_name : string) (d : Z)
  (time : string) :
  reliable w ->
  exists (b : bool) (w' : World),
    delete_task_from_sheet task_name d time w = (inr b, w')
    /\ notices w' = notices w
    /\ (b = true ->
        exists r c : nat,
          (1 <= r <= List.length (table "Tasks" TASKS_HEADER w))%nat
          /\ (1 <= c)%nat
          /\ Grid.cell_value (table "Tasks" TASKS_HEADER w) r c = task_name
          /\ row_matches (Calendar.str_date d) time
               (table "Tasks" TASKS_HEADER w) r = true
          /\ lookup_sheet "Tasks" (sheets w')
             = Some (Grid.delete_rows (table "Tasks" TASKS_HEADER w) r))
    /\ (b = false ->
        lookup_sheet "Tasks" (sheets w')
        = Some (table "Tasks" TASKS_HEADER w)
        /\ forall c,
            In c (Grid.findall (table "Tasks" TASKS_HEADER w) task_name) ->
            row_matches (Calendar.str_date d) time
              (table "Tasks" TASKS_HEADER w) (row c) = false).
Proof.
  intros Hr.
  destruct (delete_task_first_found w task_name d time Hr)
    as (w' & Hrun & Hn & Hl).
  set (ws := table "Tasks" TASKS_HEADER w) in *.
  destruct (first_match (Calendar.str_date d) time ws
              (Grid.findall ws task_name)) as [r|] eqn:Hfirst.
  - exists true, w'. split; [exact Hrun|]. split; [exact Hn|].
    split; [|discriminate]. intros _.
    destruct (first_match_In _ _ _ _ _ Hfirst) as (c & Hc & Hrow & Hm).
    destruct (findall_sound _ _ _ Hc) as (Hbound & Hcol & _ & Hval).
    exists r, (col c). rewrite <- Hrow. rewrite <- Hrow in Hm, Hl.
    repeat split; try assumption; lia.
  - exists false, w'. split; [exact Hrun|]. split; [exact Hn|].
    split; [discriminate|]. intros _. split; [exact Hl|].
    now apply first_match_none.
Qed.

Lemma delete_task_outcome_witness :
  reliable study_world
  /\ exists (b : bool) (w' : World),
      delete_task_from_sheet "Gym" 738895 "18:00" study_world = (inr b, w')
      /\ notices w' = notices study_world
      /\ (b = true ->
          exists r c : nat,
            (1 <= r <= List.length (table "Tasks" TASKS_HEADER study_world))%nat
            /\ (1 <= c)%nat
            /\ Grid.cell_value (table "Tasks" TASKS_HEADER study_world) r c
               = "Gym"
            /\ row_matches (Calendar.str_date 738895) "18:00"
                 (table "Tasks" TASKS_HEADER study_world) r = true
            /\ lookup_sheet "Tasks" (sheets w')
               = Some (Grid.delete_rows
                         (table "Tasks" TASKS_HEADER study_world) r))
      /\ (b = false ->
          lookup_sheet "Tasks" (sheets w')
          = Some (table "Tasks" TASKS_HEADER study_world)
          /\ forall c,
              In c (Grid.findall (table "Tasks" TASKS_HEADER study_world)
                      "Gym") ->
              row_matches (Calendar.str_date 738895) "18:00"
                (table "Tasks" TASKS_HEADER study_world) (row c) = false).
Proof.
  split; [reflexivity|].
  apply (delete_task_outcome study_world "Gym" 738895 "18:00"). reflexivity.
Defined.

(** ** The search and the loop of a status update, and nothing else, are
    inside the [try] *)

(** X16. With both worksheets in place, a status update opens them with
    four API calls and then searches.  When the transport fails the
    search, the update returns normally, shows the warning and leaves the
    spreadsheet as it was; when the transport fails the first call, the
    update raises and shows nothing. *)
Theorem update_status_failures (sh : list (string * worksheet))
  (fs : list bool) (cl : list call) (nt : list string)
  (tasks travel : worksheet) (task_name : string) (d : Z)
  (new_status : string) :
  lookup_sheet "Tasks" sh = Some tasks ->
  lookup_sheet "Travel" sh = Some travel ->
  update_status_in_sheet task_name d new_status
    (mk_world sh (false :: false :: false :: false :: true :: fs) cl nt)
  = (inr tt,
     mk_world sh fs
       (cl ++ [OpenByUrl; GetWorksheet "Tasks"; GetWorksheet "Travel";
               GetWorksheet "Tasks"; FindAll "Tasks" task_name])
       (nt ++ [NOT_UPDATED]))
  /\ update_status_in_sheet task_name d new_status
       (mk_world sh (true :: fs) cl nt)
     = (inl APIError, mk_world sh fs (cl ++ [OpenByUrl]) nt).
Proof.
  intros Ht Hv. split; [|reflexivity].
  unfold update_status_in_sheet, init_sheets, try_except,
    Gspread.open_by_url, Gspread.worksheet, Gspread.findall, st_warning,
    bind, request, ret.
  cbn [faults sheets calls notices].
  rewrite ?Ht, ?Hv; cbn [faults sheets calls notices].
  rewrite ?Ht, ?Hv; cbn [faults sheets calls notices].
  rewrite ?Ht, ?Hv; cbn [faults sheets calls notices].
  rewrite <- !app_assoc. reflexivity.
Qed.

Lemma update_status_failures_witness :
  (lookup_sheet "Tasks" (sheets gym_world)
   = Some [TASKS_HEADER; gym_row; gym_row]
   /\ lookup_sheet "Travel" (sheets gym_world) = Some [TRAVEL_HEADER])
  /\ update_status_in_sheet "Gym" 738895 "Done"
       (mk_world (sheets gym_world) [false; false; false; false; true] [] [])
     = (inr tt,
        mk_world (sheets gym_world) []
          ([] ++ [OpenByUrl; GetWorksheet "Tasks"; GetWorksheet "Travel";
                  GetWorksheet "Tasks"; FindAll "Tasks" "Gym"])
          ([] ++ [NOT_UPDATED]))
  /\ update_status_in_sheet "Gym" 738895 "Done"
       (mk_world (sheets gym_world) [true] [] [])
     = (inl APIError, mk_world (sheets gym_world) [] ([] ++ [OpenByUrl]) []).
Proof.
  assert (H1 : lookup_sheet "Tasks" (sheets gym_world)
               = Some [TASKS_HEADER; gym_row; gym_row]) by reflexivity.
  assert (H2 : lookup_sheet "Travel" (sheets gym_world)
               = Some [TRAVEL_HEADER]) by reflexivity.
  split; [split; assumption|].
  exact (update_status_failures (sheets gym_world) [] [] [] _ _ "Gym" 738895
           "Done" H1 H2).
Defined.

(** ** A status update over a reliable transport *)

Lemma update_status_never_warns_witness :
  reliable gym_world
  /\ exists w',
      update_status_in_sheet "Gym" 738895 "Done" gym_world = (inr tt, w')
      /\ notices w' = notices gym_world.
Proof.
  split; [reflexivity|].
  apply (update_status_never_warns gym_world "Gym" 738895 "Done").
  reflexivity.
Defined.
